(** * Essence: the application state of the pivot dashboard

    A shallow embedding of [common/models/essence/essence.ts] and
    [common/models/filter-clause/filter-clause.ts].

    The state object is modelled as a record, its methods as functions that
    return in an error monad (a JavaScript [throw] is [Throw]), and the value
    classes it collaborates with (filters, splits, colours, data sources,
    visualisation manifests, the JSON and lz-string codecs) as one interface,
    [Collaborators], over which every definition is generic. *)

From Stdlib Require Import List String Ascii ZArith Bool Arith Lia DecimalString.
Import ListNotations.
Local Open Scope string_scope.
Local Open Scope nat_scope.

Set Warnings "-register-all".

(** ** Exceptions *)

Inductive Error : Type :=
| TypeError (what : string)
| JsError (message : string).

Inductive result (A : Type) : Type :=
| Ok (a : A)
| Throw (e : Error).

Arguments Ok {A} a.
Arguments Throw {A} e.

Definition bind {A B : Type} (m : result A) (k : A -> result B) : result B :=
  match m with
  | Ok a => k a
  | Throw e => Throw e
  end.

Notation "x <- m ;; k" := (bind m (fun x => k))
  (at level 61, m at next level, right associativity).

(** The call returned; it did not throw. *)
Definition returns {A : Type} (m : result A) : bool :=
  match m with Ok _ => true | Throw _ => false end.

(** ** JavaScript values that travel through JSON *)

Inductive json : Type :=
| JNull
| JBool (b : bool)
| JNum (n : Z)
| JStr (s : string)
| JArr (items : list json)
| JObj (fields : list (string * json)).

(** A slot that may be [undefined]. *)
Definition any : Type := option json.

(** [Boolean(v)] *)
Definition truthy (v : json) : bool :=
  match v with
  | JNull => false
  | JBool b => b
  | JNum n => negb (n =? 0)%Z
  | JStr s => negb (String.eqb s "")
  | JArr _ => true
  | JObj _ => true
  end.

(** [v || null] on a slot. *)
Definition or_null (v : any) : json :=
  match v with
  | Some j => if truthy j then j else JNull
  | None => JNull
  end.

(** ** Strings: [split], [join], [parseInt] *)

Definition slash : ascii := "/"%char.

(** [s.split(sep)] for a one-character separator: never empty. *)
Fixpoint split (sep : ascii) (s : string) : list string :=
  match s with
  | EmptyString => [EmptyString]
  | String c rest =>
    if Ascii.eqb c sep then EmptyString :: split sep rest
    else match split sep rest with
         | [] => [String c EmptyString]
         | p :: ps => String c p :: ps
         end
  end.

(** [if (hash[0] === '#') hash = hash.substr(1)] *)
Definition trim_leading_hash (hash : string) : string :=
  match hash with
  | String "#" rest => rest
  | _ => hash
  end.

(** The character occurs in the string. *)
Fixpoint mentions (c : ascii) (s : string) : bool :=
  match s with
  | EmptyString => false
  | String d rest => Ascii.eqb d c || mentions c rest
  end.

(** [parts.join(sep)] *)
Fixpoint join (sep : string) (parts : list string) : string :=
  match parts with
  | [] => ""
  | [p] => p
  | p :: ps => p ++ sep ++ join sep ps
  end.

(** Characters that [parseInt] skips in front of the number. Strings are
    sequences of 8-bit code units, so of the Unicode white space only the
    Latin-1 part is present. *)
Definition is_white_space (c : ascii) : bool :=
  let n := nat_of_ascii c in
  ((9 <=? n) && (n <=? 13)) || (n =? 32) || (n =? 160).

Definition digit_value (c : ascii) : option Z :=
  let n := nat_of_ascii c in
  if (48 <=? n) && (n <=? 57) then Some (Z.of_nat (n - 48)) else None.

Fixpoint skip_white_space (s : string) : string :=
  match s with
  | String c rest => if is_white_space c then skip_white_space rest else s
  | EmptyString => s
  end.

(** The longest prefix of decimal digits, read left to right. *)
Fixpoint parse_digits (acc : option Z) (s : string) : option Z :=
  match s with
  | EmptyString => acc
  | String c rest =>
    match digit_value c with
    | Some d =>
      parse_digits (Some (match acc with Some a => 10 * a + d | None => d end)%Z) rest
    | None => acc
    end
  end.

(** [parseInt(s, 10)]; [None] is [NaN]. *)
Definition parseInt (s : string) : option Z :=
  match skip_white_space s with
  | String "-" rest => option_map Z.opp (parse_digits None rest)
  | String "+" rest => parse_digits None rest
  | t => parse_digits None t
  end.

(** ** Ordered sets of names (Immutable's [OrderedSet<string>]) *)

Definition OrderedSet : Type := list string.

Definition has (name : string) (s : OrderedSet) : bool :=
  existsb (String.eqb name) s.

Definition add (name : string) (s : OrderedSet) : OrderedSet :=
  if has name s then s else (s ++ [name])%list.

Definition delete (name : string) (s : OrderedSet) : OrderedSet :=
  filter (fun n => negb (String.eqb n name)) s.

(** [OrderedSet(array)]: the elements are added one by one, so a repeated
    name stays at its first position. *)
Definition OrderedSet_of (names : list string) : OrderedSet :=
  fold_left (fun acc n => add n acc) names [].

(** [l] lists some of the elements of [order], in the order they have there. *)
Fixpoint in_order_of (order l : list string) : bool :=
  match l, order with
  | [], _ => true
  | _ :: _, [] => false
  | x :: l', y :: order' =>
    if String.eqb x y then in_order_of order' l' else in_order_of order' l
  end.

(** [array[i] = v]: JavaScript pads the array with holes up to [i]. *)
Fixpoint array_set (arr : list any) (i : nat) (v : json) : list any :=
  match i, arr with
  | O, [] => [Some v]
  | O, _ :: rest => Some v :: rest
  | S k, [] => None :: array_set [] k v
  | S k, x :: rest => x :: array_set rest k v
  end.

(** [array[i]]: [undefined] for a hole and out of range. *)
Definition array_get (arr : list json) (i : nat) : any := nth_error arr i.

(** [array.sort(compare)[0]] is taken from a stable insertion sort: equal
    elements keep their order. *)
Section Sort.
Context {A : Type} (compare : A -> A -> Z).

Fixpoint insert_sorted (x : A) (l : list A) : list A :=
  match l with
  | [] => [x]
  | y :: rest =>
    if (compare x y <=? 0)%Z then x :: l else y :: insert_sorted x rest
  end.

Definition sort (l : list A) : list A := fold_right insert_sorted [] l.
End Sort.

(** * The filter clause *)

Module FilterClause.
Section Def.
Variables Expression PlywoodSet : Type.

(** What arrives in the [values] field at run time: a plywood [Set], or
    any other value. *)
Inductive values_slot : Type :=
| IsSet (s : PlywoodSet)
| NotSet (v : any).

Record FilterClauseValue : Type := {
  v_expression : Expression;
  v_values : values_slot;
  v_exclude : option bool;
  v_required : option bool
}.

Record t : Type := {
  expression : Expression;
  values : PlywoodSet;
  exclude : bool;
  required : bool
}.

(** [Set.isSet(candidate)] *)
Definition isSet (candidate : values_slot) : bool :=
  match candidate with IsSet _ => true | NotSet _ => false end.

(** [flag || false] *)
Definition or_false (flag : option bool) : bool :=
  match flag with Some b => b | None => false end.

(** [constructor(parameters)]; the one test is
    [if (!Set.isSet(this.values)) throw new Error('must be a set')]. *)
Definition new (parameters : FilterClauseValue) : result t :=
  match v_values parameters with
  | NotSet _ => Throw (JsError "must be a set")
  | IsSet s =>
    Ok {| expression := v_expression parameters;
          values := s;
          exclude := or_false (v_exclude parameters);
          required := or_false (v_required parameters) |}
  end.

Definition valueOf (this : t) : FilterClauseValue :=
  {| v_expression := expression this;
     v_values := IsSet (values this);
     v_exclude := Some (exclude this);
     v_required := Some (required this) |}.

Definition changeValues (this : t) (vs : values_slot) : result t :=
  let value := valueOf this in
  new {| v_expression := v_expression value;
         v_values := vs;
         v_exclude := v_exclude value;
         v_required := Some (required this) |}.
End Def.

Arguments IsSet {PlywoodSet} s.
Arguments NotSet {PlywoodSet} v.
Arguments v_expression {Expression PlywoodSet} _.
Arguments v_values {Expression PlywoodSet} _.
Arguments v_exclude {Expression PlywoodSet} _.
Arguments v_required {Expression PlywoodSet} _.
Arguments expression {Expression PlywoodSet} _.
Arguments values {Expression PlywoodSet} _.
Arguments exclude {Expression PlywoodSet} _.
Arguments required {Expression PlywoodSet} _.
Arguments isSet {PlywoodSet} candidate.
Arguments new {Expression PlywoodSet} parameters.
Arguments valueOf {Expression PlywoodSet} this.
Arguments changeValues {Expression PlywoodSet} this vs.

(** The rest of the class: conversion to and from JSON and to and from a
    plywood expression. What it calls of plywood is a parameter. *)
Section Conversions.
Variables Expression PlywoodSet TimeRange : Type.

(** The value that an [in] action carries. *)
Inductive literal : Type :=
| LiteralSet (s : PlywoodSet)
| LiteralTimeRange (range : TimeRange)
| LiteralOther (v : any).

(** The actions that [fromExpression] tells apart with [instanceof]. *)
Inductive action : Type :=
| NotAction
| InAction (value : literal)
| OtherAction.

Record FilterClauseJS : Type := {
  js_expression : json;
  js_values : json;
  js_exclude : any;
  js_required : any
}.

Variable Expression_fromJS : json -> result Expression.
Variable Expression_toJS : Expression -> json.
Variable Expression_equals : Expression -> Expression -> bool.
Variable Expression_toString : Expression -> string.
(** [ex.lastAction()], [null] for an expression without actions *)
Variable lastAction : Expression -> option action.
Variable popAction : Expression -> Expression.
(** [ex.in(value)] and [ex.not()] *)
Variable Expression_in : Expression -> literal -> Expression.
Variable Expression_not : Expression -> Expression.
Variable Set_fromJS : json -> result PlywoodSet.
Variable Set_toJS : PlywoodSet -> json.
Variable Set_equals : PlywoodSet -> PlywoodSet -> bool.
(** [Set.fromJS([range])] *)
Variable Set_of_TimeRange : TimeRange -> PlywoodSet.
(** [values.elements[0]] when [values.size() === 1] and it is a time range *)
Variable Set_single_TimeRange : PlywoodSet -> option TimeRange.

(** [Boolean(flag)] on an optional field *)
Definition flag_set (flag : any) : bool :=
  match flag with Some j => truthy j | None => false end.

(** [FilterClause.fromExpression(ex, required = false)] *)
Definition fromExpression (ex : Expression) (required : bool)
  : result (t Expression PlywoodSet) :=
  let exclude := false in
  let (ex, exclude) :=
    match lastAction ex with
    | Some NotAction => (popAction ex, true)
    | _ => (ex, exclude)
    end in
  match lastAction ex with
  | Some (InAction val) =>
    new {| v_expression := popAction ex;
           v_values :=
             match val with
             | LiteralTimeRange range => IsSet (Set_of_TimeRange range)
             | LiteralSet s => IsSet s
             | LiteralOther v => NotSet v
             end;
           v_exclude := Some exclude;
           v_required := Some required |}
  | _ => Throw (JsError ("invalid expression " ++ Expression_toString ex))
  end.

(** [FilterClause.fromJS(parameters)] *)
Definition fromJS (parameters : FilterClauseJS) : result (t Expression PlywoodSet) :=
  expression <- Expression_fromJS (js_expression parameters) ;;
  values <- Set_fromJS (js_values parameters) ;;
  new {| v_expression := expression;
         v_values := IsSet values;
         v_exclude := Some (flag_set (js_exclude parameters));
         v_required := Some (flag_set (js_required parameters)) |}.

Definition toJS (this : t Expression PlywoodSet) : FilterClauseJS :=
  {| js_expression := Expression_toJS (expression this);
     js_values := Set_toJS (values this);
     js_exclude := if exclude this then Some (JBool true) else None;
     js_required := if required this then Some (JBool true) else None |}.

Definition equals (this other : t Expression PlywoodSet) : bool :=
  Expression_equals (expression this) (expression other) &&
  Set_equals (values this) (values other) &&
  Bool.eqb (exclude this) (exclude other) &&
  Bool.eqb (required this) (required other).

Definition toExpression (this : t Expression PlywoodSet) : Expression :=
  let values := values this in
  let ex :=
    match Set_single_TimeRange values with
    | Some range => Expression_in (expression this) (LiteralTimeRange range)
    | None => Expression_in (expression this) (LiteralSet values)
    end in
  if exclude this then Expression_not ex else ex.
End Conversions.

Arguments LiteralSet {PlywoodSet TimeRange} s.
Arguments LiteralTimeRange {PlywoodSet TimeRange} range.
Arguments LiteralOther {PlywoodSet TimeRange} v.
Arguments NotAction {PlywoodSet TimeRange}.
Arguments InAction {PlywoodSet TimeRange} value.
Arguments OtherAction {PlywoodSet TimeRange}.
Arguments fromExpression {Expression PlywoodSet TimeRange} _ _ _ _ ex required.
Arguments fromJS {Expression PlywoodSet} _ _ parameters.
Arguments toJS {Expression PlywoodSet} _ _ this.
Arguments equals {Expression PlywoodSet} _ _ this other.
Arguments toExpression {Expression PlywoodSet TimeRange} _ _ _ this.
End FilterClause.

(** * Visualisation verdicts *)

(** Modelled from the spec: [Resolve] of [manifest.ts] is not among the
    sources. A verdict is in one of three states (ready, needs automatic
    adjustment, manual), and an automatic one carries the adjustment (new
    splits and, optionally, colours) that the visualisation suggests. *)
Inductive ResolveState : Type := ready | automatic | manual.

Record Adjustment (Splits Colors : Type) : Type := {
  adj_splits : Splits;
  adj_colors : option Colors
}.

Record Resolve (Splits Colors : Type) : Type := {
  state : ResolveState;
  adjustment : option (Adjustment Splits Colors)
}.

Arguments adj_splits {Splits Colors} _.
Arguments adj_colors {Splits Colors} _.
Arguments state {Splits Colors} _.
Arguments adjustment {Splits Colors} _.

Definition isReady {S C : Type} (r : Resolve S C) : bool :=
  match state r with ready => true | _ => false end.

Definition isAutomatic {S C : Type} (r : Resolve S C) : bool :=
  match state r with automatic => true | _ => false end.

Definition isManual {S C : Type} (r : Resolve S C) : bool :=
  match state r with manual => true | _ => false end.

Inductive VisStrategy : Type := FairGame | UnfairGame | KeepAlways.

Definition VisStrategy_eqb (a b : VisStrategy) : bool :=
  match a, b with
  | FairGame, FairGame | UnfairGame, UnfairGame | KeepAlways, KeepAlways => true
  | _, _ => false
  end.

(** * The collaborators of the state object

    The value classes and libraries that [essence.ts] imports. Their sources
    are not part of the development, so they are an interface: the types, and
    the operations the state object calls on them. A [fromJS] may throw on
    what it is handed; the other operations are total on their typed
    arguments. *)

Class Collaborators : Type := {
  (* chronoshift and plywood *)
  Timezone : Type;
  Duration : Type;
  Date : Type;
  TimeRange : Type;
  Expression : Type;
  PlywoodSet : Type;
  (* the models of the dashboard *)
  Filter : Type;
  SplitCombine : Type;
  Splits : Type;
  Colors : Type;
  Highlight : Type;
  Dimension : Type;
  Measure : Type;
  DataSource : Type;
  Manifest : Type;

  Timezone_fromJS : json -> result Timezone;
  Timezone_toJS : Timezone -> json;
  Timezone_equals : Timezone -> Timezone -> bool;

  Duration_move : Duration -> Date -> Timezone -> Z -> Date;
  (** [TimeRange.fromJS({ start, end })] *)
  TimeRange_fromJS : Date -> Date -> TimeRange;
  (** [range.equals(other)], where [other] may be [null] *)
  TimeRange_equals : TimeRange -> option TimeRange -> bool;

  Filter_fromJS : json -> result Filter;
  Filter_toJS : Filter -> json;
  Filter_equals : Filter -> Filter -> bool;
  Filter_clauses : Filter -> list (FilterClause.t Expression PlywoodSet);
  Filter_setClause : Filter -> FilterClause.t Expression PlywoodSet -> Filter;
  Filter_setTimeRange : Filter -> Expression -> TimeRange -> Filter;
  Filter_getTimeRange : Filter -> Expression -> option TimeRange;
  Filter_remove : Filter -> Expression -> Filter;
  (** [filter.constrainToDimensions(dimensions, timeAttribute, oldTimeAttribute?)] *)
  Filter_constrainToDimensions :
    Filter -> list Dimension -> option Expression -> option Expression -> Filter;

  SplitCombine_fromExpression : Expression -> SplitCombine;
  Splits_EMPTY : Splits;
  Splits_fromSplitCombine : SplitCombine -> Splits;
  Splits_fromJS : json -> result Splits;
  Splits_toJS : Splits -> json;
  Splits_equals : Splits -> Splits -> bool;
  Splits_constrainToDimensions : Splits -> list Dimension -> Splits;
  (** [splits.updateWithTimeRange(timeAttribute, timeRange, timezone, force?)] *)
  Splits_updateWithTimeRange :
    Splits -> Expression -> option TimeRange -> Timezone -> bool -> Splits;

  Colors_fromJS : json -> result Colors;
  Colors_toJS : Colors -> json;
  Colors_equals : Colors -> Colors -> bool;
  Colors_dimension : Colors -> string;

  Highlight_fromJS : json -> result Highlight;
  Highlight_toJS : Highlight -> json;
  Highlight_equals : Highlight -> Highlight -> bool;
  Highlight_owner : Highlight -> string;
  Highlight_applyToFilter : Highlight -> Filter -> Filter;
  Highlight_constrainToDimensions :
    Highlight -> list Dimension -> option Expression -> Highlight;

  Dimension_name : Dimension -> string;
  Dimension_expression : Dimension -> Expression;
  Measure_name : Measure -> string;

  DataSource_name : DataSource -> string;
  DataSource_dimensions : DataSource -> list Dimension;
  DataSource_measures : DataSource -> list Measure;
  DataSource_timeAttribute : DataSource -> option Expression;
  DataSource_defaultTimezone : DataSource -> Timezone;
  DataSource_defaultDuration : DataSource -> Duration;
  DataSource_defaultFilter : DataSource -> Filter;
  DataSource_requiredFilter : DataSource -> Filter;
  DataSource_defaultPinnedDimensions : DataSource -> OrderedSet;
  DataSource_defaultSortMeasure : DataSource -> string;
  (** [options['defaultSplitDimension']] when it is a string *)
  DataSource_defaultSplitDimension : DataSource -> option string;
  DataSource_getDimension : DataSource -> string -> option Dimension;
  DataSource_getMeasure : DataSource -> string -> option Measure;
  (** the latest time of the data, as the data source reports it *)
  DataSource_getMaxTimeDate : DataSource -> Date;
  DataSource_equals : DataSource -> DataSource -> bool;

  Manifest_id : Manifest -> string;
  (** [a === b] on manifests *)
  Manifest_is : Manifest -> Manifest -> bool;
  (** [visualization.handleCircumstance(dataSource, splits, colors, current)] *)
  handleCircumstance :
    Manifest -> DataSource -> Splits -> option Colors -> bool -> Resolve Splits Colors;
  (** [Resolve.compare] *)
  Resolve_compare : Resolve Splits Colors -> Resolve Splits Colors -> Z;

  (** [OrderedSet(value)] of Immutable when [value] is not an array of strings *)
  OrderedSet_untyped : json -> result OrderedSet;

  JSON_stringify : json -> string;
  JSON_parse : string -> result json;
  compressToBase64 : string -> string;
  (** lz-string answers [null] for some inputs *)
  decompressFromBase64 : string -> result (option string)
}.

Definition HASH_VERSION : Z := 1.

(** How [Array.prototype.join] and [+] print a value that may be [null]. *)
Definition string_or_null (s : option string) : string :=
  match s with Some t => t | None => "null" end.

(** What the remaining methods of the state object call besides. *)
Class MoreCollaborators `{Collaborators} : Type := {
  SortAction : Type;
  ApplyAction : Type;
  (** [sort.equals(other)], where [other] may be [null] *)
  SortAction_equals : SortAction -> option SortAction -> bool;
  (** [sort.expression.name], of a sort on a reference *)
  SortAction_refName : SortAction -> string;
  Measure_toApplyAction : Measure -> ApplyAction;
  Splits_toArray : Splits -> list SplitCombine;
  SplitCombine_sortAction : SplitCombine -> option SortAction;
  Splits_addSplit : Splits -> SplitCombine -> Splits;
  Splits_removeSplit : Splits -> SplitCombine -> Splits;
  (** [new Highlight({ owner, delta })] *)
  Highlight_new : string -> Filter -> Highlight;
  Highlight_delta : Highlight -> Filter;
  Filter_getSingleValue : Filter -> option PlywoodSet;
  (** [filter.setTimeRange(null, range)], on a data source without a time
      attribute *)
  Filter_setTimeRange_unbound : Filter -> TimeRange -> Filter;
  (** [a !== b] on data sources is [negb (DataSource_is a b)] *)
  DataSource_is : DataSource -> DataSource -> bool;
  DataSource_getTimeDimension : DataSource -> option Dimension
}.

(** * The state object *)

Module EssenceValue.
Section Def.
Context `{Collaborators}.

Record t : Type := {
  dataSources : list DataSource;
  visualizations : list Manifest;
  dataSource : option DataSource;
  visualization : option Manifest;
  timezone : Timezone;
  filter : Filter;
  requiredFilter : Filter;
  splits : Splits;
  selectedMeasures : OrderedSet;
  pinnedDimensions : OrderedSet;
  colors : option Colors;
  pinnedSort : string;
  compare : option Filter;
  highlight : option Highlight
}.

(** [value.field = x] on the copy that [valueOf] returns. *)
Definition set_dataSources (value : t) (x : list DataSource) : t :=
  let (_, viss, ds, vis, tz, f, rf, s, sm, pd, c, ps, cmp, h) := value in
  Build_t x viss ds vis tz f rf s sm pd c ps cmp h.

Definition set_visualizations (value : t) (x : list Manifest) : t :=
  let (dss, _, ds, vis, tz, f, rf, s, sm, pd, c, ps, cmp, h) := value in
  Build_t dss x ds vis tz f rf s sm pd c ps cmp h.

Definition set_dataSource (value : t) (x : option DataSource) : t :=
  let (dss, viss, _, vis, tz, f, rf, s, sm, pd, c, ps, cmp, h) := value in
  Build_t dss viss x vis tz f rf s sm pd c ps cmp h.

Definition set_visualization (value : t) (x : option Manifest) : t :=
  let (dss, viss, ds, _, tz, f, rf, s, sm, pd, c, ps, cmp, h) := value in
  Build_t dss viss ds x tz f rf s sm pd c ps cmp h.

Definition set_filter (value : t) (x : Filter) : t :=
  let (dss, viss, ds, vis, tz, _, rf, s, sm, pd, c, ps, cmp, h) := value in
  Build_t dss viss ds vis tz x rf s sm pd c ps cmp h.

Definition set_requiredFilter (value : t) (x : Filter) : t :=
  let (dss, viss, ds, vis, tz, f, _, s, sm, pd, c, ps, cmp, h) := value in
  Build_t dss viss ds vis tz f x s sm pd c ps cmp h.

Definition set_splits (value : t) (x : Splits) : t :=
  let (dss, viss, ds, vis, tz, f, rf, _, sm, pd, c, ps, cmp, h) := value in
  Build_t dss viss ds vis tz f rf x sm pd c ps cmp h.

Definition set_selectedMeasures (value : t) (x : OrderedSet) : t :=
  let (dss, viss, ds, vis, tz, f, rf, s, _, pd, c, ps, cmp, h) := value in
  Build_t dss viss ds vis tz f rf s x pd c ps cmp h.

Definition set_pinnedDimensions (value : t) (x : OrderedSet) : t :=
  let (dss, viss, ds, vis, tz, f, rf, s, sm, _, c, ps, cmp, h) := value in
  Build_t dss viss ds vis tz f rf s sm x c ps cmp h.

Definition set_colors (value : t) (x : option Colors) : t :=
  let (dss, viss, ds, vis, tz, f, rf, s, sm, pd, _, ps, cmp, h) := value in
  Build_t dss viss ds vis tz f rf s sm pd x ps cmp h.

Definition set_pinnedSort (value : t) (x : string) : t :=
  let (dss, viss, ds, vis, tz, f, rf, s, sm, pd, c, _, cmp, h) := value in
  Build_t dss viss ds vis tz f rf s sm pd c x cmp h.

Definition set_compare (value : t) (x : option Filter) : t :=
  let (dss, viss, ds, vis, tz, f, rf, s, sm, pd, c, ps, _, h) := value in
  Build_t dss viss ds vis tz f rf s sm pd c ps x h.

Definition set_highlight (value : t) (x : option Highlight) : t :=
  let (dss, viss, ds, vis, tz, f, rf, s, sm, pd, c, ps, cmp, _) := value in
  Build_t dss viss ds vis tz f rf s sm pd c ps cmp x.

End Def.
End EssenceValue.

Module EssenceJS.
Record t : Type := {
  dataSource : string;
  visualization : string;
  timezone : json;
  filter : json;
  requiredFilter : json;
  splits : json;
  selectedMeasures : json;
  pinnedDimensions : json;
  colors : any;
  pinnedSort : any;
  compare : any;
  highlight : any
}.
End EssenceJS.

Section Helpers.
Context `{Collaborators}.

(** [Boolean(object)] on a reference that may be [null] or [undefined]. *)
Definition Boolean {A : Type} (o : option A) : bool :=
  match o with Some _ => true | None => false end.

(** Reading a property of [undefined] throws. *)
Definition deref {A : Type} (o : option A) : result A :=
  match o with
  | Some a => Ok a
  | None => Throw (TypeError "Cannot read property of undefined")
  end.

Definition constrainDimensions (dimensions : OrderedSet) (dataSource : DataSource)
  : OrderedSet :=
  List.filter
    (fun dimensionName => Boolean (DataSource_getDimension dataSource dimensionName))
    dimensions.

Definition constrainMeasures (measures : OrderedSet) (dataSource : DataSource)
  : OrderedSet :=
  List.filter
    (fun measureName => Boolean (DataSource_getMeasure dataSource measureName))
    measures.

Record VisualizationAndResolve : Type := {
  vr_visualization : Manifest;
  vr_resolve : Resolve Splits Colors
}.

(** [a.equals(b)] on ordered sets compares the elements in order. *)
Fixpoint OrderedSet_equals (a b : OrderedSet) : bool :=
  match a, b with
  | [], [] => true
  | x :: a', y :: b' => String.eqb x y && OrderedSet_equals a' b'
  | _, _ => false
  end.

(** The strings of an array whose elements are all strings. *)
Fixpoint strings_of (items : list json) : option (list string) :=
  match items with
  | [] => Some []
  | JStr s :: rest => option_map (cons s) (strings_of rest)
  | _ :: _ => None
  end.

(** [OrderedSet(value)] on a value that came out of JSON. *)
Definition OrderedSet_fromJS (value : json) : result OrderedSet :=
  match value with
  | JArr items =>
    match strings_of items with
    | Some names => Ok (OrderedSet_of names)
    | None => OrderedSet_untyped value
    end
  | _ => OrderedSet_untyped value
  end.

(** [Boolean(a) === Boolean(b) && (!a || a.equals(b))] *)
Definition optional_equals {A : Type} (eq : A -> A -> bool) (a b : option A) : bool :=
  Bool.eqb (Boolean a) (Boolean b) &&
  match a with
  | None => true
  | Some x => match b with Some y => eq x y | None => false end
  end.

(** [slot ? fromJS(slot) : null] *)
Definition optional_fromJS {A : Type} (fromJS : json -> result A) (slot : any)
  : result (option A) :=
  match slot with
  | Some j => if truthy j then (a <- fromJS j ;; Ok (Some a)) else Ok None
  | None => Ok None
  end.
End Helpers.

Module Essence.
Section Def.
Context `{Collaborators}.

Record t : Type := {
  dataSources : list DataSource;
  visualizations : list Manifest;
  dataSource : DataSource;
  visualization : Manifest;
  timezone : Timezone;
  filter : Filter;
  requiredFilter : Filter;
  splits : Splits;
  selectedMeasures : OrderedSet;
  pinnedDimensions : OrderedSet;
  colors : option Colors;
  pinnedSort : string;
  compare : option Filter;
  highlight : option Highlight;
  visResolve : Resolve Splits Colors
}.

(** [getBestVisualization(splits, colors, currentVisualization)]; the
    catalogue and the data source are the fields of [this], which the
    constructor has assigned before it calls the method. *)
Definition getBestVisualization (visualizations : list Manifest)
    (dataSource : DataSource) (splits : Splits) (colors : option Colors)
    (currentVisualization : option Manifest) : option VisualizationAndResolve :=
  let visAndResolves :=
    map (fun visualization =>
           {| vr_visualization := visualization;
              vr_resolve :=
                handleCircumstance visualization dataSource splits colors
                  (match currentVisualization with
                   | Some current => Manifest_is visualization current
                   | None => false
                   end) |})
        visualizations in
  hd_error
    (sort (fun vr1 vr2 => Resolve_compare (vr_resolve vr1) (vr_resolve vr2))
          visAndResolves).

(** [constructor(parameters)] *)
Definition new (parameters : EssenceValue.t) : result t :=
  let dataSources := EssenceValue.dataSources parameters in
  if List.length dataSources =? 0
  then Throw (JsError "can not have empty dataSource list")
  else
  let visualizations := EssenceValue.visualizations parameters in
  match EssenceValue.dataSource parameters with
  | None => Throw (JsError "must have a dataSource")
  | Some dataSource =>
    let splits := EssenceValue.splits parameters in
    let colors := EssenceValue.colors parameters in
    visualization <-
      match EssenceValue.visualization parameters with
      | Some visualization => Ok visualization
      | None =>
        visAndResolve <-
          deref (getBestVisualization visualizations dataSource splits colors None) ;;
        Ok (vr_visualization visAndResolve)
      end ;;
    let build splits colors visResolve :=
      {| dataSources := dataSources;
         visualizations := visualizations;
         dataSource := dataSource;
         visualization := visualization;
         timezone := EssenceValue.timezone parameters;
         filter := EssenceValue.filter parameters;
         requiredFilter := EssenceValue.requiredFilter parameters;
         splits := splits;
         selectedMeasures := EssenceValue.selectedMeasures parameters;
         pinnedDimensions := EssenceValue.pinnedDimensions parameters;
         colors := colors;
         pinnedSort := EssenceValue.pinnedSort parameters;
         compare := EssenceValue.compare parameters;
         highlight := EssenceValue.highlight parameters;
         visResolve := visResolve |} in
    let visResolve := handleCircumstance visualization dataSource splits colors true in
    if isAutomatic visResolve then
      adjustment <- deref (adjustment visResolve) ;;
      let splits := adj_splits adjustment in
      let colors := adj_colors adjustment in
      let visResolve := handleCircumstance visualization dataSource splits colors true in
      if negb (isReady visResolve)
      then Throw (JsError "visualization must be ready after automatic adjustment")
      else Ok (build splits colors visResolve)
    else Ok (build splits colors visResolve)
  end.

Definition valueOf (this : t) : EssenceValue.t :=
  {| EssenceValue.dataSources := dataSources this;
     EssenceValue.visualizations := visualizations this;
     EssenceValue.dataSource := Some (dataSource this);
     EssenceValue.visualization := Some (visualization this);
     EssenceValue.timezone := timezone this;
     EssenceValue.filter := filter this;
     EssenceValue.requiredFilter := requiredFilter this;
     EssenceValue.splits := splits this;
     EssenceValue.selectedMeasures := selectedMeasures this;
     EssenceValue.pinnedDimensions := pinnedDimensions this;
     EssenceValue.colors := colors this;
     EssenceValue.pinnedSort := pinnedSort this;
     EssenceValue.compare := compare this;
     EssenceValue.highlight := highlight this |}.

Definition toJS (this : t) : EssenceJS.t :=
  let defaultSortMeasure := DataSource_defaultSortMeasure (dataSource this) in
  {| EssenceJS.dataSource := DataSource_name (dataSource this);
     EssenceJS.visualization := Manifest_id (visualization this);
     EssenceJS.timezone := Timezone_toJS (timezone this);
     EssenceJS.filter := Filter_toJS (filter this);
     EssenceJS.requiredFilter := Filter_toJS (requiredFilter this);
     EssenceJS.splits := Splits_toJS (splits this);
     EssenceJS.selectedMeasures := JArr (map JStr (selectedMeasures this));
     EssenceJS.pinnedDimensions := JArr (map JStr (pinnedDimensions this));
     EssenceJS.colors := option_map Colors_toJS (colors this);
     EssenceJS.pinnedSort :=
       if String.eqb (pinnedSort this) defaultSortMeasure then None
       else Some (JStr (pinnedSort this));
     EssenceJS.compare := option_map Filter_toJS (compare this);
     EssenceJS.highlight := option_map Highlight_toJS (highlight this) |}.

Definition equals (this other : t) : bool :=
  DataSource_equals (dataSource this) (dataSource other) &&
  String.eqb (Manifest_id (visualization this)) (Manifest_id (visualization other)) &&
  Timezone_equals (timezone this) (timezone other) &&
  Filter_equals (filter this) (filter other) &&
  Filter_equals (requiredFilter this) (requiredFilter other) &&
  Splits_equals (splits this) (splits other) &&
  OrderedSet_equals (selectedMeasures this) (selectedMeasures other) &&
  OrderedSet_equals (pinnedDimensions this) (pinnedDimensions other) &&
  optional_equals Colors_equals (colors this) (colors other) &&
  String.eqb (pinnedSort this) (pinnedSort other) &&
  optional_equals Filter_equals (compare this) (compare other) &&
  optional_equals Highlight_equals (highlight this) (highlight other).

(** [if (slot) compressed[i] = slot] *)
Definition set_if_truthy (compressed : list any) (i : nat) (slot : any) : list any :=
  match slot with
  | Some j => if truthy j then array_set compressed i j else compressed
  | None => compressed
  end.

(** The array that [toHash] serialises. *)
Definition compressed_of (js : EssenceJS.t) : list any :=
  let compressed :=
    [ Some (EssenceJS.timezone js);
      Some (EssenceJS.filter js);
      Some (EssenceJS.requiredFilter js);
      Some (EssenceJS.splits js);
      Some (EssenceJS.selectedMeasures js);
      Some (EssenceJS.pinnedDimensions js);
      EssenceJS.pinnedSort js ] in
  let compressed := set_if_truthy compressed 7 (EssenceJS.colors js) in
  let compressed := set_if_truthy compressed 8 (EssenceJS.compare js) in
  set_if_truthy compressed 9 (EssenceJS.highlight js).

Definition number_toString (n : Z) : string :=
  DecimalString.NilZero.string_of_int (Z.to_int n).

Definition toHash (this : t) : string :=
  let js := toJS this in
  let compressed := compressed_of js in
  let restJSON := map (fun slot => JSON_stringify (or_null slot)) compressed in
  "#" ++ join "/"
    [ EssenceJS.dataSource js;
      EssenceJS.visualization js;
      number_toString HASH_VERSION;
      compressToBase64 (join "," restJSON) ].

(** [Essence.fromJS(parameters, dataSources, visualizations)] *)
Definition fromJS (parameters : EssenceJS.t) (dataSources : list DataSource)
    (visualizations : list Manifest) : result t :=
  let dataSourceName := EssenceJS.dataSource parameters in
  let visualizationID := EssenceJS.visualization parameters in
  let visualization :=
    find (fun v => String.eqb (Manifest_id v) visualizationID) visualizations in
  let dataSource :=
    find (fun ds => String.eqb (DataSource_name ds) dataSourceName) dataSources in
  timezone <- Timezone_fromJS (EssenceJS.timezone parameters) ;;
  filter <- Filter_fromJS (EssenceJS.filter parameters) ;;
  (* [dataSource.dimensions]: the first property read of the data source *)
  ds <- deref dataSource ;;
  let dimensions := DataSource_dimensions ds in
  let timeAttribute := DataSource_timeAttribute ds in
  let filter := Filter_constrainToDimensions filter dimensions timeAttribute None in
  requiredFilter <- Filter_fromJS (EssenceJS.requiredFilter parameters) ;;
  let requiredFilter :=
    Filter_constrainToDimensions requiredFilter dimensions timeAttribute None in
  splits <- Splits_fromJS (EssenceJS.splits parameters) ;;
  let splits := Splits_constrainToDimensions splits dimensions in
  selectedMeasures <- OrderedSet_fromJS (EssenceJS.selectedMeasures parameters) ;;
  let selectedMeasures := constrainMeasures selectedMeasures ds in
  pinnedDimensions <- OrderedSet_fromJS (EssenceJS.pinnedDimensions parameters) ;;
  let pinnedDimensions := constrainDimensions pinnedDimensions ds in
  let defaultSortMeasureName := DataSource_defaultSortMeasure ds in
  colors <- optional_fromJS Colors_fromJS (EssenceJS.colors parameters) ;;
  (* [parameters.pinnedSort || defaultSortMeasureName]; a value that is not
     a string names no measure, so the check that follows puts the default
     in its place *)
  let pinnedSort :=
    match EssenceJS.pinnedSort parameters with
    | Some (JStr s) => if String.eqb s "" then defaultSortMeasureName else s
    | _ => defaultSortMeasureName
    end in
  let pinnedSort :=
    if negb (Boolean (DataSource_getMeasure ds pinnedSort))
    then defaultSortMeasureName else pinnedSort in
  compare <- optional_fromJS Filter_fromJS (EssenceJS.compare parameters) ;;
  let compare :=
    option_map (fun c => Filter_constrainToDimensions c dimensions timeAttribute None)
               compare in
  highlight <- optional_fromJS Highlight_fromJS (EssenceJS.highlight parameters) ;;
  let highlight :=
    option_map (fun h => Highlight_constrainToDimensions h dimensions timeAttribute)
               highlight in
  new {| EssenceValue.dataSources := dataSources;
         EssenceValue.visualizations := visualizations;
         EssenceValue.dataSource := Some ds;
         EssenceValue.visualization := visualization;
         EssenceValue.timezone := timezone;
         EssenceValue.filter := filter;
         EssenceValue.requiredFilter := requiredFilter;
         EssenceValue.splits := splits;
         EssenceValue.selectedMeasures := selectedMeasures;
         EssenceValue.pinnedDimensions := pinnedDimensions;
         EssenceValue.colors := colors;
         EssenceValue.pinnedSort := pinnedSort;
         EssenceValue.compare := compare;
         EssenceValue.highlight := highlight |}.

(** [version !== 1] *)
Definition is_not_one (version : option Z) : bool :=
  match version with
  | Some v => negb (v =? 1)%Z
  | None => true
  end.

(** The [try] block that decompresses and parses the payload. *)
Definition parse_payload (payload : string) : result json :=
  decompressed <- decompressFromBase64 payload ;;
  JSON_parse ("[" ++ string_or_null decompressed ++ "]").

(** The object that [fromHash] hands to [fromJS]. *)
Definition js_of_array (dataSource visualization : string) (jsArray : list json)
  : EssenceJS.t :=
  {| EssenceJS.dataSource := dataSource;
     EssenceJS.visualization := visualization;
     EssenceJS.timezone := nth 0 jsArray JNull;
     EssenceJS.filter := nth 1 jsArray JNull;
     EssenceJS.requiredFilter := nth 2 jsArray JNull;
     EssenceJS.splits := nth 3 jsArray JNull;
     EssenceJS.selectedMeasures := nth 4 jsArray JNull;
     EssenceJS.pinnedDimensions := nth 5 jsArray JNull;
     EssenceJS.pinnedSort := array_get jsArray 6;
     EssenceJS.colors := Some (or_null (array_get jsArray 7));
     EssenceJS.compare := Some (or_null (array_get jsArray 8));
     EssenceJS.highlight := Some (or_null (array_get jsArray 9)) |}.

(** [Essence.fromHash(hash, dataSources, visualizations)]; [Ok None] is the
    [null] it returns. *)
Definition fromHash (hash : string) (dataSources : list DataSource)
    (visualizations : list Manifest) : result (option t) :=
  let hash := trim_leading_hash hash in
  let parts := split slash hash in
  if List.length parts <? 4 then Ok None else
  match parts with
  | dataSource :: visualization :: versionPart :: parts =>
    let version := parseInt versionPart in
    if is_not_one version then Ok None else
    match parse_payload (join "/" parts) with
    | Throw _ => (* catch (e) { return null; } *) Ok None
    | Ok (JArr jsArray) =>
      let jsArrayLength := List.length jsArray in
      if negb ((6 <=? jsArrayLength) && (jsArrayLength <=? 9)) then Ok None else
      match fromJS (js_of_array dataSource visualization jsArray)
                   dataSources visualizations with
      | Throw _ => (* catch (e) { return null; } *) Ok None
      | Ok essence => Ok (Some essence)
      end
    | Ok _ => (* not an array *) Ok None
    end
  | _ => Ok None
  end.

(** [Essence.fromDataSource(dataSource, dataSources, visualizations)] *)
Definition fromDataSource (dataSource : DataSource) (dataSources : list DataSource)
    (visualizations : list Manifest) : result t :=
  let timezone := DataSource_defaultTimezone dataSource in
  let requiredFilter := DataSource_requiredFilter dataSource in
  let filter := DataSource_defaultFilter dataSource in
  let filter :=
    match Filter_clauses requiredFilter with
    | clause :: _ => Filter_setClause filter clause
    | [] => filter
    end in
  let filter :=
    match DataSource_timeAttribute dataSource with
    | Some timeAttribute =>
      let now := DataSource_getMaxTimeDate dataSource in
      let timeRange :=
        TimeRange_fromJS
          (Duration_move (DataSource_defaultDuration dataSource) now timezone (-1))
          now in
      Filter_setTimeRange filter timeAttribute timeRange
    | None => filter
    end in
  let splits := Splits_EMPTY in
  let splits :=
    match DataSource_defaultSplitDimension dataSource with
    | Some name =>
      let splits :=
        match DataSource_getDimension dataSource name with
        | Some defaultSplitDimension =>
          Splits_fromSplitCombine
            (SplitCombine_fromExpression (Dimension_expression defaultSplitDimension))
        | None => splits
        end in
      match DataSource_timeAttribute dataSource with
      | Some timeAttribute =>
        Splits_updateWithTimeRange splits timeAttribute
          (Filter_getTimeRange filter timeAttribute) timezone false
      | None => splits
      end
    | None => splits
    end in
  new {| EssenceValue.dataSources := dataSources;
         EssenceValue.visualizations := visualizations;
         EssenceValue.dataSource := Some dataSource;
         EssenceValue.visualization := None;
         EssenceValue.timezone := timezone;
         EssenceValue.filter := filter;
         EssenceValue.requiredFilter := requiredFilter;
         EssenceValue.splits := splits;
         EssenceValue.selectedMeasures :=
           OrderedSet_of
             (map Measure_name (firstn 4 (DataSource_measures dataSource)));
         EssenceValue.pinnedDimensions :=
           DataSource_defaultPinnedDimensions dataSource;
         EssenceValue.colors := None;
         EssenceValue.pinnedSort := DataSource_defaultSortMeasure dataSource;
         EssenceValue.compare := None;
         EssenceValue.highlight := None |}.

Definition getTimeAttribute (this : t) : option Expression :=
  DataSource_timeAttribute (dataSource this).

(** [getEffectiveFilter(highlightId = null, unfilterDimension = null)] *)
Definition getEffectiveFilter (this : t) (highlightId : option string)
    (unfilterDimension : option Dimension) : Filter :=
  let filter := filter this in
  let filter :=
    match highlight this with
    | Some highlight =>
      let same_owner :=
        match highlightId with
        | Some id => String.eqb id (Highlight_owner highlight)
        | None => false
        end in
      if negb same_owner then Highlight_applyToFilter highlight filter else filter
    | None => filter
    end in
  match unfilterDimension with
  | Some dimension => Filter_remove filter (Dimension_expression dimension)
  | None => filter
  end.

(** [changeDataSource(dataSource)] *)
Definition changeDataSource (this : t) (newDataSource : DataSource) : result t :=
  let dataSources := dataSources this in
  let visualizations := visualizations this in
  let dataSourceName := DataSource_name newDataSource in
  match find (fun ds => String.eqb (DataSource_name ds) dataSourceName) dataSources with
  | None => Throw (JsError ("unknown DataSource changed: " ++ dataSourceName))
  | Some existingDataSource =>
    if DataSource_equals existingDataSource newDataSource then
      (* Just changing DataSource, nothing to see here. *)
      fromDataSource newDataSource dataSources visualizations
    else
    (* We are actually updating info within the named dataSource *)
    if negb (String.eqb (DataSource_name (dataSource this)) (DataSource_name newDataSource))
    then Throw (JsError "can not change non-selected dataSource")
    else
    let value := valueOf this in
    let value := EssenceValue.set_dataSource value (Some newDataSource) in
    let value :=
      EssenceValue.set_dataSources value
        (map (fun ds => if String.eqb (DataSource_name ds) dataSourceName
                        then newDataSource else ds)
             dataSources) in
    (* Make sure that all the elements of state are still valid *)
    let oldDataSource := dataSource this in
    let dimensions := DataSource_dimensions newDataSource in
    let timeAttribute := DataSource_timeAttribute newDataSource in
    let value :=
      EssenceValue.set_filter value
        (Filter_constrainToDimensions (EssenceValue.filter value) dimensions
           timeAttribute (DataSource_timeAttribute oldDataSource)) in
    let value :=
      EssenceValue.set_requiredFilter value
        (Filter_constrainToDimensions (EssenceValue.requiredFilter value) dimensions
           timeAttribute (DataSource_timeAttribute oldDataSource)) in
    let value :=
      EssenceValue.set_splits value
        (Splits_constrainToDimensions (EssenceValue.splits value) dimensions) in
    let value :=
      EssenceValue.set_selectedMeasures value
        (constrainMeasures (EssenceValue.selectedMeasures value) newDataSource) in
    let value :=
      EssenceValue.set_pinnedDimensions value
        (constrainDimensions (EssenceValue.pinnedDimensions value) newDataSource) in
    let value :=
      match EssenceValue.colors value with
      | Some colors =>
        if negb (Boolean (DataSource_getDimension newDataSource (Colors_dimension colors)))
        then EssenceValue.set_colors value None else value
      | None => value
      end in
    let defaultSortMeasureName := DataSource_defaultSortMeasure newDataSource in
    let value :=
      if negb (Boolean (DataSource_getMeasure newDataSource (EssenceValue.pinnedSort value)))
      then EssenceValue.set_pinnedSort value defaultSortMeasureName else value in
    let value :=
      match EssenceValue.compare value with
      | Some compare =>
        EssenceValue.set_compare value
          (Some (Filter_constrainToDimensions compare dimensions timeAttribute None))
      | None => value
      end in
    let value :=
      match EssenceValue.highlight value with
      | Some highlight =>
        EssenceValue.set_highlight value
          (Some (Highlight_constrainToDimensions highlight dimensions timeAttribute))
      | None => value
      end in
    new value
  end.

(** [changeFilter(filter, removeHighlight = false)]; the test
    [if (value.filter)] always passes on a [Filter] object. *)
Definition changeFilter (this : t) (newFilter : Filter) (removeHighlight : bool)
  : result t :=
  let value := valueOf this in
  let value := EssenceValue.set_filter value newFilter in
  let value :=
    if removeHighlight then EssenceValue.set_highlight value None else value in
  let timeAttribute := getTimeAttribute this in
  let oldTimeRange :=
    match timeAttribute with
    | Some ta => Filter_getTimeRange (filter this) ta
    | None => None
    end in
  let newTimeRange :=
    match timeAttribute with
    | Some ta => Filter_getTimeRange newFilter ta
    | None => None
    end in
  let value :=
    match timeAttribute, newTimeRange with
    | Some ta, Some range =>
      if negb (TimeRange_equals range oldTimeRange)
      then EssenceValue.set_splits value
             (Splits_updateWithTimeRange (EssenceValue.splits value) ta
                (Some range) (timezone this) true)
      else value
    | _, _ => value
    end in
  new value.

(** [changeSplits(splits, strategy)] *)
Definition changeSplits (this : t) (newSplits : Splits) (strategy : VisStrategy)
  : result t :=
  let timeAttribute := getTimeAttribute this in
  let newSplits :=
    match timeAttribute with
    | Some ta =>
      Splits_updateWithTimeRange newSplits ta (Filter_getTimeRange (filter this) ta)
        (timezone this) false
    | None => newSplits
    end in
  (* If in manual mode stay there, keep the vis regardless of suggested strategy *)
  let strategy := if isManual (visResolve this) then KeepAlways else strategy in
  visualization <-
    (if negb (VisStrategy_eqb strategy KeepAlways) then
       visAndResolve <-
         deref (getBestVisualization (visualizations this) (dataSource this)
                  newSplits (colors this)
                  (if VisStrategy_eqb strategy FairGame then None
                   else Some (visualization this))) ;;
       Ok (vr_visualization visAndResolve)
     else Ok (visualization this)) ;;
  let value := valueOf this in
  let value := EssenceValue.set_splits value newSplits in
  let value := EssenceValue.set_visualization value (Some visualization) in
  let value :=
    match EssenceValue.highlight value with
    | Some highlight =>
      EssenceValue.set_highlight
        (EssenceValue.set_filter value
           (Highlight_applyToFilter highlight (EssenceValue.filter value)))
        None
    | None => value
    end in
  new value.

(** [toggleMeasure(measure)] *)
Definition toggleMeasure (this : t) (measure : Measure) : result t :=
  let dataSource := dataSource this in
  let value := valueOf this in
  let selectedMeasures := EssenceValue.selectedMeasures value in
  let measureName := Measure_name measure in
  let value :=
    if has measureName selectedMeasures then
      EssenceValue.set_selectedMeasures value (delete measureName selectedMeasures)
    else
      (* Preserve the order of the measures in the datasource *)
      EssenceValue.set_selectedMeasures value
        (OrderedSet_of
           (List.filter
              (fun name => has name selectedMeasures || String.eqb name measureName)
              (map Measure_name (DataSource_measures dataSource)))) in
  new value.

(** [acceptHighlight()] *)
Definition acceptHighlight (this : t) : result t :=
  match highlight this with
  | None => Ok this
  | Some highlight =>
    changeFilter this (Highlight_applyToFilter highlight (filter this)) true
  end.

(** [dropHighlight()] *)
Definition dropHighlight (this : t) : result t :=
  new (EssenceValue.set_highlight (valueOf this) None).

(** ** The remaining methods *)

Definition getMeasures (this : t) : list (option Measure) :=
  map (fun measureName => DataSource_getMeasure (dataSource this) measureName)
      (selectedMeasures this).

Definition differentTimezone (this other : t) : bool :=
  negb (Timezone_equals (timezone this) (timezone other)).

Definition differentFilter (this other : t) : bool :=
  negb (Filter_equals (filter this) (filter other)).

Definition differentSplits (this other : t) : bool :=
  negb (Splits_equals (splits this) (splits other)).

Definition differentColors (this other : t) : bool :=
  if negb (Bool.eqb (Boolean (colors this)) (Boolean (colors other))) then true
  else match colors this with
       | None => false
       | Some c =>
         match colors other with
         | Some c' => negb (Colors_equals c c')
         | None => true
         end
       end.

Definition differentSelectedMeasures (this other : t) : bool :=
  negb (OrderedSet_equals (selectedMeasures this) (selectedMeasures other)).

(** [a.isSubset(b)] *)
Definition isSubset (a b : OrderedSet) : bool :=
  forallb (fun n => has n b) a.

Definition newSelectedMeasures (this other : t) : bool :=
  negb (isSubset (selectedMeasures this) (selectedMeasures other)).

Definition differentPinnedDimensions (this other : t) : bool :=
  negb (OrderedSet_equals (pinnedDimensions this) (pinnedDimensions other)).

Definition differentPinnedSort (this other : t) : bool :=
  negb (String.eqb (pinnedSort this) (pinnedSort other)).

(** [Boolean(a && !a.equals(b))] after [Boolean(a) !== Boolean(b)] was
    answered *)
Definition different_optional {A : Type} (eq : A -> A -> bool) (a b : option A) : bool :=
  if negb (Bool.eqb (Boolean a) (Boolean b)) then true
  else match a with
       | Some x => match b with Some y => negb (eq x y) | None => true end
       | None => false
       end.

Definition differentCompare (this other : t) : bool :=
  different_optional Filter_equals (compare this) (compare other).

Definition differentHighligh (this other : t) : bool :=
  different_optional Highlight_equals (highlight this) (highlight other).

Definition differentEffectiveFilter (this other : t) (highlightId : option string)
    (unfilterDimension : option Dimension) : bool :=
  let myEffectiveFilter := getEffectiveFilter this highlightId unfilterDimension in
  let otherEffectiveFilter := getEffectiveFilter other highlightId unfilterDimension in
  negb (Filter_equals myEffectiveFilter otherEffectiveFilter).

Definition highlightOn (this : t) (owner : string) : bool :=
  match highlight this with
  | None => false
  | Some highlight => String.eqb (Highlight_owner highlight) owner
  end.

Definition changeColors (this : t) (newColors : option Colors) : result t :=
  new (EssenceValue.set_colors (valueOf this) newColors).

Definition changeVisualization (this : t) (newVisualization : Manifest) : result t :=
  new (EssenceValue.set_visualization (valueOf this) (Some newVisualization)).

Definition pin (this : t) (dimension : Dimension) : result t :=
  let value := valueOf this in
  new (EssenceValue.set_pinnedDimensions value
         (add (Dimension_name dimension) (EssenceValue.pinnedDimensions value))).

Definition unpin (this : t) (dimension : Dimension) : result t :=
  let value := valueOf this in
  new (EssenceValue.set_pinnedDimensions value
         (delete (Dimension_name dimension) (EssenceValue.pinnedDimensions value))).

Definition getPinnedSortMeasure (this : t) : option Measure :=
  DataSource_getMeasure (dataSource this) (pinnedSort this).

Definition changePinnedSortMeasure (this : t) (measure : Measure) : result t :=
  new (EssenceValue.set_pinnedSort (valueOf this) (Measure_name measure)).

(** A state that finished construction. *)
Definition constructed (this : t) : Prop :=
  exists parameters : EssenceValue.t, new parameters = Ok this.
End Def.

Section More.
Context `{MoreCollaborators}.

Definition differentDataSource (this other : t) : bool :=
  negb (DataSource_is (dataSource this) (dataSource other)).

Definition getTimeDimension (this : t) : option Dimension :=
  DataSource_getTimeDimension (dataSource this).

Definition getSingleHighlightValue (this : t) : option PlywoodSet :=
  match highlight this with
  | None => None
  | Some highlight => Filter_getSingleValue (Highlight_delta highlight)
  end.

Definition getApplyForSort (this : t) (sort : SortAction) : option ApplyAction :=
  let sortOn := SortAction_refName sort in
  match DataSource_getMeasure (dataSource this) sortOn with
  | None => None
  | Some sortMeasure => Some (Measure_toApplyAction sortMeasure)
  end.

(** The loop of [getCommonSort]: [None] stands for its [return null],
    [Some commonSort] for the value of the variable when the loop ends. *)
Fixpoint commonSort_loop (splits : list SplitCombine) (commonSort : option SortAction)
  : option (option SortAction) :=
  match splits with
  | [] => Some commonSort
  | split :: rest =>
    let sort := SplitCombine_sortAction split in
    match commonSort with
    | Some common =>
      if negb (SortAction_equals common sort) then None
      else commonSort_loop rest commonSort
    | None => commonSort_loop rest sort
    end
  end.

(** [getCommonSort()]; the inner [None] of the loop is the early
    [return null]. *)
Definition getCommonSort (this : t) : option SortAction :=
  match commonSort_loop (Splits_toArray (splits this)) None with
  | Some commonSort => commonSort
  | None => None
  end.

Definition changeTimeRange (this : t) (timeRange : TimeRange) : result t :=
  match getTimeAttribute this with
  | Some timeAttribute =>
    changeFilter this (Filter_setTimeRange (filter this) timeAttribute timeRange) false
  | None =>
    changeFilter this (Filter_setTimeRange_unbound (filter this) timeRange) false
  end.

Definition changeSplit (this : t) (splitCombine : SplitCombine) (strategy : VisStrategy)
  : result t :=
  changeSplits this (Splits_fromSplitCombine splitCombine) strategy.

Definition addSplit (this : t) (split : SplitCombine) (strategy : VisStrategy)
  : result t :=
  changeSplits this (Splits_addSplit (splits this) split) strategy.

Definition removeSplit (this : t) (split : SplitCombine) (strategy : VisStrategy)
  : result t :=
  changeSplits this (Splits_removeSplit (splits this) split) strategy.

(** [changeHighlight(owner, delta)] *)
Definition changeHighlight (this : t) (owner : string) (delta : Filter) : result t :=
  value <-
    match highlight this with
    | Some pending =>
      (* If there is already a highlight from someone else accept it *)
      if negb (String.eqb (Highlight_owner pending) owner) then
        accepted <- changeFilter this (Highlight_applyToFilter pending (filter this)) false ;;
        Ok (valueOf accepted)
      else Ok (valueOf this)
    | None => Ok (valueOf this)
    end ;;
  new (EssenceValue.set_highlight value (Some (Highlight_new owner delta))).
End More.
End Essence.

(** ** Vocabulary for the statements about the state object *)

Section Vocabulary.
Context `{Collaborators}.

(** The visualisation the constructor settles on. *)
Definition chosen_visualization (p : EssenceValue.t) (ds : DataSource)
  : result Manifest :=
  match EssenceValue.visualization p with
  | Some v => Ok v
  | None =>
    vr <- deref (Essence.getBestVisualization (EssenceValue.visualizations p) ds
                   (EssenceValue.splits p) (EssenceValue.colors p) None) ;;
    Ok (vr_visualization vr)
  end.

(** The fields that the constructor copies from its parameters. *)
Definition copies (p : EssenceValue.t) (e : Essence.t) : Prop :=
  Essence.dataSources e = EssenceValue.dataSources p /\
  Essence.visualizations e = EssenceValue.visualizations p /\
  Some (Essence.dataSource e) = EssenceValue.dataSource p /\
  Essence.timezone e = EssenceValue.timezone p /\
  Essence.filter e = EssenceValue.filter p /\
  Essence.requiredFilter e = EssenceValue.requiredFilter p /\
  Essence.selectedMeasures e = EssenceValue.selectedMeasures p /\
  Essence.pinnedDimensions e = EssenceValue.pinnedDimensions p /\
  Essence.pinnedSort e = EssenceValue.pinnedSort p /\
  Essence.compare e = EssenceValue.compare p /\
  Essence.highlight e = EssenceValue.highlight p.

(** The two ways through the constructor: the first verdict is kept, or it
    asks for an adjustment, which is applied and resolved once more. *)
Definition resolved_in_one_pass (p : EssenceValue.t) (e : Essence.t) : Prop :=
  let first :=
    handleCircumstance (Essence.visualization e) (Essence.dataSource e)
      (EssenceValue.splits p) (EssenceValue.colors p) true in
  (isAutomatic first = false /\
   Essence.splits e = EssenceValue.splits p /\
   Essence.colors e = EssenceValue.colors p /\
   Essence.visResolve e = first)
  \/
  (isAutomatic first = true /\
   exists a, adjustment first = Some a /\
     Essence.splits e = adj_splits a /\
     Essence.colors e = adj_colors a /\
     Essence.visResolve e =
       handleCircumstance (Essence.visualization e) (Essence.dataSource e)
         (adj_splits a) (adj_colors a) true /\
     isReady (Essence.visResolve e) = true).

(** A visualisation whose suggested adjustments make it ready: the
    catalogue is configured as the constructor expects. *)
Definition adjusts_to_ready (v : Manifest) : Prop :=
  forall (ds : DataSource) (splits : Splits) (colors : option Colors),
    isAutomatic (handleCircumstance v ds splits colors true) = true ->
    exists a,
      adjustment (handleCircumstance v ds splits colors true) = Some a /\
      isReady (handleCircumstance v ds (adj_splits a) (adj_colors a) true) = true.

(** The parameters that [changeFilter] hands to the constructor. *)
Definition changeFilter_value (e : Essence.t) (newFilter : Filter)
    (removeHighlight : bool) (newSplits : Splits) : EssenceValue.t :=
  {| EssenceValue.dataSources := Essence.dataSources e;
     EssenceValue.visualizations := Essence.visualizations e;
     EssenceValue.dataSource := Some (Essence.dataSource e);
     EssenceValue.visualization := Some (Essence.visualization e);
     EssenceValue.timezone := Essence.timezone e;
     EssenceValue.filter := newFilter;
     EssenceValue.requiredFilter := Essence.requiredFilter e;
     EssenceValue.splits := newSplits;
     EssenceValue.selectedMeasures := Essence.selectedMeasures e;
     EssenceValue.pinnedDimensions := Essence.pinnedDimensions e;
     EssenceValue.colors := Essence.colors e;
     EssenceValue.pinnedSort := Essence.pinnedSort e;
     EssenceValue.compare := Essence.compare e;
     EssenceValue.highlight :=
       if removeHighlight then None else Essence.highlight e |}.

(** The parameters that [changeDataSource] hands to the constructor when it
    updates the selected data source. *)
Definition changeDataSource_value (e : Essence.t) (ds : DataSource) : EssenceValue.t :=
  let dimensions := DataSource_dimensions ds in
  let timeAttribute := DataSource_timeAttribute ds in
  let oldTimeAttribute := DataSource_timeAttribute (Essence.dataSource e) in
  {| EssenceValue.dataSources :=
       map (fun d => if String.eqb (DataSource_name d) (DataSource_name ds)
                     then ds else d)
           (Essence.dataSources e);
     EssenceValue.visualizations := Essence.visualizations e;
     EssenceValue.dataSource := Some ds;
     EssenceValue.visualization := Some (Essence.visualization e);
     EssenceValue.timezone := Essence.timezone e;
     EssenceValue.filter :=
       Filter_constrainToDimensions (Essence.filter e) dimensions timeAttribute
         oldTimeAttribute;
     EssenceValue.requiredFilter :=
       Filter_constrainToDimensions (Essence.requiredFilter e) dimensions timeAttribute
         oldTimeAttribute;
     EssenceValue.splits := Splits_constrainToDimensions (Essence.splits e) dimensions;
     EssenceValue.selectedMeasures := constrainMeasures (Essence.selectedMeasures e) ds;
     EssenceValue.pinnedDimensions := constrainDimensions (Essence.pinnedDimensions e) ds;
     EssenceValue.colors :=
       match Essence.colors e with
       | Some colors =>
         if Boolean (DataSource_getDimension ds (Colors_dimension colors))
         then Some colors else None
       | None => None
       end;
     EssenceValue.pinnedSort :=
       if Boolean (DataSource_getMeasure ds (Essence.pinnedSort e))
       then Essence.pinnedSort e else DataSource_defaultSortMeasure ds;
     EssenceValue.compare :=
       option_map
         (fun c => Filter_constrainToDimensions c dimensions timeAttribute None)
         (Essence.compare e);
     EssenceValue.highlight :=
       option_map
         (fun h => Highlight_constrainToDimensions h dimensions timeAttribute)
         (Essence.highlight e) |}.

(** The measure names of the data source in the order it declares them,
    each once. *)
Definition declared_measures (ds : DataSource) : OrderedSet :=
  OrderedSet_of (map Measure_name (DataSource_measures ds)).

(** The state with other pinned dimensions. *)
Definition with_pinnedDimensions (e : Essence.t) (pinned : OrderedSet) : Essence.t :=
  {| Essence.dataSources := Essence.dataSources e;
     Essence.visualizations := Essence.visualizations e;
     Essence.dataSource := Essence.dataSource e;
     Essence.visualization := Essence.visualization e;
     Essence.timezone := Essence.timezone e;
     Essence.filter := Essence.filter e;
     Essence.requiredFilter := Essence.requiredFilter e;
     Essence.splits := Essence.splits e;
     Essence.selectedMeasures := Essence.selectedMeasures e;
     Essence.pinnedDimensions := pinned;
     Essence.colors := Essence.colors e;
     Essence.pinnedSort := Essence.pinnedSort e;
     Essence.compare := Essence.compare e;
     Essence.highlight := Essence.highlight e;
     Essence.visResolve := Essence.visResolve e |}.

(** The state with another highlight, or none. *)
Definition with_highlight (e : Essence.t) (highlight : option Highlight) : Essence.t :=
  {| Essence.dataSources := Essence.dataSources e;
     Essence.visualizations := Essence.visualizations e;
     Essence.dataSource := Essence.dataSource e;
     Essence.visualization := Essence.visualization e;
     Essence.timezone := Essence.timezone e;
     Essence.filter := Essence.filter e;
     Essence.requiredFilter := Essence.requiredFilter e;
     Essence.splits := Essence.splits e;
     Essence.selectedMeasures := Essence.selectedMeasures e;
     Essence.pinnedDimensions := Essence.pinnedDimensions e;
     Essence.colors := Essence.colors e;
     Essence.pinnedSort := Essence.pinnedSort e;
     Essence.compare := Essence.compare e;
     Essence.highlight := highlight;
     Essence.visResolve := Essence.visResolve e |}.

(** What a change of the splits does to a pending highlight: it becomes
    part of the filter, and what the data is filtered by stays. *)
Definition highlight_folded (e e' : Essence.t) : Prop :=
  Essence.highlight e' = None /\
  Essence.filter e' = Essence.getEffectiveFilter e None None /\
  Essence.getEffectiveFilter e' None None = Essence.getEffectiveFilter e None None.

(** The comparator orders the verdicts: any two compare, and the order is
    transitive. *)
Definition orders_verdicts (compare : Resolve Splits Colors -> Resolve Splits Colors -> Z)
  : Prop :=
  (forall a b, (compare a b <= 0)%Z \/ (compare b a <= 0)%Z) /\
  (forall a b c, (compare a b <= 0)%Z -> (compare b c <= 0)%Z -> (compare a c <= 0)%Z).

(** Every name in the state is one that its catalogues and its data source
    resolve. *)
Definition names_resolve (e : Essence.t) : Prop :=
  In (Essence.dataSource e) (Essence.dataSources e) /\
  In (Essence.visualization e) (Essence.visualizations e) /\
  (forall n, In n (Essence.selectedMeasures e) ->
             DataSource_getMeasure (Essence.dataSource e) n <> None) /\
  (forall n, In n (Essence.pinnedDimensions e) ->
             DataSource_getDimension (Essence.dataSource e) n <> None) /\
  (Essence.getPinnedSortMeasure e <> None \/
   Essence.pinnedSort e = DataSource_defaultSortMeasure (Essence.dataSource e)) /\
  Forall (fun measure => measure <> None) (Essence.getMeasures e).
End Vocabulary.

(** * A sample instance

    A small catalogue (two data sources, three visualisations) with concrete
    filters, splits and codecs, on which the state object runs. *)

Module Sample.

Definition quote_char : ascii := ascii_of_nat 34.
Definition quoted (s : string) : string :=
  String quote_char s ++ String quote_char "".

(** ** A JSON printer and reader (no white space, no escapes) *)

Fixpoint stringify (v : json) : string :=
  match v with
  | JNull => "null"
  | JBool true => "true"
  | JBool false => "false"
  | JNum n => Essence.number_toString n
  | JStr s => quoted s
  | JArr items => "[" ++ join "," (map stringify items) ++ "]"
  | JObj fields =>
    "{" ++ join "," (map (fun kv => quoted (fst kv) ++ ":" ++ stringify (snd kv)) fields)
        ++ "}"
  end.

Fixpoint read_string (s : string) : option (string * string) :=
  match s with
  | EmptyString => None
  | String c rest =>
    if Ascii.eqb c quote_char then Some ("", rest)
    else match read_string rest with
         | Some (t, r) => Some (String c t, r)
         | None => None
         end
  end.

Fixpoint span_digits (s : string) : string * string :=
  match s with
  | String c rest =>
    match digit_value c with
    | Some _ => let (d, r) := span_digits rest in (String c d, r)
    | None => ("", s)
    end
  | EmptyString => ("", "")
  end.

Definition read_number (s : string) : option (json * string) :=
  let (d, r) := span_digits s in
  match parse_digits None d with
  | Some n => Some (JNum n, r)
  | None => None
  end.

Fixpoint read_value (fuel : nat) (s : string) {struct fuel} : option (json * string) :=
  match fuel with
  | O => None
  | S fuel =>
    match s with
    | String "n" (String "u" (String "l" (String "l" r))) => Some (JNull, r)
    | String "t" (String "r" (String "u" (String "e" r))) => Some (JBool true, r)
    | String "f" (String "a" (String "l" (String "s" (String "e" r)))) =>
      Some (JBool false, r)
    | String "[" (String "]" r) => Some (JArr [], r)
    | String "[" r =>
      match read_items fuel r with
      | Some (items, r') => Some (JArr items, r')
      | None => None
      end
    | String "{" (String "}" r) => Some (JObj [], r)
    | String "{" r =>
      match read_fields fuel r with
      | Some (fields, r') => Some (JObj fields, r')
      | None => None
      end
    | String "-" r =>
      match read_number r with
      | Some (JNum n, r') => Some (JNum (- n), r')
      | _ => None
      end
    | String c r =>
      if Ascii.eqb c quote_char then
        match read_string r with
        | Some (t, r') => Some (JStr t, r')
        | None => None
        end
      else read_number s
    | EmptyString => None
    end
  end
with read_items (fuel : nat) (s : string) {struct fuel} : option (list json * string) :=
  match fuel with
  | O => None
  | S fuel =>
    match read_value fuel s with
    | Some (v, String "," r) =>
      match read_items fuel r with
      | Some (vs, r') => Some (v :: vs, r')
      | None => None
      end
    | Some (v, String "]" r) => Some ([v], r)
    | _ => None
    end
  end
with read_fields (fuel : nat) (s : string) {struct fuel}
  : option (list (string * json) * string) :=
  match fuel with
  | O => None
  | S fuel =>
    match s with
    | String c r =>
      if Ascii.eqb c quote_char then
        match read_string r with
        | Some (key, String ":" r') =>
          match read_value fuel r' with
          | Some (v, String "," r'') =>
            match read_fields fuel r'' with
            | Some (kvs, r3) => Some ((key, v) :: kvs, r3)
            | None => None
            end
          | Some (v, String "}" r'') => Some ([(key, v)], r'')
          | _ => None
          end
        | _ => None
        end
      else None
    | EmptyString => None
    end
  end.

Definition parse (s : string) : result json :=
  match read_value (2 * String.length s + 2) s with
  | Some (v, EmptyString) => Ok v
  | _ => Throw (JsError "SyntaxError: Unexpected token")
  end.

Definition sample_json : json :=
  JArr [JStr "Etc/UTC"; JArr []; JNull; JBool true; JNum (-12);
        JObj [("start", JNum 10); ("end", JArr [JStr "a"; JStr "b"])]].

(** ** Values *)

Inductive set_of_values : Type :=
| Strings (elements : list string)
| Range (start finish : Z).

Definition clause : Type := FilterClause.t string set_of_values.

Record split_combine : Type := {
  sc_expression : string;
  sc_bucket : option Z
}.

Record highlight : Type := {
  h_owner : string;
  h_delta : list clause
}.

Record data_source : Type := {
  ds_name : string;
  ds_dimensions : list string;
  ds_measures : list string;
  ds_timeAttribute : option string;
  ds_maxTime : Z;
  ds_defaultSortMeasure : string;
  ds_defaultSplitDimension : option string;
  ds_defaultPinnedDimensions : list string
}.

Definition option_eqb {A : Type} (eq : A -> A -> bool) (a b : option A) : bool :=
  match a, b with
  | Some x, Some y => eq x y
  | None, None => true
  | _, _ => false
  end.

Fixpoint list_eqb {A : Type} (eq : A -> A -> bool) (a b : list A) : bool :=
  match a, b with
  | [], [] => true
  | x :: a', y :: b' => eq x y && list_eqb eq a' b'
  | _, _ => false
  end.

Definition set_eqb (a b : set_of_values) : bool :=
  match a, b with
  | Strings x, Strings y => list_eqb String.eqb x y
  | Range s f, Range s' f' => (s =? s')%Z && (f =? f')%Z
  | _, _ => false
  end.

Definition clause_eqb (a b : clause) : bool :=
  String.eqb (FilterClause.expression a) (FilterClause.expression b) &&
  set_eqb (FilterClause.values a) (FilterClause.values b) &&
  Bool.eqb (FilterClause.exclude a) (FilterClause.exclude b) &&
  Bool.eqb (FilterClause.required a) (FilterClause.required b).

Definition data_source_eqb (a b : data_source) : bool :=
  String.eqb (ds_name a) (ds_name b) &&
  list_eqb String.eqb (ds_dimensions a) (ds_dimensions b) &&
  list_eqb String.eqb (ds_measures a) (ds_measures b) &&
  option_eqb String.eqb (ds_timeAttribute a) (ds_timeAttribute b) &&
  (ds_maxTime a =? ds_maxTime b)%Z &&
  String.eqb (ds_defaultSortMeasure a) (ds_defaultSortMeasure b) &&
  option_eqb String.eqb (ds_defaultSplitDimension a) (ds_defaultSplitDimension b) &&
  list_eqb String.eqb (ds_defaultPinnedDimensions a) (ds_defaultPinnedDimensions b).

(** ** Filters: lists of clauses, one per expression *)

Definition on (expression : string) (c : clause) : bool :=
  String.eqb (FilterClause.expression c) expression.

Fixpoint setClause (f : list clause) (c : clause) : list clause :=
  match f with
  | [] => [c]
  | d :: rest =>
    if on (FilterClause.expression c) d then c :: rest else d :: setClause rest c
  end.

Definition range_clause (expression : string) (range : Z * Z) : clause :=
  {| FilterClause.expression := expression;
     FilterClause.values := Range (fst range) (snd range);
     FilterClause.exclude := false;
     FilterClause.required := false |}.

Definition getTimeRange (f : list clause) (timeAttribute : string) : option (Z * Z) :=
  match find (on timeAttribute) f with
  | Some c =>
    match FilterClause.values c with
    | Range s e => Some (s, e)
    | Strings _ => None
    end
  | None => None
  end.

Definition constrain (f : list clause) (dimensions : list string) : list clause :=
  List.filter (fun c => has (FilterClause.expression c) dimensions) f.

Definition range_eqb (a : Z * Z) (b : option (Z * Z)) : bool :=
  match b with
  | Some r => (fst a =? fst r)%Z && (snd a =? snd r)%Z
  | None => false
  end.

Definition set_toJS (s : set_of_values) : json :=
  match s with
  | Strings l => JArr (map JStr l)
  | Range s e => JObj [("start", JNum s); ("end", JNum e)]
  end.

Definition clause_toJS (c : clause) : json :=
  JObj ([("expression", JStr (FilterClause.expression c));
         ("values", set_toJS (FilterClause.values c))]
        ++ (if FilterClause.exclude c then [("exclude", JBool true)] else [])
        ++ (if FilterClause.required c then [("required", JBool true)] else []))%list.

Definition set_fromJS (v : json) : result set_of_values :=
  match v with
  | JArr items =>
    match strings_of items with
    | Some l => Ok (Strings l)
    | None => Throw (JsError "unexpected set element")
    end
  | JObj [("start", JNum s); ("end", JNum e)] => Ok (Range s e)
  | _ => Throw (JsError "unexpected set")
  end.

Definition flag (name : string) (fields : list (string * json)) : bool :=
  match find (fun kv => String.eqb (fst kv) name) fields with
  | Some (_, v) => truthy v
  | None => false
  end.

Definition clause_fromJS (v : json) : result clause :=
  match v with
  | JObj (("expression", JStr e) :: ("values", vs) :: rest) =>
    s <- set_fromJS vs ;;
    FilterClause.new
      {| FilterClause.v_expression := e;
         FilterClause.v_values := FilterClause.IsSet s;
         FilterClause.v_exclude := Some (flag "exclude" rest);
         FilterClause.v_required := Some (flag "required" rest) |}
  | _ => Throw (TypeError "Cannot read property of null")
  end.

Fixpoint all_fromJS {A : Type} (fromJS : json -> result A) (items : list json)
  : result (list A) :=
  match items with
  | [] => Ok []
  | v :: rest => a <- fromJS v ;; l <- all_fromJS fromJS rest ;; Ok (a :: l)
  end.

Definition filter_fromJS (v : json) : result (list clause) :=
  match v with
  | JArr items => all_fromJS clause_fromJS items
  | _ => Throw (TypeError "filter must be an array")
  end.

(** ** Splits *)

Definition split_toJS (s : split_combine) : json :=
  JObj [("expression", JStr (sc_expression s));
        ("bucket", match sc_bucket s with Some b => JNum b | None => JNull end)].

Definition split_fromJS (v : json) : result split_combine :=
  match v with
  | JObj [("expression", JStr e); ("bucket", JNum b)] =>
    Ok {| sc_expression := e; sc_bucket := Some b |}
  | JObj [("expression", JStr e); ("bucket", JNull)] =>
    Ok {| sc_expression := e; sc_bucket := None |}
  | _ => Throw (TypeError "unexpected split")
  end.

Definition splits_fromJS (v : json) : result (list split_combine) :=
  match v with
  | JArr items => all_fromJS split_fromJS items
  | _ => Throw (TypeError "splits must be an array")
  end.

Definition split_eqb (a b : split_combine) : bool :=
  String.eqb (sc_expression a) (sc_expression b) &&
  option_eqb Z.eqb (sc_bucket a) (sc_bucket b).

(** The bucket of a time split follows the width of the range. *)
Definition granularity (range : option (Z * Z)) : Z :=
  match range with
  | Some (s, e) => if (e - s <=? 24)%Z then 1 else 24
  | None => 1
  end.

Definition updateWithTimeRange (splits : list split_combine) (timeAttribute : string)
    (range : option (Z * Z)) (force : bool) : list split_combine :=
  map (fun s =>
         if negb (String.eqb (sc_expression s) timeAttribute) then s
         else match sc_bucket s with
              | Some _ =>
                if force
                then {| sc_expression := sc_expression s;
                        sc_bucket := Some (granularity range) |}
                else s
              | None =>
                {| sc_expression := sc_expression s;
                   sc_bucket := Some (granularity range) |}
              end)
      splits.

(** ** Highlights *)

Definition applyToFilter (h : highlight) (f : list clause) : list clause :=
  fold_left setClause (h_delta h) f.

Definition highlight_toJS (h : highlight) : json :=
  JObj [("owner", JStr (h_owner h)); ("delta", JArr (map clause_toJS (h_delta h)))].

Definition highlight_fromJS (v : json) : result highlight :=
  match v with
  | JObj [("owner", JStr o); ("delta", d)] =>
    delta <- filter_fromJS d ;; Ok {| h_owner := o; h_delta := delta |}
  | _ => Throw (TypeError "unexpected highlight")
  end.

Definition highlight_eqb (a b : highlight) : bool :=
  String.eqb (h_owner a) (h_owner b) && list_eqb clause_eqb (h_delta a) (h_delta b).

(** ** Visualisations, by identifier *)

Definition resolve : Type := Resolve (list split_combine) string.

Definition verdict (s : ResolveState) : resolve :=
  {| state := s; adjustment := None |}.

Definition handle (id : string) (ds : data_source) (splits : list split_combine)
    (colors : option string) (current : bool) : resolve :=
  if String.eqb id "totals" then
    match splits with
    | [] => verdict ready
    | _ => {| state := automatic;
              adjustment := Some {| adj_splits := []; adj_colors := None |} |}
    end
  else if String.eqb id "table" then
    match splits with
    | [] => verdict manual
    | _ => verdict ready
    end
  else if String.eqb id "misconfigured" then
    (* asks for an adjustment that does not make it ready *)
    {| state := automatic;
       adjustment := Some {| adj_splits := []; adj_colors := None |} |}
  else
    match splits with
    | [_] => verdict ready
    | _ => verdict manual
    end.

Definition rank (r : resolve) : Z :=
  match state r with ready => 0 | automatic => 1 | manual => 2 end.

Definition timezone_fromJS (v : json) : result string :=
  match v with
  | JStr s => Ok s
  | _ => Throw (JsError "timezone description must be a string")
  end.

Definition colors_fromJS (v : json) : result string :=
  match v with
  | JObj [("dimension", JStr d)] => Ok d
  | _ => Throw (JsError "unexpected colors")
  end.

Definition lookup (name : string) (names : list string) : option string :=
  find (String.eqb name) names.

Definition collaborators : Collaborators :=
  {| Timezone := string;
     Duration := Z;
     Date := Z;
     TimeRange := Z * Z;
     Expression := string;
     PlywoodSet := set_of_values;
     Filter := list clause;
     SplitCombine := split_combine;
     Splits := list split_combine;
     Colors := string;
     Highlight := highlight;
     Dimension := string;
     Measure := string;
     DataSource := data_source;
     Manifest := string;
     Timezone_fromJS := timezone_fromJS;
     Timezone_toJS := JStr;
     Timezone_equals := String.eqb;
     Duration_move := fun d now _ k => (now + k * d)%Z;
     TimeRange_fromJS := fun s e => (s, e);
     TimeRange_equals := range_eqb;
     Filter_fromJS := filter_fromJS;
     Filter_toJS := fun f => JArr (map clause_toJS f);
     Filter_equals := list_eqb clause_eqb;
     Filter_clauses := fun f => f;
     Filter_setClause := setClause;
     Filter_setTimeRange := fun f ta r => setClause f (range_clause ta r);
     Filter_getTimeRange := getTimeRange;
     Filter_remove := fun f e => List.filter (fun c => negb (on e c)) f;
     Filter_constrainToDimensions := fun f dims _ _ => constrain f dims;
     SplitCombine_fromExpression :=
       fun e => {| sc_expression := e; sc_bucket := None |};
     Splits_EMPTY := [];
     Splits_fromSplitCombine := fun s => [s];
     Splits_fromJS := splits_fromJS;
     Splits_toJS := fun s => JArr (map split_toJS s);
     Splits_equals := list_eqb split_eqb;
     Splits_constrainToDimensions :=
       fun s dims => List.filter (fun sc => has (sc_expression sc) dims) s;
     Splits_updateWithTimeRange := fun s ta r _ force => updateWithTimeRange s ta r force;
     Colors_fromJS := colors_fromJS;
     Colors_toJS := fun d => JObj [("dimension", JStr d)];
     Colors_equals := String.eqb;
     Colors_dimension := fun d => d;
     Highlight_fromJS := highlight_fromJS;
     Highlight_toJS := highlight_toJS;
     Highlight_equals := highlight_eqb;
     Highlight_owner := h_owner;
     Highlight_applyToFilter := applyToFilter;
     Highlight_constrainToDimensions :=
       fun h dims _ => {| h_owner := h_owner h; h_delta := constrain (h_delta h) dims |};
     Dimension_name := fun d => d;
     Dimension_expression := fun d => d;
     Measure_name := fun m => m;
     DataSource_name := ds_name;
     DataSource_dimensions := ds_dimensions;
     DataSource_measures := ds_measures;
     DataSource_timeAttribute := ds_timeAttribute;
     DataSource_defaultTimezone := fun _ => "Etc/UTC";
     DataSource_defaultDuration := fun _ => 24%Z;
     DataSource_defaultFilter := fun _ => [];
     DataSource_requiredFilter := fun _ => [];
     DataSource_defaultPinnedDimensions := ds_defaultPinnedDimensions;
     DataSource_defaultSortMeasure := ds_defaultSortMeasure;
     DataSource_defaultSplitDimension := ds_defaultSplitDimension;
     DataSource_getDimension := fun ds name => lookup name (ds_dimensions ds);
     DataSource_getMeasure := fun ds name => lookup name (ds_measures ds);
     DataSource_getMaxTimeDate := ds_maxTime;
     DataSource_equals := data_source_eqb;
     Manifest_id := fun id => id;
     Manifest_is := String.eqb;
     handleCircumstance := handle;
     Resolve_compare := fun r1 r2 => (rank r1 - rank r2)%Z;
     OrderedSet_untyped :=
       fun v => match v with
                | JNull => Ok []
                | _ => Throw (TypeError "Expected Array or iterable object of values")
                end;
     JSON_stringify := stringify;
     JSON_parse := parse;
     compressToBase64 := fun s => s;
     decompressFromBase64 :=
       fun s => Ok (if String.eqb s "" then None else Some s) |}.

#[local] Existing Instance collaborators.

(** ** The catalogue *)

Definition wiki : data_source :=
  {| ds_name := "wiki";
     ds_dimensions := ["time"; "page"; "language"];
     ds_measures := ["count"; "added"; "deleted"];
     ds_timeAttribute := Some "time";
     ds_maxTime := 1000;
     ds_defaultSortMeasure := "count";
     ds_defaultSplitDimension := None;
     ds_defaultPinnedDimensions := ["language"] |}.

(** The same data source after a reload: one dimension and one measure
    less, and newer data. *)
Definition wiki_refreshed : data_source :=
  {| ds_name := "wiki";
     ds_dimensions := ["time"; "page"];
     ds_measures := ["count"; "added"];
     ds_timeAttribute := Some "time";
     ds_maxTime := 2000;
     ds_defaultSortMeasure := "count";
     ds_defaultSplitDimension := None;
     ds_defaultPinnedDimensions := [] |}.

Definition static : data_source :=
  {| ds_name := "static";
     ds_dimensions := ["region"];
     ds_measures := ["revenue"];
     ds_timeAttribute := None;
     ds_maxTime := 0;
     ds_defaultSortMeasure := "revenue";
     ds_defaultSplitDimension := None;
     ds_defaultPinnedDimensions := [] |}.

Definition catalog : list data_source := [wiki; static].
Definition gallery : list string := ["totals"; "bar-chart"; "table"].

(** ** States on the catalogue *)

Definition is_in (dimension value : string) : clause :=
  {| FilterClause.expression := dimension;
     FilterClause.values := Strings [value];
     FilterClause.exclude := false;
     FilterClause.required := false |}.

Definition last_day : clause := range_clause "time" (976, 1000)%Z.

Definition on_page : highlight :=
  {| h_owner := "table"; h_delta := [is_in "page" "Main"] |}.

Definition state_on (catalog : list data_source) (ds : data_source)
    (visualization : string) (filter : list clause)
    (splits : list split_combine) (selected pinned : list string)
    (highlight : option highlight) : Essence.t :=
  {| Essence.dataSources := catalog;
     Essence.visualizations := gallery;
     Essence.dataSource := ds;
     Essence.visualization := visualization;
     Essence.timezone := "Etc/UTC";
     Essence.filter := filter;
     Essence.requiredFilter := [];
     Essence.splits := splits;
     Essence.selectedMeasures := selected;
     Essence.pinnedDimensions := pinned;
     Essence.colors := None;
     Essence.pinnedSort := ds_defaultSortMeasure ds;
     Essence.compare := None;
     Essence.highlight := highlight;
     Essence.visResolve := handle visualization ds splits None true |}.

Definition state (visualization : string) (filter : list clause)
    (splits : list split_combine) (selected : list string)
    (highlight : option highlight) : Essence.t :=
  state_on catalog wiki visualization filter splits selected ["language"] highlight.

Definition all_measures : list string := ["count"; "added"; "deleted"].

Definition overview : Essence.t := state "totals" [last_day] [] all_measures None.

Definition highlighted : Essence.t :=
  state "totals" [last_day] [] all_measures (Some on_page).

(** A table without a split waits for the user: manual. *)
Definition empty_table : Essence.t := state "table" [last_day] [] all_measures None.

Definition by_hour : Essence.t :=
  state "table" [last_day] [{| sc_expression := "time"; sc_bucket := Some 1%Z |}]
        all_measures None.

(** Measures selected in the order the user chose. *)
Definition reordered : Essence.t :=
  state "totals" [last_day] [] ["added"; "count"] None.

Definition filtered : Essence.t :=
  state "table" [last_day; is_in "language" "en"; is_in "page" "Main"]
        [{| sc_expression := "page"; sc_bucket := None |}]
        ["count"; "deleted"] None.

(** A state with colours and a compare filter, and a pinned sort of its own. *)
Definition coloured : Essence.t :=
  {| Essence.dataSources := catalog;
     Essence.visualizations := gallery;
     Essence.dataSource := wiki;
     Essence.visualization := "bar-chart";
     Essence.timezone := "Etc/UTC";
     Essence.filter := [last_day; is_in "language" "en"];
     Essence.requiredFilter := [];
     Essence.splits := [{| sc_expression := "page"; sc_bucket := None |}];
     Essence.selectedMeasures := ["added"; "count"];
     Essence.pinnedDimensions := ["language"];
     Essence.colors := Some "page";
     Essence.pinnedSort := "added";
     Essence.compare := Some [range_clause "time" (952, 976)%Z];
     Essence.highlight := None;
     Essence.visResolve := verdict ready |}.

Definition count_and_added : Essence.t :=
  state "totals" [last_day] [] ["count"; "added"] None.

Definition by_page : list split_combine :=
  [{| sc_expression := "page"; sc_bucket := None |}].

(** What [filtered] becomes when the refreshed [wiki] takes the place of
    [wiki]. *)
Definition filtered_refreshed : Essence.t :=
  state_on [wiki_refreshed; static] wiki_refreshed "table"
           [last_day; is_in "page" "Main"] by_page ["count"] [] None.

(** The defaults of the refreshed [wiki]. *)
Definition refreshed_defaults : Essence.t :=
  state_on catalog wiki_refreshed "totals" [range_clause "time" (1976, 2000)%Z] []
           ["count"; "added"] [] None.

(** ** Hashes *)

Definition payload_of (items : list json) : string :=
  join "," (map stringify items).

Definition plain_items : list json :=
  [JStr "Etc/UTC"; JArr []; JArr []; JArr []; JArr [JStr "count"]; JArr []; JNull].

Definition unknown_dataSource_hash : string :=
  "#nowhere/totals/1/" ++ payload_of plain_items.

Definition unknown_visualization_hash : string :=
  "#wiki/sunburst/1/" ++ payload_of plain_items.

(** ** The rest of the collaborators *)

(** A split on a bucketed expression is sorted by that expression, any other
    by the first measure. *)
Definition sortAction_of (s : split_combine) : option string :=
  Some (match sc_bucket s with Some _ => sc_expression s | None => "count" end).

Definition more_collaborators : @MoreCollaborators collaborators :=
  {| SortAction := string;
     ApplyAction := string;
     SortAction_equals := fun s other => option_eqb String.eqb (Some s) other;
     SortAction_refName := fun s => s;
     Measure_toApplyAction := fun m => m;
     Splits_toArray := fun s => s;
     SplitCombine_sortAction := sortAction_of;
     Splits_addSplit := fun s sc => (s ++ [sc])%list;
     Splits_removeSplit := fun s sc => List.filter (fun x => negb (split_eqb x sc)) s;
     Highlight_new := fun owner delta => {| h_owner := owner; h_delta := delta |};
     Highlight_delta := h_delta;
     Filter_getSingleValue :=
       fun f => match f with [c] => Some (FilterClause.values c) | _ => None end;
     Filter_setTimeRange_unbound := fun f _ => f;
     DataSource_is := data_source_eqb;
     DataSource_getTimeDimension := ds_timeAttribute |}.

(** The highlighted state after the highlight was accepted. *)
Definition accepted : Essence.t :=
  state "totals" [last_day; is_in "page" "Main"] [] all_measures None.

(** The highlighted state after a split by page. *)
Definition split_by_page : Essence.t :=
  state "bar-chart" [last_day; is_in "page" "Main"] by_page all_measures None.

Definition on_talk : highlight :=
  {| h_owner := "table"; h_delta := [is_in "page" "Talk"] |}.

(** ** Clauses in JSON, and expressions as chains of actions *)

Definition not_english : clause :=
  {| FilterClause.expression := "language";
     FilterClause.values := Strings ["en"];
     FilterClause.exclude := true;
     FilterClause.required := false |}.

Definition expression_fromJS (v : json) : result string :=
  match v with
  | JStr s => Ok s
  | _ => Throw (JsError "unexpected expression")
  end.

Inductive chain : Type :=
| Ref (name : string)
| Chained (ex : chain) (a : FilterClause.action set_of_values (Z * Z)).

Definition chain_last (ex : chain) : option (FilterClause.action set_of_values (Z * Z)) :=
  match ex with
  | Ref _ => None
  | Chained _ a => Some a
  end.

Definition chain_pop (ex : chain) : chain :=
  match ex with
  | Ref _ => ex
  | Chained ex' _ => ex'
  end.

Definition chain_in (ex : chain) (value : FilterClause.literal set_of_values (Z * Z))
  : chain :=
  Chained ex (FilterClause.InAction value).

Definition chain_not (ex : chain) : chain := Chained ex FilterClause.NotAction.

Fixpoint chain_toString (ex : chain) : string :=
  match ex with
  | Ref name => "$" ++ name
  | Chained ex' FilterClause.NotAction => chain_toString ex' ++ ".not()"
  | Chained ex' (FilterClause.InAction _) => chain_toString ex' ++ ".in(...)"
  | Chained ex' FilterClause.OtherAction => chain_toString ex' ++ ".is(...)"
  end.

Definition set_of_range (range : Z * Z) : set_of_values :=
  Range (fst range) (snd range).

Definition single_range (s : set_of_values) : option (Z * Z) :=
  match s with
  | Range start finish => Some (start, finish)
  | Strings _ => None
  end.

Definition chain_fromExpression :=
  FilterClause.fromExpression chain_toString chain_last chain_pop set_of_range.

Definition chain_toExpression :=
  FilterClause.toExpression chain_in chain_not single_range.

Definition not_last_day : FilterClause.t chain set_of_values :=
  {| FilterClause.expression := Ref "time";
     FilterClause.values := Range 976 1000;
     FilterClause.exclude := true;
     FilterClause.required := true |}.
End Sample.

(** * Properties *)

(** ** The verdict states exclude one another *)

Section Verdicts.
Context {S C : Type}.

Lemma isReady_not_automatic (r : Resolve S C) :
  isReady r = true -> isAutomatic r = false.
Proof. unfold isReady, isAutomatic. destruct (state r); congruence. Qed.

Lemma isManual_not_automatic (r : Resolve S C) :
  isManual r = true -> isAutomatic r = false.
Proof. unfold isManual, isAutomatic. destruct (state r); congruence. Qed.
End Verdicts.

(** ** What the constructor returns *)

Section Construction.
Context `{Collaborators}.

Lemma new_Ok (p : EssenceValue.t) (e : Essence.t) :
  Essence.new p = Ok e ->
  EssenceValue.dataSources p <> [] /\
  copies p e /\
  chosen_visualization p (Essence.dataSource e) = Ok (Essence.visualization e) /\
  resolved_in_one_pass p e.
Proof.
  unfold Essence.new, chosen_visualization, resolved_in_one_pass, copies.
  cbv zeta.
  destruct (EssenceValue.dataSources p) as [|d0 dss] eqn:Edss; simpl; [discriminate|].
  destruct (EssenceValue.dataSource p) as [ds|]; [|discriminate].
  destruct (EssenceValue.visualization p) as [v|].
  - simpl.
    destruct (isAutomatic (handleCircumstance v ds _ _ true)) eqn:Eauto.
    + destruct (adjustment (handleCircumstance v ds _ _ true)) as [a|] eqn:Eadj;
        simpl; [|discriminate].
      destruct (isReady (handleCircumstance v ds (adj_splits a) (adj_colors a) true))
        eqn:Eready; simpl; [|discriminate].
      intros [= <-]; simpl.
      repeat split; try congruence.
      right. split; [assumption|]. exists a. repeat split; assumption.
    + intros [= <-]; simpl.
      repeat split; try congruence.
      left. repeat split; assumption.
  - destruct (Essence.getBestVisualization _ ds _ _ None) as [vr|] eqn:Ebest;
      simpl; [|discriminate].
    destruct (isAutomatic (handleCircumstance (vr_visualization vr) ds _ _ true)) eqn:Eauto.
    + destruct (adjustment (handleCircumstance (vr_visualization vr) ds _ _ true))
        as [a|] eqn:Eadj; simpl; [|discriminate].
      destruct (isReady (handleCircumstance (vr_visualization vr) ds
                           (adj_splits a) (adj_colors a) true))
        eqn:Eready; simpl; [|discriminate].
      intros [= <-]; simpl.
      repeat split; try congruence; try (rewrite Ebest; reflexivity).
      right. split; [assumption|]. exists a. repeat split; assumption.
    + intros [= <-]; simpl.
      repeat split; try congruence; try (rewrite Ebest; reflexivity).
      left. repeat split; assumption.
Qed.

(** The cached verdict is the verdict of the state as it ends up. *)
Lemma new_visResolve (p : EssenceValue.t) (e : Essence.t) :
  Essence.new p = Ok e ->
  Essence.visResolve e =
    handleCircumstance (Essence.visualization e) (Essence.dataSource e)
      (Essence.splits e) (Essence.colors e) true /\
  isAutomatic (Essence.visResolve e) = false.
Proof.
  intros Hnew. destruct (new_Ok _ _ Hnew) as (_ & _ & _ & Hpass).
  destruct Hpass as [(Hna & Hs & Hc & Hr) | (_ & a & _ & Hs & Hc & Hr & Hready)].
  - rewrite Hs, Hc. split; [assumption|]. rewrite Hr. assumption.
  - rewrite Hs, Hc. split; [assumption|]. apply isReady_not_automatic; assumption.
Qed.

(** Building again from a constructed state, with the data source, the
    visualisation, the splits and the colours it has: the constructor keeps
    the verdict and changes nothing. *)
Lemma new_again (e : Essence.t) (p : EssenceValue.t) :
  Essence.constructed e ->
  EssenceValue.dataSources p = Essence.dataSources e ->
  EssenceValue.dataSource p = Some (Essence.dataSource e) ->
  EssenceValue.visualization p = Some (Essence.visualization e) ->
  EssenceValue.splits p = Essence.splits e ->
  EssenceValue.colors p = Essence.colors e ->
  Essence.new p =
    Ok {| Essence.dataSources := EssenceValue.dataSources p;
          Essence.visualizations := EssenceValue.visualizations p;
          Essence.dataSource := Essence.dataSource e;
          Essence.visualization := Essence.visualization e;
          Essence.timezone := EssenceValue.timezone p;
          Essence.filter := EssenceValue.filter p;
          Essence.requiredFilter := EssenceValue.requiredFilter p;
          Essence.splits := Essence.splits e;
          Essence.selectedMeasures := EssenceValue.selectedMeasures p;
          Essence.pinnedDimensions := EssenceValue.pinnedDimensions p;
          Essence.colors := Essence.colors e;
          Essence.pinnedSort := EssenceValue.pinnedSort p;
          Essence.compare := EssenceValue.compare p;
          Essence.highlight := EssenceValue.highlight p;
          Essence.visResolve := Essence.visResolve e |}.
Proof.
  intros [p0 Hp0] Hdss Hds Hv Hs Hc.
  destruct (new_Ok _ _ Hp0) as (Hne & (Hdss0 & _) & _ & _).
  destruct (new_visResolve _ _ Hp0) as (Hres & Hna).
  unfold Essence.new.
  rewrite Hdss.
  destruct (Essence.dataSources e) as [|d0 dss] eqn:Edss; [congruence|].
  simpl. rewrite Hds, Hv, Hs, Hc. simpl.
  rewrite <- Hres, Hna. reflexivity.
Qed.
End Construction.

Section Transitions.
Context `{Collaborators}.

(** With a visualisation in hand whose adjustments make it ready, the
    constructor throws only for an empty catalogue or a missing data source. *)
Lemma new_succeeds (p : EssenceValue.t) (ds : DataSource) (v : Manifest) :
  EssenceValue.dataSources p <> [] ->
  EssenceValue.dataSource p = Some ds ->
  EssenceValue.visualization p = Some v ->
  adjusts_to_ready v ->
  exists e, Essence.new p = Ok e.
Proof.
  intros Hne Hds Hv Hadj. unfold Essence.new.
  destruct (EssenceValue.dataSources p) as [|d0 dss]; [congruence|].
  simpl. rewrite Hds, Hv. simpl.
  destruct (isAutomatic (handleCircumstance v ds _ _ true)) eqn:Eauto.
  - destruct (Hadj _ _ _ Eauto) as (a & Ea & Hready).
    rewrite Ea. simpl. rewrite Hready. simpl. eexists. reflexivity.
  - eexists. reflexivity.
Qed.

Lemma constructed_dataSources (e : Essence.t) :
  Essence.constructed e -> Essence.dataSources e <> [].
Proof.
  intros [p Hp]. destruct (new_Ok _ _ Hp) as (Hne & (Hdss & _) & _).
  rewrite Hdss. assumption.
Qed.

Lemma changeFilter_unfold (e : Essence.t) (f : Filter) (rh : bool) :
  Essence.changeFilter e f rh =
    Essence.new
      (changeFilter_value e f rh
         (match Essence.getTimeAttribute e with
          | Some ta =>
            match Filter_getTimeRange f ta with
            | Some range =>
              if negb (TimeRange_equals range (Filter_getTimeRange (Essence.filter e) ta))
              then Splits_updateWithTimeRange (Essence.splits e) ta (Some range)
                     (Essence.timezone e) true
              else Essence.splits e
            | None => Essence.splits e
            end
          | None => Essence.splits e
          end)).
Proof.
  unfold Essence.changeFilter, changeFilter_value.
  destruct (Essence.getTimeAttribute e) as [ta|]; [|destruct rh; reflexivity].
  destruct (Filter_getTimeRange f ta) as [range|]; [|destruct rh; reflexivity].
  destruct (negb (TimeRange_equals range _)); destruct rh; reflexivity.
Qed.

(** C6: every state that finishes construction has a cached verdict that is
    not "needs automatic adjustment". The constructor resolves once, applies
    a suggested adjustment at most once and resolves once more; when the
    visualisation is still not ready after that pass it throws. *)
Theorem constructed_verdict_never_automatic :
  (forall (p : EssenceValue.t) (e : Essence.t),
      Essence.new p = Ok e ->
      isAutomatic (Essence.visResolve e) = false /\
      Essence.visResolve e =
        handleCircumstance (Essence.visualization e) (Essence.dataSource e)
          (Essence.splits e) (Essence.colors e) true /\
      resolved_in_one_pass p e)
  /\
  (forall (p : EssenceValue.t) (ds : DataSource) (v : Manifest)
          (a : Adjustment Splits Colors),
      EssenceValue.dataSources p <> [] ->
      EssenceValue.dataSource p = Some ds ->
      chosen_visualization p ds = Ok v ->
      isAutomatic
        (handleCircumstance v ds (EssenceValue.splits p) (EssenceValue.colors p) true)
        = true ->
      adjustment
        (handleCircumstance v ds (EssenceValue.splits p) (EssenceValue.colors p) true)
        = Some a ->
      isReady (handleCircumstance v ds (adj_splits a) (adj_colors a) true) = false ->
      Essence.new p =
        Throw (JsError "visualization must be ready after automatic adjustment")).
Proof.
  split.
  - intros p e Hnew.
    destruct (new_visResolve _ _ Hnew) as (Hres & Hna).
    destruct (new_Ok _ _ Hnew) as (_ & _ & _ & Hpass).
    auto.
  - intros p ds v a Hne Hds Hv Hauto Hadj Hnot.
    unfold Essence.new.
    destruct (EssenceValue.dataSources p) as [|d0 dss]; [congruence|].
    simpl. rewrite Hds.
    unfold chosen_visualization in Hv. rewrite Hv. simpl.
    rewrite Hauto, Hadj. simpl. rewrite Hnot. reflexivity.
Qed.

(** C9: in manual mode [changeSplits] keeps the current visualisation, for
    every splits argument and each of the three strategies, whatever the
    ranking of the other visualisations; on a constructed state whose
    visualisation adjusts to ready the call returns. *)
Theorem changeSplits_manual_keeps_visualization
    (e : Essence.t) (newSplits : Splits) (strategy : VisStrategy) :
  isManual (Essence.visResolve e) = true ->
  Essence.changeSplits e newSplits strategy
    = Essence.changeSplits e newSplits KeepAlways /\
  (forall e', Essence.changeSplits e newSplits strategy = Ok e' ->
              Essence.visualization e' = Essence.visualization e) /\
  (Essence.constructed e -> adjusts_to_ready (Essence.visualization e) ->
   exists e', Essence.changeSplits e newSplits strategy = Ok e').
Proof.
  intros Hmanual.
  assert (Hkeep : Essence.changeSplits e newSplits strategy
                  = Essence.changeSplits e newSplits KeepAlways).
  { unfold Essence.changeSplits. rewrite Hmanual. reflexivity. }
  assert (Hvalue : exists p,
             Essence.changeSplits e newSplits KeepAlways = Essence.new p /\
             EssenceValue.visualization p = Some (Essence.visualization e) /\
             EssenceValue.dataSources p = Essence.dataSources e /\
             EssenceValue.dataSource p = Some (Essence.dataSource e)).
  { unfold Essence.changeSplits. rewrite Hmanual. simpl.
    eexists. split; [reflexivity|].
    destruct (Essence.highlight e); simpl; auto. }
  destruct Hvalue as (p & Hp & Hv & Hdss & Hds).
  split; [assumption|]. split.
  - intros e' He'. rewrite Hkeep, Hp in He'.
    destruct (new_Ok _ _ He') as (_ & _ & Hchosen & _).
    unfold chosen_visualization in Hchosen. rewrite Hv in Hchosen.
    congruence.
  - intros Hc Hadj. rewrite Hkeep, Hp.
    apply new_succeeds with (ds := Essence.dataSource e) (v := Essence.visualization e);
      try assumption.
    rewrite Hdss. apply constructed_dataSources. assumption.
Qed.

(** C7: with a highlight pending, [acceptHighlight] returns a state whose
    filter is what [getEffectiveFilter()] reported before and whose
    highlight is cleared; with none pending it returns the state itself. On
    a constructed state whose visualisation adjusts to ready it returns. *)
Theorem acceptHighlight_folds_highlight (e : Essence.t) :
  (Essence.highlight e = None -> Essence.acceptHighlight e = Ok e) /\
  (forall h e',
      Essence.highlight e = Some h ->
      Essence.acceptHighlight e = Ok e' ->
      Essence.filter e' = Essence.getEffectiveFilter e None None /\
      Essence.highlight e' = None) /\
  (forall h,
      Essence.highlight e = Some h ->
      Essence.constructed e ->
      adjusts_to_ready (Essence.visualization e) ->
      exists e', Essence.acceptHighlight e = Ok e').
Proof.
  unfold Essence.acceptHighlight, Essence.getEffectiveFilter.
  split; [|split].
  - intros ->. reflexivity.
  - intros h e' -> He'. simpl.
    rewrite changeFilter_unfold in He'.
    destruct (new_Ok _ _ He') as (_ & Hcopies & _).
    destruct Hcopies as (_ & _ & _ & _ & Hf & _ & _ & _ & _ & _ & Hh).
    split; assumption.
  - intros h -> Hc Hadj.
    rewrite changeFilter_unfold.
    apply new_succeeds with (ds := Essence.dataSource e) (v := Essence.visualization e);
      try assumption; try reflexivity.
    simpl. apply constructed_dataSources. assumption.
Qed.

End Transitions.


(** ** Splitting and joining on the slash *)

Section Strings.
Lemma split_nonempty (sep : ascii) (s : string) : split sep s <> [].
Proof.
  destruct s as [|c rest]; simpl; [discriminate|].
  destruct (Ascii.eqb c sep); [discriminate|].
  destruct (split sep rest); discriminate.
Qed.

Lemma split_before_separator (sep : ascii) (a rest : string) :
  mentions sep a = false ->
  split sep (a ++ String sep rest) = a :: split sep rest.
Proof.
  induction a as [|c a IH]; simpl; intros Hno.
  - rewrite Ascii.eqb_refl. reflexivity.
  - apply orb_false_elim in Hno as [Hc Ha].
    rewrite Hc, (IH Ha). reflexivity.
Qed.

Lemma join_split (s : string) : join "/" (split slash s) = s.
Proof.
  induction s as [|c rest IH]; simpl; [reflexivity|].
  destruct (Ascii.eqb c slash) eqn:Ec.
  - apply Ascii.eqb_eq in Ec. subst c.
    destruct (split slash rest) as [|p ps] eqn:Es.
    + exfalso. exact (split_nonempty _ _ Es).
    + change (join "/" ("" :: p :: ps)) with (String slash (join "/" (p :: ps))).
      rewrite IH. reflexivity.
  - destruct (split slash rest) as [|p ps] eqn:Es.
    + exfalso. exact (split_nonempty _ _ Es).
    + destruct ps as [|q qs]; simpl in *; rewrite <- IH; reflexivity.
Qed.
End Strings.

(** ** Decoding a hash *)

Section Decoding.
Context `{Collaborators}.

(** Whatever [fromJS] does, [fromHash] returns: a state or [null]. *)
Lemma fromHash_returns (hash : string) (dss : list DataSource) (viss : list Manifest) :
  exists r, Essence.fromHash hash dss viss = Ok r.
Proof.
  unfold Essence.fromHash.
  destruct (List.length (split slash (trim_leading_hash hash)) <? 4); [eauto|].
  destruct (split slash (trim_leading_hash hash)) as [|ds [|vis [|ver rest]]]; eauto.
  destruct (Essence.is_not_one (parseInt ver)); [eauto|].
  destruct (Essence.parse_payload (join "/" rest)) as [[| | | |items|]|]; eauto.
  destruct (negb _); [eauto|].
  destruct (Essence.fromJS _ dss viss); eauto.
Qed.

(** Without the data source that the hash names, [fromJS] throws. *)
Lemma fromJS_unknown_dataSource (parameters : EssenceJS.t) (dss : list DataSource)
    (viss : list Manifest) :
  find (fun ds => String.eqb (DataSource_name ds) (EssenceJS.dataSource parameters)) dss
    = None ->
  exists err, Essence.fromJS parameters dss viss = Throw err.
Proof.
  intros Hfind. unfold Essence.fromJS. rewrite Hfind.
  destruct (Timezone_fromJS _); simpl; [|eauto].
  destruct (Filter_fromJS _); simpl; eauto.
Qed.

(** C4: a hash with fewer than four segments, or whose version segment
    does not parse as 1, or whose payload throws while it is decompressed
    and parsed (or decompresses to [null], which is read as the one-element
    array [[null]]), or parses to something other than an array of 6 to 9
    elements, decodes to [null]; no exception leaves [fromHash]. *)
Theorem fromHash_rejects_malformed_hash
    (hash : string) (dss : list DataSource) (viss : list Manifest) :
  (List.length (split slash (trim_leading_hash hash)) < 4 \/
   exists dataSource visualization version rest,
     split slash (trim_leading_hash hash)
       = dataSource :: visualization :: version :: rest /\
     (parseInt version <> Some 1%Z \/
      (exists err, Essence.parse_payload (join "/" rest) = Throw err) \/
      (decompressFromBase64 (join "/" rest) = Ok None /\
       JSON_parse "[null]" = Ok (JArr [JNull])) \/
      (exists v, Essence.parse_payload (join "/" rest) = Ok v /\
                 forall items, v = JArr items ->
                               List.length items < 6 \/ 9 < List.length items))) ->
  Essence.fromHash hash dss viss = Ok None.
Proof.
  intros Hbad. unfold Essence.fromHash.
  destruct (List.length (split slash (trim_leading_hash hash)) <? 4) eqn:Elen;
    [reflexivity|].
  apply Nat.ltb_ge in Elen.
  destruct Hbad as [Hshort | (ds & vis & ver & rest & Hparts & Hbad)]; [lia|].
  rewrite Hparts.
  destruct (Essence.is_not_one (parseInt ver)) eqn:Eone; [reflexivity|].
  assert (Hone : parseInt ver = Some 1%Z).
  { unfold Essence.is_not_one in Eone.
    destruct (parseInt ver) as [v|]; [|discriminate].
    apply negb_false_iff, Z.eqb_eq in Eone. congruence. }
  assert (Hlength : forall items,
             Essence.parse_payload (join "/" rest) = Ok (JArr items) ->
             List.length items < 6 \/ 9 < List.length items ->
             negb ((6 <=? List.length items) && (List.length items <=? 9)) = true).
  { intros items _ Hout. apply negb_true_iff, andb_false_iff.
    destruct Hout; [left; apply Nat.leb_gt | right; apply Nat.leb_gt]; assumption. }
  destruct Hbad as [Hver | [(err & Herr) | [(Hnull & Hparse) | (v & Hv & Hout)]]].
  - contradiction.
  - rewrite Herr. reflexivity.
  - unfold Essence.parse_payload. rewrite Hnull. simpl. rewrite Hparse. reflexivity.
  - rewrite Hv. destruct v as [| | | |items|]; try reflexivity.
    rewrite (Hlength items Hv (Hout items eq_refl)). reflexivity.
Qed.

End Decoding.

(** ** Encoding, then decoding *)

Section RoundTrip.
Context `{Collaborators}.

Lemma compressed_with_highlight (js : EssenceJS.t) (j : json) :
  EssenceJS.highlight js = Some j ->
  truthy j = true ->
  List.length (Essence.compressed_of js) = 10.
Proof.
  intros Hh Ht. unfold Essence.compressed_of, Essence.set_if_truthy.
  rewrite Hh, Ht.
  destruct (EssenceJS.colors js) as [c|]; [destruct (truthy c)|];
    (destruct (EssenceJS.compare js) as [k|]; [destruct (truthy k)|]);
    reflexivity.
Qed.

(** What [fromHash] makes of the segments of a hash that [toHash] wrote. *)
Lemma fromHash_toHash_parts (e : Essence.t) (dss : list DataSource)
    (viss : list Manifest) :
  mentions slash (DataSource_name (Essence.dataSource e)) = false ->
  mentions slash (Manifest_id (Essence.visualization e)) = false ->
  let payload :=
    join "," (map (fun slot => JSON_stringify (or_null slot))
                  (Essence.compressed_of (Essence.toJS e))) in
  Essence.fromHash (Essence.toHash e) dss viss =
    match Essence.parse_payload (compressToBase64 payload) with
    | Throw _ => Ok None
    | Ok (JArr jsArray) =>
      if negb ((6 <=? List.length jsArray) && (List.length jsArray <=? 9))
      then Ok None
      else match Essence.fromJS
                   (Essence.js_of_array (DataSource_name (Essence.dataSource e))
                      (Manifest_id (Essence.visualization e)) jsArray)
                   dss viss with
           | Throw _ => Ok None
           | Ok essence => Ok (Some essence)
           end
    | Ok _ => Ok None
    end.
Proof.
  intros Hname Hid payload.
  unfold Essence.toHash, Essence.fromHash. fold payload.
  change (Essence.number_toString HASH_VERSION) with "1".
  set (name := DataSource_name (Essence.dataSource e)) in *.
  set (id := Manifest_id (Essence.visualization e)) in *.
  set (packed := compressToBase64 payload).
  change (EssenceJS.dataSource (Essence.toJS e)) with name.
  change (EssenceJS.visualization (Essence.toJS e)) with id.
  change (trim_leading_hash ("#" ++ join "/" [name; id; "1"; packed]))
    with (name ++ String slash (id ++ String slash ("1" ++ String slash packed))).
  rewrite (split_before_separator slash name _ Hname).
  rewrite (split_before_separator slash id _ Hid).
  rewrite (split_before_separator slash "1" packed eq_refl).
  destruct (split slash packed) as [|p ps] eqn:Es;
    [exfalso; exact (split_nonempty _ _ Es)|].
  change (List.length (name :: id :: "1" :: p :: ps) <? 4) with false.
  change (Essence.is_not_one (parseInt "1")) with false.
  cbv iota. rewrite <- Es, join_split. reflexivity.
Qed.

Lemma compressed_without_highlight (js : EssenceJS.t) :
  EssenceJS.highlight js = None ->
  7 <= List.length (Essence.compressed_of js) <= 9.
Proof.
  intros Hh. unfold Essence.compressed_of, Essence.set_if_truthy. rewrite Hh.
  destruct (EssenceJS.colors js) as [c|]; [destruct (truthy c)|];
    (destruct (EssenceJS.compare js) as [k|]; [destruct (truthy k)|]);
    simpl; lia.
Qed.

(** Without a highlight the array has seven to nine elements, and a hash
    that [toHash] wrote reaches [fromJS]. *)
Lemma fromHash_toHash_without_highlight (e : Essence.t) (dss : list DataSource)
    (viss : list Manifest) :
  Essence.highlight e = None ->
  mentions slash (DataSource_name (Essence.dataSource e)) = false ->
  mentions slash (Manifest_id (Essence.visualization e)) = false ->
  let compressed := Essence.compressed_of (Essence.toJS e) in
  let payload := join "," (map (fun slot => JSON_stringify (or_null slot)) compressed) in
  decompressFromBase64 (compressToBase64 payload) = Ok (Some payload) ->
  JSON_parse ("[" ++ payload ++ "]") = Ok (JArr (map or_null compressed)) ->
  Essence.fromHash (Essence.toHash e) dss viss =
    match Essence.fromJS
            (Essence.js_of_array (DataSource_name (Essence.dataSource e))
               (Manifest_id (Essence.visualization e)) (map or_null compressed))
            dss viss with
    | Throw _ => Ok None
    | Ok essence => Ok (Some essence)
    end.
Proof.
  intros Hh Hname Hid compressed payload Hlz Hjson.
  assert (Hlen : 7 <= List.length compressed <= 9).
  { apply compressed_without_highlight. simpl. rewrite Hh. reflexivity. }
  rewrite (fromHash_toHash_parts e dss viss Hname Hid).
  fold compressed. fold payload.
  unfold Essence.parse_payload. rewrite Hlz. cbn [bind string_or_null].
  rewrite Hjson, length_map.
  destruct Hlen as [Hlo Hhi].
  assert (H6 : (6 <=? List.length compressed) = true) by (apply Nat.leb_le; lia).
  assert (H9 : (List.length compressed <=? 9) = true) by (apply Nat.leb_le; lia).
  rewrite H6, H9. reflexivity.
Qed.

(** C1, where it fails: a state with a highlight is written as an array
    of ten elements, and [fromHash] takes no array of more than nine. With
    codecs that give back what was written, and names without a slash,
    decoding the hash of such a state yields [null] and not the state. *)
Theorem fromHash_toHash_with_highlight_is_null
    (e : Essence.t) (h : Highlight) (dss : list DataSource) (viss : list Manifest) :
  Essence.highlight e = Some h ->
  truthy (Highlight_toJS h) = true ->
  mentions slash (DataSource_name (Essence.dataSource e)) = false ->
  mentions slash (Manifest_id (Essence.visualization e)) = false ->
  let compressed := Essence.compressed_of (Essence.toJS e) in
  let payload := join "," (map (fun slot => JSON_stringify (or_null slot)) compressed) in
  decompressFromBase64 (compressToBase64 payload) = Ok (Some payload) ->
  JSON_parse ("[" ++ payload ++ "]") = Ok (JArr (map or_null compressed)) ->
  List.length compressed = 10 /\
  Essence.fromHash (Essence.toHash e) dss viss = Ok None.
Proof.
  intros Hh Ht Hname Hid compressed payload Hlz Hjson.
  assert (Hten : List.length compressed = 10).
  { apply compressed_with_highlight with (j := Highlight_toJS h); [|assumption].
    simpl. rewrite Hh. reflexivity. }
  split; [assumption|].
  rewrite (fromHash_toHash_parts e dss viss Hname Hid).
  fold compressed. fold payload.
  unfold Essence.parse_payload. rewrite Hlz. cbn [bind string_or_null].
  rewrite Hjson, length_map, Hten. reflexivity.
Qed.
End RoundTrip.

(** ** The round trip of a state without a highlight *)

Section RoundTripWithoutHighlight.
Context `{Collaborators}.

Lemma or_null_truthy (j : json) : truthy j = true -> or_null (Some j) = j.
Proof. intros Ht. simpl. rewrite Ht. reflexivity. Qed.

Lemma or_null_idempotent (slot : any) : or_null (Some (or_null slot)) = or_null slot.
Proof.
  destruct slot as [j|]; simpl; [|reflexivity].
  destruct (truthy j) eqn:Ht; simpl; [rewrite Ht|]; reflexivity.
Qed.

(** What [fromHash] reads in the array of a state without a highlight. *)
Lemma slots_without_highlight (js : EssenceJS.t) :
  EssenceJS.highlight js = None ->
  Essence.js_of_array (EssenceJS.dataSource js) (EssenceJS.visualization js)
    (map or_null (Essence.compressed_of js)) =
  {| EssenceJS.dataSource := EssenceJS.dataSource js;
     EssenceJS.visualization := EssenceJS.visualization js;
     EssenceJS.timezone := or_null (Some (EssenceJS.timezone js));
     EssenceJS.filter := or_null (Some (EssenceJS.filter js));
     EssenceJS.requiredFilter := or_null (Some (EssenceJS.requiredFilter js));
     EssenceJS.splits := or_null (Some (EssenceJS.splits js));
     EssenceJS.selectedMeasures := or_null (Some (EssenceJS.selectedMeasures js));
     EssenceJS.pinnedDimensions := or_null (Some (EssenceJS.pinnedDimensions js));
     EssenceJS.colors := Some (or_null (EssenceJS.colors js));
     EssenceJS.pinnedSort := Some (or_null (EssenceJS.pinnedSort js));
     EssenceJS.compare := Some (or_null (EssenceJS.compare js));
     EssenceJS.highlight := Some JNull |}.
Proof.
  intros Hh. unfold Essence.js_of_array, Essence.compressed_of, Essence.set_if_truthy.
  rewrite Hh.
  destruct (EssenceJS.colors js) as [c|]; [destruct (truthy c) eqn:Hc|];
    (destruct (EssenceJS.compare js) as [k|]; [destruct (truthy k) eqn:Hk|]);
    cbn [map array_set array_get nth nth_error];
    rewrite ?or_null_idempotent; cbn [or_null]; rewrite ?Hc, ?Hk; reflexivity.
Qed.

Variables (e : Essence.t).

Let ds := Essence.dataSource e.
Let dimensions := DataSource_dimensions ds.
Let timeAttribute := DataSource_timeAttribute ds.

(** The state is the constructor's, and its names are in the catalogues. *)
Hypothesis e_constructed : Essence.constructed e.
Hypothesis dataSource_listed :
  find (fun d => String.eqb (DataSource_name d) (DataSource_name ds))
       (Essence.dataSources e) = Some ds.
Hypothesis visualization_listed :
  find (fun v => String.eqb (Manifest_id v) (Manifest_id (Essence.visualization e)))
       (Essence.visualizations e) = Some (Essence.visualization e).
Hypothesis name_without_slash : mentions slash (DataSource_name ds) = false.
Hypothesis id_without_slash :
  mentions slash (Manifest_id (Essence.visualization e)) = false.

(** Every field is valid for the data source. *)
Hypothesis filter_valid :
  Filter_constrainToDimensions (Essence.filter e) dimensions timeAttribute None
  = Essence.filter e.
Hypothesis requiredFilter_valid :
  Filter_constrainToDimensions (Essence.requiredFilter e) dimensions timeAttribute None
  = Essence.requiredFilter e.
Hypothesis splits_valid :
  Splits_constrainToDimensions (Essence.splits e) dimensions = Essence.splits e.
Hypothesis selectedMeasures_valid :
  constrainMeasures (OrderedSet_of (Essence.selectedMeasures e)) ds
  = Essence.selectedMeasures e.
Hypothesis pinnedDimensions_valid :
  constrainDimensions (OrderedSet_of (Essence.pinnedDimensions e)) ds
  = Essence.pinnedDimensions e.
Hypothesis pinnedSort_valid :
  Boolean (DataSource_getMeasure ds (Essence.pinnedSort e)) = true /\
  Essence.pinnedSort e <> "".
Hypothesis compare_valid :
  forall c, Essence.compare e = Some c ->
            Filter_constrainToDimensions c dimensions timeAttribute None = c.

(** What each [toJS] writes is truthy, and [fromJS] reads it back. *)
Hypothesis timezone_back :
  truthy (Timezone_toJS (Essence.timezone e)) = true /\
  Timezone_fromJS (Timezone_toJS (Essence.timezone e)) = Ok (Essence.timezone e).
Hypothesis filter_back :
  forall f, f = Essence.filter e \/ f = Essence.requiredFilter e \/
            Essence.compare e = Some f ->
            truthy (Filter_toJS f) = true /\ Filter_fromJS (Filter_toJS f) = Ok f.
Hypothesis splits_back :
  truthy (Splits_toJS (Essence.splits e)) = true /\
  Splits_fromJS (Splits_toJS (Essence.splits e)) = Ok (Essence.splits e).
Hypothesis colors_back :
  forall c, Essence.colors e = Some c ->
            truthy (Colors_toJS c) = true /\ Colors_fromJS (Colors_toJS c) = Ok c.

(** The codecs give back what was written. *)
Let compressed := Essence.compressed_of (Essence.toJS e).
Let payload := join "," (map (fun slot => JSON_stringify (or_null slot)) compressed).
Hypothesis lz_back : decompressFromBase64 (compressToBase64 payload) = Ok (Some payload).
Hypothesis json_back :
  JSON_parse ("[" ++ payload ++ "]") = Ok (JArr (map or_null compressed)).

Lemma strings_of_names (names : list string) : strings_of (map JStr names) = Some names.
Proof. induction names as [|n names IH]; simpl; [|rewrite IH]; reflexivity. Qed.

Lemma fromJS_toJS_without_highlight :
  Essence.highlight e = None ->
  Essence.fromJS
    (Essence.js_of_array (DataSource_name ds) (Manifest_id (Essence.visualization e))
       (map or_null compressed))
    (Essence.dataSources e) (Essence.visualizations e) = Ok e.
Proof.
  intros Hh.
  change (DataSource_name ds) with (EssenceJS.dataSource (Essence.toJS e)).
  change (Manifest_id (Essence.visualization e))
    with (EssenceJS.visualization (Essence.toJS e)).
  unfold compressed. rewrite slots_without_highlight by (simpl; rewrite Hh; reflexivity).
  unfold Essence.fromJS.
  cbn [EssenceJS.dataSource EssenceJS.visualization EssenceJS.timezone EssenceJS.filter
       EssenceJS.requiredFilter EssenceJS.splits EssenceJS.selectedMeasures
       EssenceJS.pinnedDimensions EssenceJS.colors EssenceJS.pinnedSort
       EssenceJS.compare EssenceJS.highlight Essence.toJS].
  fold ds. rewrite dataSource_listed, visualization_listed.
  destruct timezone_back as [Htz1 Htz2].
  destruct (filter_back (Essence.filter e) (or_introl eq_refl)) as [Hf1 Hf2].
  destruct (filter_back (Essence.requiredFilter e) (or_intror (or_introl eq_refl)))
    as [Hr1 Hr2].
  destruct splits_back as [Hs1 Hs2].
  rewrite (or_null_truthy _ Htz1), (or_null_truthy _ Hf1), (or_null_truthy _ Hr1),
    (or_null_truthy _ Hs1).
  rewrite Htz2, Hf2. cbn [bind deref]. rewrite Hr2, Hs2. cbn [bind].
  fold dimensions timeAttribute.
  rewrite filter_valid, requiredFilter_valid, splits_valid.
  cbn [or_null truthy]. unfold OrderedSet_fromJS. rewrite !strings_of_names.
  cbn [bind]. rewrite selectedMeasures_valid, pinnedDimensions_valid.
  assert (Hcolors :
            optional_fromJS Colors_fromJS
              (Some (or_null (option_map Colors_toJS (Essence.colors e))))
            = Ok (Essence.colors e)).
  { destruct (Essence.colors e) as [c|] eqn:Ec; [|reflexivity].
    destruct (colors_back c eq_refl) as [Hc1 Hc2].
    unfold optional_fromJS. cbn [option_map]. rewrite (or_null_truthy _ Hc1), Hc1, Hc2.
    reflexivity. }
  rewrite Hcolors. cbn [bind].
  assert (Hcompare :
            optional_fromJS Filter_fromJS
              (Some (or_null (option_map Filter_toJS (Essence.compare e))))
            = Ok (Essence.compare e)).
  { destruct (Essence.compare e) as [c|] eqn:Ec; [|reflexivity].
    destruct (filter_back c (or_intror (or_intror eq_refl))) as [Hc1 Hc2].
    unfold optional_fromJS. cbn [option_map]. rewrite (or_null_truthy _ Hc1), Hc1, Hc2.
    reflexivity. }
  rewrite Hcompare. cbn [bind optional_fromJS truthy option_map].
  assert (Hsort :
            (if negb (Boolean (DataSource_getMeasure ds
                 match or_null (if String.eqb (Essence.pinnedSort e)
                                              (DataSource_defaultSortMeasure ds)
                                then None else Some (JStr (Essence.pinnedSort e))) with
                 | JStr s => if String.eqb s "" then DataSource_defaultSortMeasure ds else s
                 | _ => DataSource_defaultSortMeasure ds
                 end))
             then DataSource_defaultSortMeasure ds
             else match or_null (if String.eqb (Essence.pinnedSort e)
                                               (DataSource_defaultSortMeasure ds)
                                 then None else Some (JStr (Essence.pinnedSort e))) with
                  | JStr s => if String.eqb s "" then DataSource_defaultSortMeasure ds else s
                  | _ => DataSource_defaultSortMeasure ds
                  end)
            = Essence.pinnedSort e).
  { destruct pinnedSort_valid as [Hm Hne].
    apply String.eqb_neq in Hne.
    destruct (String.eqb (Essence.pinnedSort e) (DataSource_defaultSortMeasure ds))
      eqn:Edef.
    - apply String.eqb_eq in Edef. cbn [or_null]. rewrite <- Edef, Hm. reflexivity.
    - cbn [or_null truthy]. rewrite Hne. cbn [negb]. rewrite Hne, Hm. reflexivity. }
  rewrite Hsort.
  assert (Hcmp : option_map
                   (fun c => Filter_constrainToDimensions c dimensions timeAttribute None)
                   (Essence.compare e) = Essence.compare e).
  { destruct (Essence.compare e) as [c|] eqn:Ec; [|reflexivity].
    simpl. rewrite (compare_valid c eq_refl). reflexivity. }
  rewrite Hcmp.
  rewrite (new_again e) by (try assumption; reflexivity).
  cbn [EssenceValue.dataSources EssenceValue.visualizations EssenceValue.timezone
       EssenceValue.filter EssenceValue.requiredFilter EssenceValue.selectedMeasures
       EssenceValue.pinnedDimensions EssenceValue.pinnedSort EssenceValue.compare
       EssenceValue.highlight].
  rewrite <- Hh. destruct e; reflexivity.
Qed.

(** X1: for a state without a highlight (colours and compare set or not),
    valid for its data source, [fromHash] gives the state back from the hash
    that [toHash] wrote. *)
Theorem fromHash_toHash_without_highlight_gives_state :
  Essence.highlight e = None ->
  Essence.fromHash (Essence.toHash e) (Essence.dataSources e) (Essence.visualizations e)
  = Ok (Some e).
Proof.
  intros Hh.
  rewrite (fromHash_toHash_without_highlight e _ _ Hh name_without_slash
             id_without_slash lz_back json_back).
  fold compressed. fold ds. rewrite (fromJS_toJS_without_highlight Hh). reflexivity.
Qed.
End RoundTripWithoutHighlight.

(** Reading a field of a copy of the state that some assignments have
    changed. *)
Ltac read_value :=
  cbv beta iota delta
    [EssenceValue.dataSources EssenceValue.visualizations EssenceValue.dataSource
     EssenceValue.visualization EssenceValue.timezone EssenceValue.filter
     EssenceValue.requiredFilter EssenceValue.splits EssenceValue.selectedMeasures
     EssenceValue.pinnedDimensions EssenceValue.colors EssenceValue.pinnedSort
     EssenceValue.compare EssenceValue.highlight EssenceValue.set_dataSources
     EssenceValue.set_visualizations EssenceValue.set_dataSource EssenceValue.set_visualization
     EssenceValue.set_filter EssenceValue.set_requiredFilter EssenceValue.set_splits
     EssenceValue.set_selectedMeasures EssenceValue.set_pinnedDimensions EssenceValue.set_colors
     EssenceValue.set_pinnedSort EssenceValue.set_compare EssenceValue.set_highlight
     Essence.valueOf] in *.

(** ** Changing the data source *)

Section ChangeDataSource.
Context `{Collaborators}.

Lemma changeDataSource_update (e : Essence.t) (ds existing : DataSource) :
  find (fun d => String.eqb (DataSource_name d) (DataSource_name ds))
       (Essence.dataSources e) = Some existing ->
  DataSource_equals existing ds = false ->
  String.eqb (DataSource_name (Essence.dataSource e)) (DataSource_name ds) = true ->
  Essence.changeDataSource e ds = Essence.new (changeDataSource_value e ds).
Proof.
  intros Hfind Hneq Hname.
  unfold Essence.changeDataSource, changeDataSource_value.
  rewrite Hfind, Hneq, Hname. cbn [negb]. cbv zeta. read_value.
  destruct (Essence.colors e) as [c|];
    [destruct (DataSource_getDimension ds (Colors_dimension c))|];
    cbn [Boolean negb]; read_value;
    (destruct (DataSource_getMeasure ds (Essence.pinnedSort e));
     cbn [Boolean negb]; read_value;
     destruct (Essence.compare e); read_value;
     destruct (Essence.highlight e); reflexivity).
Qed.

(** C3, as the code has it. An unknown name throws. A data source equal to
    the catalogue's entry of its name gives the state of [fromDataSource],
    built from that data source's defaults, whether or not it is the current
    one. A data source that differs from the catalogue's entry is an update of
    the selected one: under another name it throws; under the current name the
    filter, required filter, splits, selected measures, pinned dimensions,
    colours, pinned sort, compare and highlight of the state are constrained
    to it, field by field. *)
Theorem changeDataSource_paths (e : Essence.t) (ds : DataSource) :
  let existing :=
    find (fun d => String.eqb (DataSource_name d) (DataSource_name ds))
         (Essence.dataSources e) in
  (existing = None ->
   Essence.changeDataSource e ds
     = Throw (JsError ("unknown DataSource changed: " ++ DataSource_name ds))) /\
  (forall x,
      existing = Some x -> DataSource_equals x ds = true ->
      Essence.changeDataSource e ds
        = Essence.fromDataSource ds (Essence.dataSources e) (Essence.visualizations e)) /\
  (forall x,
      existing = Some x -> DataSource_equals x ds = false ->
      String.eqb (DataSource_name (Essence.dataSource e)) (DataSource_name ds) = false ->
      Essence.changeDataSource e ds
        = Throw (JsError "can not change non-selected dataSource")) /\
  (forall x e',
      existing = Some x -> DataSource_equals x ds = false ->
      String.eqb (DataSource_name (Essence.dataSource e)) (DataSource_name ds) = true ->
      Essence.changeDataSource e ds = Ok e' ->
      let p := changeDataSource_value e ds in
      Essence.dataSource e' = ds /\
      Essence.visualization e' = Essence.visualization e /\
      Essence.filter e' = EssenceValue.filter p /\
      Essence.requiredFilter e' = EssenceValue.requiredFilter p /\
      Essence.selectedMeasures e' = constrainMeasures (Essence.selectedMeasures e) ds /\
      Essence.pinnedDimensions e' = constrainDimensions (Essence.pinnedDimensions e) ds /\
      Essence.pinnedSort e' = EssenceValue.pinnedSort p /\
      Essence.compare e' = EssenceValue.compare p /\
      Essence.highlight e' = EssenceValue.highlight p /\
      resolved_in_one_pass p e').
Proof.
  intros existing. subst existing. split; [|split; [|split]].
  - intros Hfind. unfold Essence.changeDataSource. rewrite Hfind. reflexivity.
  - intros x Hfind Heq. unfold Essence.changeDataSource. rewrite Hfind, Heq. reflexivity.
  - intros x Hfind Hneq Hname. unfold Essence.changeDataSource.
    rewrite Hfind, Hneq, Hname. reflexivity.
  - intros x e' Hfind Hneq Hname Hchange p.
    rewrite (changeDataSource_update e ds x Hfind Hneq Hname) in Hchange.
    fold p in Hchange.
    destruct (new_Ok _ _ Hchange) as (_ & Hcopies & Hchosen & Hpass).
    destruct Hcopies as (_ & _ & Hds & _ & Hf & Hrf & Hsm & Hpd & Hps & Hc & Hh).
    simpl in Hds, Hchosen, Hsm, Hpd.
    injection Hds as Hds. injection Hchosen as Hv.
    repeat split; auto.
Qed.
End ChangeDataSource.

(** ** Ordered sets *)

Section OrderedSets.
Lemma has_In (n : string) (s : OrderedSet) : has n s = true <-> In n s.
Proof.
  unfold has. rewrite existsb_exists. split.
  - intros (x & Hx & Heq). apply String.eqb_eq in Heq. subst. assumption.
  - intros Hin. exists n. split; [assumption | apply String.eqb_refl].
Qed.

Lemma has_app (n : string) (a b : OrderedSet) :
  has n (a ++ b)%list = has n a || has n b.
Proof. unfold has. apply existsb_app. Qed.

Lemma has_filter (p : string -> bool) (n : string) (s : OrderedSet) :
  has n (List.filter p s) = p n && has n s.
Proof.
  induction s as [|x s IH]; simpl.
  - rewrite andb_false_r. reflexivity.
  - destruct (p x) eqn:Epx; simpl; rewrite IH.
    + destruct (String.eqb n x) eqn:Enx; simpl.
      * apply String.eqb_eq in Enx. subst. rewrite Epx. reflexivity.
      * reflexivity.
    + destruct (String.eqb n x) eqn:Enx; simpl.
      * apply String.eqb_eq in Enx. subst. rewrite Epx. reflexivity.
      * reflexivity.
Qed.

Lemma filter_add (p : string -> bool) (x : string) (acc : OrderedSet) :
  List.filter p (add x acc) = if p x then add x (List.filter p acc) else List.filter p acc.
Proof.
  unfold add. rewrite has_filter.
  destruct (p x) eqn:Epx; simpl.
  - destruct (has x acc); [reflexivity|].
    rewrite filter_app. simpl. rewrite Epx. reflexivity.
  - destruct (has x acc); [reflexivity|].
    rewrite filter_app. simpl. rewrite Epx. apply app_nil_r.
Qed.

Lemma fold_add_filter (p : string -> bool) (l : list string) (acc : OrderedSet) :
  fold_left (fun acc n => add n acc) (List.filter p l) (List.filter p acc)
  = List.filter p (fold_left (fun acc n => add n acc) l acc).
Proof.
  revert acc. induction l as [|x l IH]; intros acc; simpl; [reflexivity|].
  rewrite <- IH, filter_add.
  destruct (p x); reflexivity.
Qed.

(** Filtering before or after the repeats are dropped. *)
Lemma OrderedSet_of_filter (p : string -> bool) (l : list string) :
  OrderedSet_of (List.filter p l) = List.filter p (OrderedSet_of l).
Proof. exact (fold_add_filter p l []). Qed.

Lemma has_fold_add (n : string) (l : list string) (acc : OrderedSet) :
  has n (fold_left (fun acc n => add n acc) l acc) = has n acc || has n l.
Proof.
  revert acc. induction l as [|x l IH]; intros acc; simpl.
  - rewrite orb_false_r. reflexivity.
  - rewrite IH. unfold add.
    destruct (has x acc) eqn:Ex.
    + destruct (String.eqb n x) eqn:Enx; [|reflexivity].
      apply String.eqb_eq in Enx. subst. rewrite Ex. reflexivity.
    + rewrite has_app. simpl. rewrite orb_false_r, orb_assoc. reflexivity.
Qed.

Lemma has_OrderedSet_of (n : string) (l : list string) :
  has n (OrderedSet_of l) = has n l.
Proof. unfold OrderedSet_of. rewrite has_fold_add. reflexivity. Qed.

Lemma delete_filter (m : string) (p : string -> bool) (l : list string) :
  delete m (List.filter p l)
  = List.filter (fun n => p n && negb (String.eqb n m)) l.
Proof.
  unfold delete. induction l as [|x l IH]; simpl; [reflexivity|].
  destruct (p x); simpl; [|assumption].
  destruct (negb (String.eqb x m)); simpl; congruence.
Qed.

Lemma filter_in_order (p : string -> bool) (order : list string) :
  in_order_of order (List.filter p order) = true.
Proof.
  induction order as [|y order IH]; simpl; [reflexivity|].
  destruct (p y) eqn:Epy; simpl.
  - rewrite String.eqb_refl. assumption.
  - destruct (List.filter p order) as [|x l] eqn:Ef; [reflexivity|].
    destruct (String.eqb x y) eqn:Exy; [|assumption].
    apply String.eqb_eq in Exy. subst y.
    assert (Hin : In x (List.filter p order)) by (rewrite Ef; left; reflexivity).
    apply filter_In in Hin. destruct Hin as [_ Hpx]. congruence.
Qed.
End OrderedSets.

(** ** Constraining names to a data source *)

Section Constrain.
Context `{Collaborators}.

Lemma filter_idempotent {A : Type} (p : A -> bool) (l : list A) :
  List.filter p (List.filter p l) = List.filter p l.
Proof.
  induction l as [|x l IH]; simpl; [reflexivity|].
  destruct (p x) eqn:Epx; simpl; [rewrite Epx, IH|]; auto.
Qed.

End Constrain.

(** ** Toggling measures *)

Section ToggleMeasure.
Context `{Collaborators}.

Lemma toggleMeasure_Ok (e : Essence.t) (m : Measure) (e' : Essence.t) :
  Essence.toggleMeasure e m = Ok e' ->
  Essence.dataSource e' = Essence.dataSource e /\
  Essence.selectedMeasures e' =
    if has (Measure_name m) (Essence.selectedMeasures e)
    then delete (Measure_name m) (Essence.selectedMeasures e)
    else List.filter
           (fun n => has n (Essence.selectedMeasures e) || String.eqb n (Measure_name m))
           (declared_measures (Essence.dataSource e)).
Proof.
  unfold Essence.toggleMeasure, declared_measures. intros Hnew.
  destruct (new_Ok _ _ Hnew) as (_ & Hcopies & _).
  destruct Hcopies as (_ & _ & Hds & _ & _ & _ & Hsm & _).
  rewrite Hsm. clear Hsm Hnew. cbv zeta in *. read_value.
  destruct (has (Measure_name m) (Essence.selectedMeasures e)); read_value.
  - split; congruence.
  - rewrite <- OrderedSet_of_filter. split; congruence.
Qed.

Lemma declared_has (ds : DataSource) (m : Measure) :
  In m (DataSource_measures ds) ->
  has (Measure_name m) (declared_measures ds) = true.
Proof.
  intros Hin. unfold declared_measures. rewrite has_OrderedSet_of.
  apply has_In, in_map. assumption.
Qed.

(** C5, as the code has it. Toggling on a measure of the data source and
    then off leaves the selected measures that the data source declares, in
    the order it declares them: the members are those of before when all of
    them are measures of the data source, and the value is the one of before
    exactly when that was in declared order already. After two measures are
    toggled on and the first is removed, the selection is in declared order. *)
Theorem toggleMeasure_on_off_orders_selection :
  (forall (e : Essence.t) (m : Measure) (e1 e2 : Essence.t),
      In m (DataSource_measures (Essence.dataSource e)) ->
      has (Measure_name m) (Essence.selectedMeasures e) = false ->
      Essence.toggleMeasure e m = Ok e1 ->
      Essence.toggleMeasure e1 m = Ok e2 ->
      let declared := declared_measures (Essence.dataSource e) in
      let ordered :=
        List.filter (fun n => has n (Essence.selectedMeasures e)) declared in
      Essence.selectedMeasures e2 = ordered /\
      ((forall n, In n (Essence.selectedMeasures e) -> In n declared) ->
       forall n, In n (Essence.selectedMeasures e2) <-> In n (Essence.selectedMeasures e)) /\
      (Essence.selectedMeasures e2 = Essence.selectedMeasures e <->
       Essence.selectedMeasures e = ordered))
  /\
  (forall (e : Essence.t) (m1 m2 : Measure) (e1 e2 e3 : Essence.t),
      In m1 (DataSource_measures (Essence.dataSource e)) ->
      has (Measure_name m1) (Essence.selectedMeasures e) = false ->
      Essence.toggleMeasure e m1 = Ok e1 ->
      has (Measure_name m2) (Essence.selectedMeasures e1) = false ->
      Essence.toggleMeasure e1 m2 = Ok e2 ->
      Essence.toggleMeasure e2 m1 = Ok e3 ->
      in_order_of (declared_measures (Essence.dataSource e))
                  (Essence.selectedMeasures e3) = true /\
      has (Measure_name m1) (Essence.selectedMeasures e3) = false /\
      (forall n, n <> Measure_name m1 ->
                 has n (Essence.selectedMeasures e3)
                 = has n (Essence.selectedMeasures e2))).
Proof.
  split.
  - intros e m e1 e2 Hin Hoff H1 H2 declared ordered.
    destruct (toggleMeasure_Ok _ _ _ H1) as (Hds1 & Hs1). rewrite Hoff in Hs1.
    destruct (toggleMeasure_Ok _ _ _ H2) as (_ & Hs2).
    assert (Hon : has (Measure_name m) (Essence.selectedMeasures e1) = true).
    { rewrite Hs1, has_filter, String.eqb_refl, orb_true_r.
      simpl. apply declared_has. assumption. }
    rewrite Hon, Hs1, delete_filter in Hs2.
    assert (Hordered : Essence.selectedMeasures e2 = ordered).
    { rewrite Hs2. apply filter_ext. intros n.
      destruct (String.eqb n (Measure_name m)) eqn:En; simpl.
      - apply String.eqb_eq in En. subst n. rewrite Hoff. reflexivity.
      - rewrite orb_false_r, andb_true_r. reflexivity. }
    split; [assumption|]. split.
    + intros Hsub n. rewrite Hordered. unfold ordered.
      rewrite filter_In, has_In. split; [tauto|]. intros Hn. split; auto.
    + rewrite Hordered. split; congruence.
  - intros e m1 m2 e1 e2 e3 Hin Hoff H1 Hoff2 H2 H3.
    destruct (toggleMeasure_Ok _ _ _ H1) as (Hds1 & Hs1). rewrite Hoff in Hs1.
    destruct (toggleMeasure_Ok _ _ _ H2) as (Hds2 & Hs2). rewrite Hoff2, Hds1 in Hs2.
    destruct (toggleMeasure_Ok _ _ _ H3) as (_ & Hs3).
    assert (Hon1 : has (Measure_name m1) (Essence.selectedMeasures e1) = true).
    { rewrite Hs1, has_filter, String.eqb_refl, orb_true_r.
      simpl. apply declared_has. assumption. }
    assert (Hon2 : has (Measure_name m1) (Essence.selectedMeasures e2) = true).
    { rewrite Hs2, has_filter, Hon1. simpl. apply declared_has. assumption. }
    rewrite Hon2, Hs2, delete_filter in Hs3.
    rewrite Hs3. split; [apply filter_in_order|]. split.
    + rewrite has_filter, String.eqb_refl. simpl.
      rewrite andb_false_r. reflexivity.
    + intros n Hn. rewrite Hs2, !has_filter.
      apply String.eqb_neq in Hn. rewrite Hn. simpl.
      rewrite andb_true_r. reflexivity.
Qed.
End ToggleMeasure.

(** ** Rebuilding a state from its own value *)

Section Rebuilding.
Context `{Collaborators}.

Lemma new_valueOf (e : Essence.t) :
  Essence.constructed e -> Essence.new (Essence.valueOf e) = Ok e.
Proof.
  intros Hc. rewrite (new_again e) by (assumption || reflexivity).
  destruct e; reflexivity.
Qed.

Lemma new_constructed (p : EssenceValue.t) (e : Essence.t) :
  Essence.new p = Ok e -> Essence.constructed e.
Proof. intros Hnew. exists p. assumption. Qed.

(** X3: the constructor gives back a constructed state from its own value,
    and so does every change that sets a field to the value it has: the
    colours, the visualisation, the measure the pinned dimensions are sorted
    by, and dropping a highlight where there is none. *)
Theorem unchanged_value_gives_state_back (e : Essence.t) :
  Essence.constructed e ->
  Essence.new (Essence.valueOf e) = Ok e /\
  Essence.changeColors e (Essence.colors e) = Ok e /\
  Essence.changeVisualization e (Essence.visualization e) = Ok e /\
  (forall m, Measure_name m = Essence.pinnedSort e ->
             Essence.changePinnedSortMeasure e m = Ok e) /\
  (Essence.highlight e = None -> Essence.dropHighlight e = Ok e).
Proof.
  intros Hc. split; [apply new_valueOf; assumption|].
  split; [|split; [|split]].
  - unfold Essence.changeColors.
    rewrite (new_again e) by (assumption || reflexivity).
    destruct e; reflexivity.
  - unfold Essence.changeVisualization.
    rewrite (new_again e) by (assumption || reflexivity).
    destruct e; reflexivity.
  - intros m Hm. unfold Essence.changePinnedSortMeasure.
    rewrite (new_again e) by (assumption || reflexivity).
    rewrite Hm. destruct e; reflexivity.
  - intros Hh. unfold Essence.dropHighlight.
    rewrite (new_again e) by (assumption || reflexivity).
    destruct e; simpl in *. rewrite Hh. reflexivity.
Qed.
End Rebuilding.

(** ** Pinning and unpinning a dimension *)

Section Pinning.
Context `{Collaborators}.

Lemma delete_absent (n : string) (s : OrderedSet) :
  has n s = false -> delete n s = s.
Proof.
  unfold delete, has. induction s as [|x s IH]; simpl; [reflexivity|].
  intros Hno. apply orb_false_elim in Hno as [Hx Hs].
  rewrite String.eqb_sym, Hx. simpl. rewrite (IH Hs). reflexivity.
Qed.

Lemma delete_add (n : string) (s : OrderedSet) :
  has n s = false -> delete n (add n s) = s.
Proof.
  intros Hno. unfold add. rewrite Hno. unfold delete.
  rewrite filter_app. fold (delete n s). rewrite (delete_absent _ _ Hno).
  simpl. rewrite String.eqb_refl. simpl. apply app_nil_r.
Qed.

Lemma has_add (n : string) (s : OrderedSet) : has n (add n s) = true.
Proof.
  unfold add. destruct (has n s) eqn:Hn; [assumption|].
  rewrite has_app. simpl. rewrite String.eqb_refl. apply orb_true_r.
Qed.

Lemma has_delete (n : string) (s : OrderedSet) : has n (delete n s) = false.
Proof.
  unfold delete. rewrite has_filter, String.eqb_refl. reflexivity.
Qed.

Lemma pin_value (e : Essence.t) (d : Dimension) :
  Essence.constructed e ->
  Essence.pin e d
  = Ok (with_pinnedDimensions e (add (Dimension_name d) (Essence.pinnedDimensions e))).
Proof.
  intros Hc. unfold Essence.pin. cbv zeta.
  rewrite (new_again e) by (assumption || reflexivity). reflexivity.
Qed.

Lemma unpin_value (e : Essence.t) (d : Dimension) :
  Essence.constructed e ->
  Essence.unpin e d
  = Ok (with_pinnedDimensions e (delete (Dimension_name d) (Essence.pinnedDimensions e))).
Proof.
  intros Hc. unfold Essence.unpin. cbv zeta.
  rewrite (new_again e) by (assumption || reflexivity). reflexivity.
Qed.

Lemma with_pinnedDimensions_same (e : Essence.t) :
  with_pinnedDimensions e (Essence.pinnedDimensions e) = e.
Proof. destruct e; reflexivity. Qed.

Lemma with_pinnedDimensions_twice (e : Essence.t) (a b : OrderedSet) :
  with_pinnedDimensions (with_pinnedDimensions e a) b = with_pinnedDimensions e b.
Proof. reflexivity. Qed.

(** X4: on a constructed state [pin] and [unpin] return, and they change
    the pinned dimensions only: [pin] appends the name unless it is there,
    [unpin] removes it. Unpinning a dimension that was just pinned, and was
    not pinned before, gives the state of before; pinning twice is pinning
    once, and so is unpinning. *)
Theorem pin_and_unpin (e : Essence.t) (d : Dimension) :
  Essence.constructed e ->
  let name := Dimension_name d in
  Essence.pin e d = Ok (with_pinnedDimensions e (add name (Essence.pinnedDimensions e))) /\
  Essence.unpin e d
    = Ok (with_pinnedDimensions e (delete name (Essence.pinnedDimensions e))) /\
  (forall e1, Essence.pin e d = Ok e1 ->
              has name (Essence.pinnedDimensions e1) = true /\
              Essence.pin e1 d = Ok e1 /\
              (has name (Essence.pinnedDimensions e) = false ->
               Essence.unpin e1 d = Ok e)) /\
  (forall e1, Essence.unpin e d = Ok e1 ->
              has name (Essence.pinnedDimensions e1) = false /\
              Essence.unpin e1 d = Ok e1).
Proof.
  intros Hc name.
  split; [apply pin_value; assumption|].
  split; [apply unpin_value; assumption|].
  split.
  - intros e1 Hpin.
    pose proof (new_constructed _ _ Hpin) as Hc1.
    rewrite pin_value in Hpin by assumption. injection Hpin as <-.
    split; [apply has_add|]. split.
    + rewrite pin_value by assumption. rewrite with_pinnedDimensions_twice.
      cbn [with_pinnedDimensions Essence.pinnedDimensions].
      unfold add at 1. rewrite has_add. reflexivity.
    + intros Hno. rewrite unpin_value by assumption.
      rewrite with_pinnedDimensions_twice.
      cbn [with_pinnedDimensions Essence.pinnedDimensions].
      rewrite delete_add by assumption. rewrite with_pinnedDimensions_same.
      reflexivity.
  - intros e1 Hunpin.
    pose proof (new_constructed _ _ Hunpin) as Hc1.
    rewrite unpin_value in Hunpin by assumption. injection Hunpin as <-.
    split; [apply has_delete|].
    rewrite unpin_value by assumption. rewrite with_pinnedDimensions_twice.
    cbn [with_pinnedDimensions Essence.pinnedDimensions].
    rewrite (delete_absent _ _ (has_delete _ _)). reflexivity.
Qed.
End Pinning.

(** ** Highlights *)

Section Highlights.
Context `{Collaborators}.

Lemma dropHighlight_value (e : Essence.t) :
  Essence.constructed e -> Essence.dropHighlight e = Ok (with_highlight e None).
Proof.
  intros Hc. unfold Essence.dropHighlight.
  rewrite (new_again e) by (assumption || reflexivity). reflexivity.
Qed.

(** X5: [dropHighlight] returns on a constructed state and changes the
    highlight only. Afterwards no owner has a highlight on, and every
    client is shown the data by the filter the owner of the dropped
    highlight was shown: the filter without the highlight. Dropping again
    changes nothing. *)
Theorem dropHighlight_leaves_owner_view (e : Essence.t) (h : Highlight) :
  Essence.constructed e ->
  Essence.highlight e = Some h ->
  Essence.highlightOn e (Highlight_owner h) = true /\
  Essence.dropHighlight e = Ok (with_highlight e None) /\
  (forall owner, Essence.highlightOn (with_highlight e None) owner = false) /\
  (forall highlightId unfilterDimension,
      Essence.getEffectiveFilter (with_highlight e None) highlightId unfilterDimension
      = Essence.getEffectiveFilter e (Some (Highlight_owner h)) unfilterDimension) /\
  Essence.dropHighlight (with_highlight e None) = Ok (with_highlight e None).
Proof.
  intros Hc Hh.
  split; [unfold Essence.highlightOn; rewrite Hh; apply String.eqb_refl|].
  split; [apply dropHighlight_value; assumption|].
  split; [reflexivity|]. split.
  - intros id u. unfold Essence.getEffectiveFilter. rewrite Hh.
    cbn [with_highlight Essence.highlight Essence.filter].
    rewrite String.eqb_refl. reflexivity.
  - assert (Hc' : Essence.constructed (with_highlight e None)).
    { apply new_constructed with (p := EssenceValue.set_highlight (Essence.valueOf e) None).
      apply dropHighlight_value. assumption. }
    rewrite dropHighlight_value by assumption. reflexivity.
Qed.

Lemma changeSplits_Ok (e : Essence.t) (newSplits : Splits) (strategy : VisStrategy)
    (e' : Essence.t) :
  Essence.changeSplits e newSplits strategy = Ok e' ->
  highlight_folded e e' /\
  Essence.dataSource e' = Essence.dataSource e /\
  Essence.selectedMeasures e' = Essence.selectedMeasures e /\
  Essence.pinnedDimensions e' = Essence.pinnedDimensions e.
Proof.
  unfold Essence.changeSplits. cbv zeta.
  match goal with
  | |- bind ?X _ = _ -> _ => destruct X as [v|err]; [|discriminate]
  end.
  cbn [bind]. intros Hnew.
  destruct (new_Ok _ _ Hnew) as (_ & Hcopies & _).
  destruct Hcopies as (_ & _ & Hds & _ & Hf & _ & Hsm & Hpd & _ & _ & Hh).
  clear Hnew. unfold highlight_folded, Essence.getEffectiveFilter.
  rewrite Hh, Hf, Hsm, Hpd. clear Hh Hf Hsm Hpd. read_value.
  destruct (Essence.highlight e) as [h|]; read_value; simpl in Hds;
    repeat split; congruence.
Qed.
End Highlights.

(** ** The best visualisation *)

Section BestVisualization.
Context `{Collaborators}.

Lemma In_insert_sorted {A : Type} (compare : A -> A -> Z) (x z : A) (l : list A) :
  In z (insert_sorted compare x l) <-> z = x \/ In z l.
Proof.
  induction l as [|y l IH]; simpl.
  - split; intros [Hz | Hz]; auto.
  - destruct (compare x y <=? 0)%Z; simpl; [split; intros [?|?]; auto|].
    rewrite IH. split; intros [?|[?|?]]; auto.
Qed.

Lemma In_sort {A : Type} (compare : A -> A -> Z) (z : A) (l : list A) :
  In z (sort compare l) <-> In z l.
Proof.
  induction l as [|y l IH]; simpl; [reflexivity|].
  rewrite In_insert_sorted, IH. split; intros [?|?]; auto.
Qed.

(** The head of the sorted list is below every element, when the
    comparator is total and transitive. *)
Lemma sort_head_least {A : Type} (compare : A -> A -> Z) (l : list A) (h : A) :
  (forall a b, (compare a b <= 0)%Z \/ (compare b a <= 0)%Z) ->
  (forall a b c, (compare a b <= 0)%Z -> (compare b c <= 0)%Z -> (compare a c <= 0)%Z) ->
  hd_error (sort compare l) = Some h ->
  forall z, In z l -> (compare h z <= 0)%Z.
Proof.
  intros Htotal Htrans. revert h.
  induction l as [|x l IH]; intros h Hhd z Hz; [destruct Hz|].
  simpl in Hhd.
  destruct (sort compare l) as [|y rest] eqn:Es.
  - simpl in Hhd. injection Hhd as <-.
    assert (Hl : l = []).
    { destruct l as [|w l']; [reflexivity|].
      assert (Hw : In w (sort compare (w :: l'))) by (apply In_sort; left; reflexivity).
      rewrite Es in Hw. destruct Hw. }
    subst l. destruct Hz as [<- | []].
    destruct (Htotal x x); assumption.
  - assert (Hy : forall w, In w l -> (compare y w <= 0)%Z) by (apply IH; reflexivity).
    simpl in Hhd. destruct (compare x y <=? 0)%Z eqn:Exy; simpl in Hhd;
      injection Hhd as <-.
    + apply Z.leb_le in Exy. destruct Hz as [<- | Hz].
      * destruct (Htotal x x); assumption.
      * apply Htrans with (b := y); [assumption | apply Hy; assumption].
    + apply Z.leb_gt in Exy. destruct Hz as [<- | Hz].
      * destruct (Htotal y x) as [Hle | Hle]; [assumption | lia].
      * apply Hy. assumption.
Qed.

Lemma getBestVisualization_In (viss : list Manifest) (ds : DataSource)
    (splits : Splits) (colors : option Colors) (current : option Manifest)
    (vr : VisualizationAndResolve) :
  Essence.getBestVisualization viss ds splits colors current = Some vr ->
  In (vr_visualization vr) viss /\
  vr_resolve vr
  = handleCircumstance (vr_visualization vr) ds splits colors
      (match current with
       | Some c => Manifest_is (vr_visualization vr) c
       | None => false
       end).
Proof.
  unfold Essence.getBestVisualization. intros Hhd.
  match type of Hhd with
  | hd_error (sort ?cmp ?l) = _ =>
    assert (Hin : In vr (sort cmp l)) by
      (destruct (sort cmp l); [discriminate | injection Hhd as ->; left; reflexivity])
  end.
  apply In_sort, in_map_iff in Hin. destruct Hin as (v & <- & Hv).
  split; [assumption | reflexivity].
Qed.

Lemma getBestVisualization_None (viss : list Manifest) (ds : DataSource)
    (splits : Splits) (colors : option Colors) (current : option Manifest) :
  Essence.getBestVisualization viss ds splits colors current = None <-> viss = [].
Proof.
  unfold Essence.getBestVisualization. split.
  - destruct viss as [|v viss]; [reflexivity|]. intros Hhd. exfalso.
    match type of Hhd with
    | hd_error (sort ?cmp (map ?f _)) = _ =>
      assert (Hin : In (f v) (sort cmp (map f (v :: viss)))) by
        (apply In_sort; left; reflexivity);
      destruct (sort cmp (map f (v :: viss))); [destruct Hin | discriminate]
    end.
  - intros ->. reflexivity.
Qed.

(** X6: [getBestVisualization] answers [undefined] exactly on an empty
    catalogue. Otherwise it answers a visualisation of the catalogue, with
    the verdict that this visualisation gives on the data source, the splits
    and the colours; and no visualisation of the catalogue has a verdict
    that the comparator puts strictly before it, when the comparator orders
    the verdicts. *)
Theorem getBestVisualization_is_best (viss : list Manifest) (ds : DataSource)
    (splits : Splits) (colors : option Colors) (current : option Manifest) :
  orders_verdicts Resolve_compare ->
  let verdict v :=
    handleCircumstance v ds splits colors
      (match current with Some c => Manifest_is v c | None => false end) in
  (Essence.getBestVisualization viss ds splits colors current = None <-> viss = []) /\
  (forall vr,
      Essence.getBestVisualization viss ds splits colors current = Some vr ->
      In (vr_visualization vr) viss /\
      vr_resolve vr = verdict (vr_visualization vr) /\
      forall v, In v viss -> (Resolve_compare (vr_resolve vr) (verdict v) <= 0)%Z).
Proof.
  intros [Htotal Htrans] verdict.
  split; [apply getBestVisualization_None|].
  intros vr Hbest.
  destruct (getBestVisualization_In _ _ _ _ _ _ Hbest) as [Hin Hres].
  split; [assumption|]. split; [assumption|].
  intros v Hv. unfold Essence.getBestVisualization in Hbest.
  match type of Hbest with
  | hd_error (sort ?cmp (map ?f _)) = _ =>
    exact (sort_head_least cmp (map f viss) vr
             (fun a b => Htotal (vr_resolve a) (vr_resolve b))
             (fun a b c => Htrans (vr_resolve a) (vr_resolve b) (vr_resolve c))
             Hbest (f v) (in_map f viss v Hv))
  end.
Qed.
End BestVisualization.

(** ** Changing the splits and the highlight *)

Section SplitsAndHighlight.
Context `{MoreCollaborators}.

Lemma changeHighlight_Ok (e : Essence.t) (owner : string) (delta : Filter)
    (e' : Essence.t) :
  Essence.changeHighlight e owner delta = Ok e' ->
  Essence.highlight e' = Some (Highlight_new owner delta) /\
  Essence.filter e' = Essence.getEffectiveFilter e (Some owner) None.
Proof.
  unfold Essence.changeHighlight, Essence.getEffectiveFilter.
  destruct (Essence.highlight e) as [pending|] eqn:Eh.
  - rewrite (String.eqb_sym owner (Highlight_owner pending)).
    destruct (String.eqb (Highlight_owner pending) owner); cbn [negb bind].
    + intros Hnew. destruct (new_Ok _ _ Hnew) as (_ & Hcopies & _).
      destruct Hcopies as (_ & _ & _ & _ & Hf & _ & _ & _ & _ & _ & Hh).
      split; assumption.
    + destruct (Essence.changeFilter e _ false) as [accepted|err] eqn:Ecf;
        cbn [bind]; [|discriminate].
      intros Hnew. rewrite changeFilter_unfold in Ecf.
      destruct (new_Ok _ _ Ecf) as (_ & Hcopies & _).
      destruct Hcopies as (_ & _ & _ & _ & Hf & _).
      destruct (new_Ok _ _ Hnew) as (_ & Hcopies' & _).
      destruct Hcopies' as (_ & _ & _ & _ & Hf' & _ & _ & _ & _ & _ & Hh').
      split; [assumption|]. rewrite Hf'. exact Hf.
  - cbn [bind]. intros Hnew. destruct (new_Ok _ _ Hnew) as (_ & Hcopies & _).
    destruct Hcopies as (_ & _ & _ & _ & Hf & _ & _ & _ & _ & _ & Hh).
    split; assumption.
Qed.

Lemma changeHighlight_own (e : Essence.t) (owner : string) (delta : Filter) :
  Essence.constructed e ->
  Essence.highlightOn e owner = true \/ Essence.highlight e = None ->
  Essence.changeHighlight e owner delta
  = Ok (with_highlight e (Some (Highlight_new owner delta))).
Proof.
  intros Hc Hown. unfold Essence.changeHighlight, Essence.highlightOn in *.
  destruct (Essence.highlight e) as [pending|].
  - destruct Hown as [Hown | [=]]. rewrite Hown. cbn [negb bind].
    rewrite (new_again e) by (assumption || reflexivity). reflexivity.
  - cbn [bind]. rewrite (new_again e) by (assumption || reflexivity). reflexivity.
Qed.

(** X7: [changeHighlight] leaves the highlight of the new owner pending,
    over the filter that this owner was shown before: a highlight that
    another owner had pending is folded into the filter first, the owner's
    own highlight is replaced. It returns on a constructed state whose
    visualisation adjusts to ready. *)
Theorem changeHighlight_accepts_foreign_highlight
    (e : Essence.t) (owner : string) (delta : Filter) :
  (forall e', Essence.changeHighlight e owner delta = Ok e' ->
              Essence.highlight e' = Some (Highlight_new owner delta) /\
              Essence.filter e' = Essence.getEffectiveFilter e (Some owner) None) /\
  (Essence.constructed e ->
   Essence.highlightOn e owner = true \/ Essence.highlight e = None ->
   Essence.changeHighlight e owner delta
   = Ok (with_highlight e (Some (Highlight_new owner delta)))) /\
  (Essence.constructed e -> adjusts_to_ready (Essence.visualization e) ->
   exists e', Essence.changeHighlight e owner delta = Ok e').
Proof.
  split; [apply changeHighlight_Ok|]. split; [apply changeHighlight_own|].
  intros Hc Hadj.
  destruct (Essence.highlight e) as [pending|] eqn:Eh;
    [destruct (String.eqb (Highlight_owner pending) owner) eqn:Eo|].
  - eexists. apply changeHighlight_own; [assumption|].
    left. unfold Essence.highlightOn. rewrite Eh. assumption.
  - unfold Essence.changeHighlight. rewrite Eh, Eo. cbn [negb].
    rewrite changeFilter_unfold.
    match goal with
    | |- context [Essence.new (changeFilter_value ?a ?b ?c ?d)] =>
      destruct (new_succeeds (changeFilter_value a b c d) (Essence.dataSource e)
                  (Essence.visualization e)) as [accepted Haccepted];
        try assumption; try reflexivity;
        [simpl; apply constructed_dataSources; assumption|];
        rewrite Haccepted
    end.
    cbn [bind]. pose proof (new_constructed _ _ Haccepted) as Hca.
    rewrite (new_again accepted) by (assumption || reflexivity).
    eexists. reflexivity.
  - eexists. apply changeHighlight_own; [assumption|]. right. assumption.
Qed.

Lemma changeSplits_empty_catalogue (e : Essence.t) (newSplits : Splits)
    (strategy : VisStrategy) :
  isManual (Essence.visResolve e) = false ->
  strategy <> KeepAlways ->
  Essence.visualizations e = [] ->
  Essence.changeSplits e newSplits strategy
  = Throw (TypeError "Cannot read property of undefined").
Proof.
  intros Hmanual Hst Hviss. unfold Essence.changeSplits. rewrite Hmanual, Hviss.
  destruct strategy; [| |congruence]; reflexivity.
Qed.

(** X8: a change of the splits, by [changeSplits], [changeSplit],
    [addSplit] or [removeSplit] and under every strategy, folds a pending
    highlight into the filter: the state it returns has no highlight, and
    the data is filtered as it was shown before. The data source, the
    selected measures and the pinned dimensions stay. Where a visualisation
    is to be chosen and the catalogue is empty, the change throws a
    [TypeError]. *)
Theorem changing_splits_folds_highlight (e : Essence.t) :
  (forall newSplits strategy e',
      Essence.changeSplits e newSplits strategy = Ok e' ->
      highlight_folded e e' /\
      Essence.dataSource e' = Essence.dataSource e /\
      Essence.selectedMeasures e' = Essence.selectedMeasures e /\
      Essence.pinnedDimensions e' = Essence.pinnedDimensions e) /\
  (forall split strategy e',
      Essence.changeSplit e split strategy = Ok e' \/
      Essence.addSplit e split strategy = Ok e' \/
      Essence.removeSplit e split strategy = Ok e' ->
      highlight_folded e e') /\
  (forall newSplits strategy,
      isManual (Essence.visResolve e) = false ->
      strategy <> KeepAlways ->
      Essence.visualizations e = [] ->
      Essence.changeSplits e newSplits strategy
      = Throw (TypeError "Cannot read property of undefined")).
Proof.
  split; [intros newSplits strategy e'; apply changeSplits_Ok|].
  split; [|intros newSplits strategy; apply changeSplits_empty_catalogue].
  intros split strategy e' [Hch | [Hch | Hch]];
    apply changeSplits_Ok in Hch; apply Hch.
Qed.
End SplitsAndHighlight.

(** ** The filter clause: JSON and expressions *)

Section ClauseConversions.
Variables Expression PlywoodSet TimeRange : Type.

Lemma FilterClause_new_valueOf (c : FilterClause.t Expression PlywoodSet) :
  FilterClause.new (FilterClause.valueOf c) = Ok c.
Proof. destruct c; reflexivity. Qed.

(** [changeValues] with a set gives the clause with these values and
    the expression and the two flags of before, and with the values the
    clause has it gives the clause back, as the constructor does on
    [valueOf]; with something that is no set it throws. *)
Lemma FilterClause_changeValues_keeps_rest (c : FilterClause.t Expression PlywoodSet) :
  (forall s,
      FilterClause.changeValues c (FilterClause.IsSet s)
      = Ok {| FilterClause.expression := FilterClause.expression c;
              FilterClause.values := s;
              FilterClause.exclude := FilterClause.exclude c;
              FilterClause.required := FilterClause.required c |}) /\
  FilterClause.changeValues c (FilterClause.IsSet (FilterClause.values c)) = Ok c /\
  FilterClause.new (FilterClause.valueOf c) = Ok c /\
  (forall v, FilterClause.changeValues c (FilterClause.NotSet v)
             = Throw (JsError "must be a set")).
Proof.
  split; [intros s; reflexivity|].
  split; [destruct c; reflexivity|].
  split; [apply FilterClause_new_valueOf|].
  intros v. reflexivity.
Qed.

Section Json.
Variable Expression_fromJS : json -> result Expression.
Variable Expression_toJS : Expression -> json.
Variable Set_fromJS : json -> result PlywoodSet.
Variable Set_toJS : PlywoodSet -> json.

(** X9: a clause comes back from its JSON form, when its expression and
    its set do: the flags that [toJS] leaves out when they are [false] are
    read as [false]. *)
Theorem FilterClause_fromJS_toJS (c : FilterClause.t Expression PlywoodSet) :
  Expression_fromJS (Expression_toJS (FilterClause.expression c))
  = Ok (FilterClause.expression c) ->
  Set_fromJS (Set_toJS (FilterClause.values c)) = Ok (FilterClause.values c) ->
  FilterClause.fromJS Expression_fromJS Set_fromJS
    (FilterClause.toJS Expression_toJS Set_toJS c) = Ok c.
Proof.
  intros Hex Hset. unfold FilterClause.fromJS, FilterClause.toJS.
  cbn [FilterClause.js_expression FilterClause.js_values FilterClause.js_exclude
       FilterClause.js_required].
  rewrite Hex. cbn [bind]. rewrite Hset. cbn [bind].
  destruct c as [ex vs [|] [|]]; reflexivity.
Qed.
End Json.

Section Expressions.
Variable Expression_toString : Expression -> string.
Variable lastAction : Expression -> option (FilterClause.action PlywoodSet TimeRange).
Variable popAction : Expression -> Expression.
Variable Expression_in :
  Expression -> FilterClause.literal PlywoodSet TimeRange -> Expression.
Variable Expression_not : Expression -> Expression.
Variable Set_of_TimeRange : TimeRange -> PlywoodSet.
Variable Set_single_TimeRange : PlywoodSet -> option TimeRange.

(** What plywood's chains do: an action that was appended is the last
    one, and popping it gives the expression of before. *)
Hypothesis in_is_last :
  forall ex value, lastAction (Expression_in ex value) = Some (FilterClause.InAction value).
Hypothesis in_pops : forall ex value, popAction (Expression_in ex value) = ex.
Hypothesis not_is_last :
  forall ex, lastAction (Expression_not ex) = Some FilterClause.NotAction.
Hypothesis not_pops : forall ex, popAction (Expression_not ex) = ex.

Let fromExpression :=
  FilterClause.fromExpression Expression_toString lastAction popAction Set_of_TimeRange.
Let toExpression :=
  FilterClause.toExpression Expression_in Expression_not Set_single_TimeRange.

(** X10: a clause comes back from the expression that [toExpression]
    writes for it, an excluding one too; the set of a single time range,
    which is written as the range, comes back when the set built of the
    range is that set. *)
Theorem FilterClause_fromExpression_toExpression (c : FilterClause.t Expression PlywoodSet) :
  (forall range, Set_single_TimeRange (FilterClause.values c) = Some range ->
                 Set_of_TimeRange range = FilterClause.values c) ->
  fromExpression (toExpression c) (FilterClause.required c) = Ok c.
Proof.
  intros Hsingle. unfold fromExpression, toExpression.
  unfold FilterClause.fromExpression, FilterClause.toExpression. cbv zeta.
  destruct c as [ex vs exclude required].
  cbn [FilterClause.expression FilterClause.values FilterClause.exclude
       FilterClause.required] in *.
  destruct exclude.
  - rewrite not_is_last, not_pops. cbv beta iota.
    destruct (Set_single_TimeRange vs) as [range|] eqn:Es;
      rewrite in_is_last, in_pops; cbv beta iota;
      [rewrite (Hsingle range eq_refl)|]; reflexivity.
  - destruct (Set_single_TimeRange vs) as [range|] eqn:Es;
      rewrite in_is_last; cbv beta iota; rewrite in_is_last, in_pops; cbv beta iota;
      [rewrite (Hsingle range eq_refl)|]; reflexivity.
Qed.

(** X11: what [fromExpression] refuses. One negation is taken off, so a
    doubly negated clause is an invalid expression, as is an expression
    without an action; and an [in] whose value is neither a set nor a time
    range, negated or not, does not get past the constructor. *)
Theorem FilterClause_fromExpression_refuses (ex : Expression) (required : bool) :
  fromExpression (Expression_not (Expression_not ex)) required
  = Throw (JsError ("invalid expression " ++ Expression_toString (Expression_not ex))) /\
  (lastAction ex = None ->
   fromExpression ex required
   = Throw (JsError ("invalid expression " ++ Expression_toString ex))) /\
  (forall v,
      let value := FilterClause.LiteralOther v in
      fromExpression (Expression_in ex value) required = Throw (JsError "must be a set") /\
      fromExpression (Expression_not (Expression_in ex value)) required
      = Throw (JsError "must be a set")).
Proof.
  unfold fromExpression, FilterClause.fromExpression. cbv zeta.
  split; [|split].
  - rewrite !not_is_last, !not_pops, not_is_last. reflexivity.
  - intros Hnone. rewrite Hnone. cbv beta iota. rewrite Hnone. reflexivity.
  - intros v. split.
    + rewrite in_is_last. cbv beta iota. rewrite in_is_last. reflexivity.
    + rewrite not_is_last, not_pops. cbv beta iota. rewrite in_is_last. reflexivity.
Qed.
End Expressions.
End ClauseConversions.

(** ** What two states differ in *)

Section Differences.
Context `{Collaborators}.

Lemma different_optional_equals {A : Type} (eq : A -> A -> bool) (a b : option A) :
  Essence.different_optional eq a b = negb (optional_equals eq a b).
Proof.
  unfold Essence.different_optional, optional_equals.
  destruct a as [x|], b as [y|]; simpl; try reflexivity.
Qed.

Lemma differentColors_equals (a b : Essence.t) :
  Essence.differentColors a b
  = negb (optional_equals Colors_equals (Essence.colors a) (Essence.colors b)).
Proof.
  unfold Essence.differentColors, optional_equals.
  destruct (Essence.colors a) as [x|], (Essence.colors b) as [y|]; reflexivity.
Qed.

Lemma OrderedSet_equals_eq (a b : OrderedSet) :
  OrderedSet_equals a b = true <-> a = b.
Proof.
  revert b. induction a as [|x a IH]; intros [|y b]; simpl;
    try (split; [discriminate | discriminate]); [tauto|].
  rewrite andb_true_iff, String.eqb_eq, IH. split.
  - intros [-> ->]. reflexivity.
  - intros [= -> ->]. split; reflexivity.
Qed.

Lemma isSubset_refl (a : OrderedSet) : Essence.isSubset a a = true.
Proof.
  unfold Essence.isSubset. apply forallb_forall. intros n Hn.
  apply has_In. assumption.
Qed.

(** X12: [equals] and the [different...] predicates agree. Two states are
    equal exactly when their data sources are, their visualisations have one
    identifier, their required filters are equal, and none of the nine
    predicates on the other fields reports a difference; and between equal
    states no measure is newly selected. *)
Theorem equals_iff_nothing_different (a b : Essence.t) :
  (Essence.equals a b = true <->
   DataSource_equals (Essence.dataSource a) (Essence.dataSource b) = true /\
   String.eqb (Manifest_id (Essence.visualization a))
              (Manifest_id (Essence.visualization b)) = true /\
   Filter_equals (Essence.requiredFilter a) (Essence.requiredFilter b) = true /\
   Essence.differentTimezone a b = false /\
   Essence.differentFilter a b = false /\
   Essence.differentSplits a b = false /\
   Essence.differentColors a b = false /\
   Essence.differentSelectedMeasures a b = false /\
   Essence.differentPinnedDimensions a b = false /\
   Essence.differentPinnedSort a b = false /\
   Essence.differentCompare a b = false /\
   Essence.differentHighligh a b = false) /\
  (Essence.equals a b = true -> Essence.newSelectedMeasures a b = false).
Proof.
  assert (Hiff :
    Essence.equals a b = true <->
    DataSource_equals (Essence.dataSource a) (Essence.dataSource b) = true /\
    String.eqb (Manifest_id (Essence.visualization a))
               (Manifest_id (Essence.visualization b)) = true /\
    Filter_equals (Essence.requiredFilter a) (Essence.requiredFilter b) = true /\
    Essence.differentTimezone a b = false /\
    Essence.differentFilter a b = false /\
    Essence.differentSplits a b = false /\
    Essence.differentColors a b = false /\
    Essence.differentSelectedMeasures a b = false /\
    Essence.differentPinnedDimensions a b = false /\
    Essence.differentPinnedSort a b = false /\
    Essence.differentCompare a b = false /\
    Essence.differentHighligh a b = false).
  { unfold Essence.equals, Essence.differentCompare, Essence.differentHighligh.
    rewrite differentColors_equals, !different_optional_equals.
    unfold Essence.differentTimezone, Essence.differentFilter, Essence.differentSplits,
      Essence.differentSelectedMeasures, Essence.differentPinnedDimensions,
      Essence.differentPinnedSort.
    rewrite !andb_true_iff, !negb_false_iff. tauto. }
  split; [exact Hiff|].
  intros Heq. apply Hiff in Heq.
  destruct Heq as (_ & _ & _ & _ & _ & _ & _ & Hsm & _).
  unfold Essence.differentSelectedMeasures in Hsm.
  apply negb_false_iff, OrderedSet_equals_eq in Hsm.
  unfold Essence.newSelectedMeasures. rewrite Hsm, isSubset_refl. reflexivity.
Qed.
End Differences.

(** ** Toggling a measure and the newly selected measures *)

Section ToggleAndSelection.
Context `{Collaborators}.

Lemma toggleMeasure_returns (e : Essence.t) (m : Measure) :
  Essence.constructed e -> exists e', Essence.toggleMeasure e m = Ok e'.
Proof.
  intros Hc. unfold Essence.toggleMeasure. cbv zeta.
  destruct (has (Measure_name m) _);
    rewrite (new_again e) by (assumption || reflexivity); eexists; reflexivity.
Qed.

(** X13: [toggleMeasure] returns on a constructed state. Toggling a
    selected measure takes its name out and leaves the other names as they
    are, and nothing is newly selected. Toggling a measure that is not
    selected selects it when the data source declares it, and only then:
    every name selected afterwards is a declared one, and a declared
    measure that was toggled on is newly selected. *)
Theorem toggleMeasure_flips_declared_measure
    (e : Essence.t) (m : Measure) (e' : Essence.t) :
  Essence.toggleMeasure e m = Ok e' ->
  let name := Measure_name m in
  let declared := declared_measures (Essence.dataSource e) in
  (has name (Essence.selectedMeasures e) = true ->
   has name (Essence.selectedMeasures e') = false /\
   (forall n, n <> name ->
              has n (Essence.selectedMeasures e') = has n (Essence.selectedMeasures e)) /\
   Essence.newSelectedMeasures e' e = false) /\
  (has name (Essence.selectedMeasures e) = false ->
   has name (Essence.selectedMeasures e') = has name declared /\
   (forall n, has n (Essence.selectedMeasures e') = true -> has n declared = true) /\
   (has name declared = true -> Essence.newSelectedMeasures e' e = true)) /\
  (Essence.constructed e -> exists e1, Essence.toggleMeasure e m = Ok e1).
Proof.
  intros Htoggle name declared.
  destruct (toggleMeasure_Ok _ _ _ Htoggle) as (_ & Hs).
  fold name declared in Hs.
  split; [|split; [|intros Hc; apply toggleMeasure_returns; assumption]].
  - intros Hon. rewrite Hon in Hs. rewrite Hs.
    split; [apply has_delete|]. split.
    + intros n Hn. unfold delete. rewrite has_filter.
      apply String.eqb_neq in Hn. rewrite Hn. reflexivity.
    + unfold Essence.newSelectedMeasures, Essence.isSubset. rewrite Hs.
      apply negb_false_iff, forallb_forall. intros n Hn.
      apply filter_In in Hn. apply has_In. tauto.
  - intros Hoff. rewrite Hoff in Hs.
    assert (Hname : has name (Essence.selectedMeasures e') = has name declared).
    { rewrite Hs, has_filter, String.eqb_refl, orb_true_r. reflexivity. }
    split; [assumption|]. split.
    + intros n. rewrite Hs, has_filter. intros Hn.
      apply andb_true_iff in Hn. tauto.
    + intros Hdeclared. rewrite <- Hname in Hdeclared.
      unfold Essence.newSelectedMeasures.
      destruct (Essence.isSubset _ _) eqn:Esub; [|reflexivity].
      unfold Essence.isSubset in Esub. rewrite forallb_forall in Esub.
      apply has_In in Hdeclared. apply Esub in Hdeclared. congruence.
Qed.
End ToggleAndSelection.

(** ** The sort the splits have in common *)

Section CommonSort.
Context `{MoreCollaborators}.

Lemma commonSort_loop_agreeing (splits : list SplitCombine) (common : SortAction)
    (r : option SortAction) :
  Essence.commonSort_loop splits (Some common) = Some r <->
  r = Some common /\
  Forall (fun split => SortAction_equals common (SplitCombine_sortAction split) = true)
         splits.
Proof.
  induction splits as [|split rest IH]; simpl.
  - split; [intros [= <-]; auto | intros [-> _]; reflexivity].
  - destruct (SortAction_equals common (SplitCombine_sortAction split)) eqn:Eeq; simpl.
    + rewrite IH. split; intros [Hr Hall]; split; auto.
      inversion Hall; assumption.
    + split; [discriminate|]. intros [_ Hall]. inversion Hall. congruence.
Qed.

Lemma commonSort_loop_first (splits : list SplitCombine) (common : SortAction) :
  Essence.commonSort_loop splits None = Some (Some common) <->
  exists unsorted first rest,
    splits = (unsorted ++ first :: rest)%list /\
    Forall (fun split => SplitCombine_sortAction split = None) unsorted /\
    SplitCombine_sortAction first = Some common /\
    Forall (fun split => SortAction_equals common (SplitCombine_sortAction split) = true)
           rest.
Proof.
  induction splits as [|split splits IH]; simpl.
  - split; [discriminate|]. intros (unsorted & first & rest & Hsplits & _).
    destruct unsorted; discriminate.
  - destruct (SplitCombine_sortAction split) as [sort|] eqn:Esort.
    + rewrite commonSort_loop_agreeing. split.
      * intros [[= ->] Hall]. exists [], split, splits. auto.
      * intros (unsorted & first & rest & Hsplits & Hun & Hfirst & Hrest).
        destruct unsorted as [|u unsorted]; simpl in Hsplits;
          injection Hsplits as -> ->.
        -- split; [congruence|]. replace sort with common by congruence. assumption.
        -- inversion Hun. congruence.
    + rewrite IH. split.
      * intros (unsorted & first & rest & -> & Hun & Hfirst & Hrest).
        exists (split :: unsorted), first, rest. auto.
      * intros (unsorted & first & rest & Hsplits & Hun & Hfirst & Hrest).
        destruct unsorted as [|u unsorted]; simpl in Hsplits;
          injection Hsplits as -> ->; [congruence|].
        exists unsorted, first, rest. inversion Hun. auto.
Qed.

(** X14: [getCommonSort] answers a sort exactly when the splits are some
    splits without a sort, then a split with this sort, then splits whose
    sort this one equals. So splits without a sort are passed over before
    the first sorted split and not after it, unless a sort equals [null];
    and without splits, or with unsorted splits only, the answer is [null]. *)
Theorem getCommonSort_is_first_sort (e : Essence.t) (common : SortAction) :
  (Essence.getCommonSort e = Some common <->
   exists unsorted first rest,
     Splits_toArray (Essence.splits e) = (unsorted ++ first :: rest)%list /\
     Forall (fun split => SplitCombine_sortAction split = None) unsorted /\
     SplitCombine_sortAction first = Some common /\
     Forall (fun split => SortAction_equals common (SplitCombine_sortAction split) = true)
            rest) /\
  (Forall (fun split => SplitCombine_sortAction split = None)
          (Splits_toArray (Essence.splits e)) ->
   Essence.getCommonSort e = None).
Proof.
  unfold Essence.getCommonSort. split.
  - rewrite <- commonSort_loop_first.
    destruct (Essence.commonSort_loop _ None) as [[c|]|]; split; congruence.
  - intros Hall.
    destruct (Essence.commonSort_loop _ None) as [[c|]|] eqn:Eloop; try reflexivity.
    apply commonSort_loop_first in Eloop.
    destruct Eloop as (unsorted & first & rest & Hsplits & _ & Hfirst & _).
    rewrite Hsplits in Hall. apply Forall_app in Hall. destruct Hall as [_ Hall].
    inversion Hall. congruence.
Qed.
End CommonSort.

(** ** What a decoded state names *)

Section Decoded.
Context `{Collaborators}.

Lemma chosen_visualization_In (p : EssenceValue.t) (ds : DataSource) (v : Manifest) :
  chosen_visualization p ds = Ok v ->
  (forall v', EssenceValue.visualization p = Some v' ->
              In v' (EssenceValue.visualizations p)) ->
  In v (EssenceValue.visualizations p).
Proof.
  unfold chosen_visualization. intros Hchosen Hgiven.
  destruct (EssenceValue.visualization p) as [v'|].
  - injection Hchosen as <-. apply Hgiven. reflexivity.
  - destruct (Essence.getBestVisualization _ ds _ _ None) as [vr|] eqn:Ebest;
      [|discriminate].
    injection Hchosen as <-.
    apply (getBestVisualization_In _ _ _ _ _ _ Ebest).
Qed.

Lemma Boolean_true {A : Type} (o : option A) : Boolean o = true -> o <> None.
Proof. destruct o; [discriminate|]. discriminate. Qed.

Lemma fromJS_Ok (js : EssenceJS.t) (dss : list DataSource) (viss : list Manifest)
    (e : Essence.t) :
  Essence.fromJS js dss viss = Ok e ->
  names_resolve e /\
  Essence.dataSources e = dss /\
  Essence.visualizations e = viss /\
  DataSource_name (Essence.dataSource e) = EssenceJS.dataSource js.
Proof.
  unfold Essence.fromJS. cbv zeta.
  destruct (Timezone_fromJS _) as [tz|]; cbn [bind]; [|discriminate].
  destruct (Filter_fromJS (EssenceJS.filter js)) as [f|]; cbn [bind]; [|discriminate].
  destruct (find _ dss) as [ds|] eqn:Efind; cbn [deref bind]; [|discriminate].
  destruct (Filter_fromJS (EssenceJS.requiredFilter js)) as [rf|]; cbn [bind];
    [|discriminate].
  destruct (Splits_fromJS _) as [sp|]; cbn [bind]; [|discriminate].
  destruct (OrderedSet_fromJS (EssenceJS.selectedMeasures js)) as [sm|]; cbn [bind];
    [|discriminate].
  destruct (OrderedSet_fromJS (EssenceJS.pinnedDimensions js)) as [pd|]; cbn [bind];
    [|discriminate].
  destruct (optional_fromJS Colors_fromJS _) as [c|]; cbn [bind]; [|discriminate].
  destruct (optional_fromJS Filter_fromJS _) as [cmp|]; cbn [bind]; [|discriminate].
  destruct (optional_fromJS Highlight_fromJS _) as [h|]; cbn [bind]; [|discriminate].
  intros Hnew.
  destruct (new_Ok _ _ Hnew) as (_ & Hcopies & Hchosen & _).
  apply chosen_visualization_In in Hchosen.
  2:{ cbn [EssenceValue.visualization EssenceValue.visualizations].
      intros v' Hv'. apply find_some in Hv'. apply Hv'. }
  destruct Hcopies as (Hdss & Hviss & Hds & _ & _ & _ & Hsm & Hpd & Hps & _).
  clear Hnew.
  cbn [EssenceValue.dataSources EssenceValue.visualizations EssenceValue.dataSource
       EssenceValue.selectedMeasures EssenceValue.pinnedDimensions
       EssenceValue.pinnedSort] in *.
  injection Hds as Hds. apply find_some in Efind. destruct Efind as [Hin Hname].
  apply String.eqb_eq in Hname.
  assert (Hmeasures : forall n, In n (Essence.selectedMeasures e) ->
                                DataSource_getMeasure (Essence.dataSource e) n <> None).
  { intros n Hn. rewrite Hsm in Hn. apply filter_In in Hn.
    rewrite Hds. apply Boolean_true, Hn. }
  unfold names_resolve. rewrite Hdss, Hviss, Hds.
  split; [|split; [reflexivity|split; [reflexivity | assumption]]].
  split; [assumption|]. split; [assumption|].
  split; [rewrite <- Hds; assumption|]. split; [|split].
  - intros n Hn. rewrite Hpd in Hn. apply filter_In in Hn. apply Boolean_true, Hn.
  - unfold Essence.getPinnedSortMeasure. rewrite Hds, Hps.
    match goal with
    | |- context [negb (Boolean ?o)] => destruct (Boolean o) eqn:Eb
    end; cbn [negb]; [left; apply Boolean_true; assumption | right; reflexivity].
  - unfold Essence.getMeasures. apply Forall_forall. intros m Hm.
    apply in_map_iff in Hm. destruct Hm as (n & <- & Hn). apply Hmeasures. assumption.
Qed.

(** X15: a state that [fromJS] returns, and so one that [fromHash]
    returns, names only what is there: its data source is the one of the
    catalogue with the name asked for, its visualisation is one of the
    catalogue, every selected measure and every pinned dimension is one the
    data source resolves, so that [getMeasures] has no [undefined] in it,
    and the measure the pinned dimensions are sorted by resolves or is the
    default of the data source. *)
Theorem decoded_names_resolve (dss : list DataSource) (viss : list Manifest) :
  (forall js e,
      Essence.fromJS js dss viss = Ok e ->
      names_resolve e /\
      Essence.dataSources e = dss /\
      Essence.visualizations e = viss /\
      DataSource_name (Essence.dataSource e) = EssenceJS.dataSource js) /\
  (forall hash e,
      Essence.fromHash hash dss viss = Ok (Some e) ->
      names_resolve e /\
      Essence.dataSources e = dss /\
      Essence.visualizations e = viss).
Proof.
  split; [intros js e; apply fromJS_Ok|].
  intros hash e. unfold Essence.fromHash. cbv zeta.
  destruct (List.length _ <? 4); [discriminate|].
  destruct (split slash (trim_leading_hash hash)) as [|ds [|vis [|ver rest]]];
    try discriminate.
  destruct (Essence.is_not_one (parseInt ver)); [discriminate|].
  destruct (Essence.parse_payload _) as [[| | | |items|]|]; try discriminate.
  destruct (negb _); [discriminate|].
  destruct (Essence.fromJS _ dss viss) as [essence|] eqn:EfromJS; [|discriminate].
  intros [= ->]. apply fromJS_Ok in EfromJS. tauto.
Qed.
End Decoded.

(** ** The defaults of a data source *)

Section Defaults.
Context `{Collaborators}.

Lemma length_fold_add (l : list string) (acc : OrderedSet) :
  List.length (fold_left (fun acc n => add n acc) l acc)
  <= List.length l + List.length acc.
Proof.
  revert acc. induction l as [|x l IH]; intros acc; simpl; [lia|].
  specialize (IH (add x acc)). unfold add in *.
  destruct (has x acc); [lia|].
  rewrite length_app in IH. simpl in IH. lia.
Qed.

Lemma NoDup_fold_add (l : list string) (acc : OrderedSet) :
  NoDup acc -> NoDup (fold_left (fun acc n => add n acc) l acc).
Proof.
  revert acc. induction l as [|x l IH]; intros acc Hacc; simpl; [assumption|].
  apply IH. unfold add. destruct (has x acc) eqn:Ex; [assumption|].
  apply NoDup_app; [assumption | repeat constructor; intros [] |].
  intros a Ha [<- | []]. apply has_In in Ha. congruence.
Qed.

Lemma length_firstn_le {A : Type} (n : nat) (l : list A) :
  List.length (firstn n l) <= n.
Proof.
  revert l. induction n as [|n IH]; intros [|x l]; simpl; try lia.
  specialize (IH l). lia.
Qed.

Lemma In_firstn {A : Type} (n : nat) (l : list A) (x : A) :
  In x (firstn n l) -> In x l.
Proof.
  revert l. induction n as [|n IH]; intros [|y l]; simpl; try tauto.
  intros [Hx | Hx]; [left; assumption | right; apply IH; assumption].
Qed.

(** X16: the state that [fromDataSource] returns is on that data source,
    with a visualisation of the catalogue, picked as the best one. Its
    selected measures are the first four of the data source at most, each
    once and each a measure of the data source; the pinned dimensions, the
    sort measure, the timezone and the required filter are the defaults of
    the data source, and there is no compare filter and no highlight. With
    an empty list of data sources it throws the constructor's error, with an
    empty catalogue of visualisations a [TypeError]. *)
Theorem fromDataSource_defaults (ds : DataSource) (dss : list DataSource)
    (viss : list Manifest) :
  (forall e,
      Essence.fromDataSource ds dss viss = Ok e ->
      Essence.dataSource e = ds /\
      In (Essence.visualization e) viss /\
      Essence.selectedMeasures e
      = OrderedSet_of (map Measure_name (firstn 4 (DataSource_measures ds))) /\
      List.length (Essence.selectedMeasures e) <= 4 /\
      NoDup (Essence.selectedMeasures e) /\
      (forall n, In n (Essence.selectedMeasures e) ->
                 In n (map Measure_name (DataSource_measures ds))) /\
      Essence.pinnedDimensions e = DataSource_defaultPinnedDimensions ds /\
      Essence.pinnedSort e = DataSource_defaultSortMeasure ds /\
      Essence.timezone e = DataSource_defaultTimezone ds /\
      Essence.requiredFilter e = DataSource_requiredFilter ds /\
      Essence.compare e = None /\
      Essence.highlight e = None) /\
  (dss = [] ->
   Essence.fromDataSource ds dss viss
   = Throw (JsError "can not have empty dataSource list")) /\
  (dss <> [] -> viss = [] ->
   Essence.fromDataSource ds dss viss
   = Throw (TypeError "Cannot read property of undefined")).
Proof.
  split; [|split].
  - intros e. unfold Essence.fromDataSource. cbv zeta. intros Hnew.
    destruct (new_Ok _ _ Hnew) as (_ & Hcopies & Hchosen & _).
    apply chosen_visualization_In in Hchosen; [|discriminate].
    destruct Hcopies as (_ & _ & Hds & Htz & _ & Hrf & Hsm & Hpd & Hps & Hcmp & Hh).
    clear Hnew.
    cbn [EssenceValue.dataSource EssenceValue.visualizations EssenceValue.timezone
         EssenceValue.requiredFilter EssenceValue.selectedMeasures
         EssenceValue.pinnedDimensions EssenceValue.pinnedSort EssenceValue.compare
         EssenceValue.highlight] in *.
    injection Hds as Hds.
    split; [assumption|]. split; [assumption|]. split; [assumption|].
    rewrite Hsm. split; [|split; [|split]].
    + unfold OrderedSet_of.
      pose proof (length_fold_add
                    (map Measure_name (firstn 4 (DataSource_measures ds))) []) as Hlen.
      rewrite length_map in Hlen.
      pose proof (length_firstn_le 4 (DataSource_measures ds)).
      change (List.length (@nil string)) with 0 in Hlen. lia.
    + apply NoDup_fold_add. constructor.
    + intros n Hn. apply has_In in Hn. rewrite has_OrderedSet_of in Hn.
      apply has_In, in_map_iff in Hn. destruct Hn as (m & <- & Hm).
      apply in_map. apply In_firstn in Hm. assumption.
    + repeat split; assumption.
  - intros ->. reflexivity.
  - intros Hne ->. unfold Essence.fromDataSource, Essence.new. cbv zeta.
    cbn [EssenceValue.dataSources EssenceValue.dataSource EssenceValue.visualization
         EssenceValue.visualizations].
    destruct dss as [|d dss]; [congruence|]. reflexivity.
Qed.
End Defaults.

(** ** When a change of the splits returns *)

Section SplitsReturn.
Context `{Collaborators}.

Lemma new_succeeds_with (p : EssenceValue.t) (ds : DataSource) (v : Manifest) :
  EssenceValue.dataSources p <> [] ->
  EssenceValue.dataSource p = Some ds ->
  EssenceValue.visualization p = Some v ->
  adjusts_to_ready v ->
  exists e, Essence.new p = Ok e /\ Essence.visualization e = v.
Proof.
  intros Hne Hds Hv Hadj.
  destruct (new_succeeds p ds v Hne Hds Hv Hadj) as [e He].
  exists e. split; [assumption|].
  destruct (new_Ok _ _ He) as (_ & _ & Hchosen & _).
  unfold chosen_visualization in Hchosen. rewrite Hv in Hchosen. congruence.
Qed.

Lemma changeSplits_with (e : Essence.t) (newSplits : Splits) (v : Manifest) :
  Essence.constructed e -> adjusts_to_ready v ->
  let value := Essence.valueOf e in
  let value := EssenceValue.set_splits value newSplits in
  let value := EssenceValue.set_visualization value (Some v) in
  let value :=
    match EssenceValue.highlight value with
    | Some highlight =>
      EssenceValue.set_highlight
        (EssenceValue.set_filter value
           (Highlight_applyToFilter highlight (EssenceValue.filter value)))
        None
    | None => value
    end in
  exists e', Essence.new value = Ok e' /\ Essence.visualization e' = v.
Proof.
  intros Hc Hadj. cbv zeta.
  apply new_succeeds_with with (ds := Essence.dataSource e); try assumption;
    read_value; destruct (Essence.highlight e); try reflexivity;
    apply constructed_dataSources; assumption.
Qed.

(** X17: on a constructed state over a catalogue that is not empty and
    whose visualisations, as the current one, adjust to ready, every change
    of the splits returns. The state has the visualisation of before when
    the strategy is to keep it or the verdict of before is manual, and one
    of the catalogue otherwise. *)
Theorem changeSplits_returns (e : Essence.t) (newSplits : Splits)
    (strategy : VisStrategy) :
  Essence.constructed e ->
  Essence.visualizations e <> [] ->
  (forall v, In v (Essence.visualizations e) -> adjusts_to_ready v) ->
  adjusts_to_ready (Essence.visualization e) ->
  exists e',
    Essence.changeSplits e newSplits strategy = Ok e' /\
    (if isManual (Essence.visResolve e) || VisStrategy_eqb strategy KeepAlways
     then Essence.visualization e' = Essence.visualization e
     else In (Essence.visualization e') (Essence.visualizations e)).
Proof.
  intros Hc Hne Hall Hadj. unfold Essence.changeSplits. cbv zeta.
  assert (Hkeep :
    forall splits,
    exists e',
      (visualization <- Ok (Essence.visualization e) ;;
       Essence.new
         (match EssenceValue.highlight
                  (EssenceValue.set_visualization
                     (EssenceValue.set_splits (Essence.valueOf e) splits)
                     (Some visualization)) with
          | Some highlight =>
            EssenceValue.set_highlight
              (EssenceValue.set_filter
                 (EssenceValue.set_visualization
                    (EssenceValue.set_splits (Essence.valueOf e) splits)
                    (Some visualization))
                 (Highlight_applyToFilter highlight
                    (EssenceValue.filter
                       (EssenceValue.set_visualization
                          (EssenceValue.set_splits (Essence.valueOf e) splits)
                          (Some visualization)))))
              None
          | None =>
            EssenceValue.set_visualization
              (EssenceValue.set_splits (Essence.valueOf e) splits)
              (Some visualization)
          end)) = Ok e' /\
      Essence.visualization e' = Essence.visualization e).
  { intros splits. cbn [bind]. apply (changeSplits_with e splits); assumption. }
  assert (Hbest :
    forall splits current,
    exists e',
      (visualization <-
         (visAndResolve <-
            deref (Essence.getBestVisualization (Essence.visualizations e)
                     (Essence.dataSource e) splits (Essence.colors e) current) ;;
          Ok (vr_visualization visAndResolve)) ;;
       Essence.new
         (match EssenceValue.highlight
                  (EssenceValue.set_visualization
                     (EssenceValue.set_splits (Essence.valueOf e) splits)
                     (Some visualization)) with
          | Some highlight =>
            EssenceValue.set_highlight
              (EssenceValue.set_filter
                 (EssenceValue.set_visualization
                    (EssenceValue.set_splits (Essence.valueOf e) splits)
                    (Some visualization))
                 (Highlight_applyToFilter highlight
                    (EssenceValue.filter
                       (EssenceValue.set_visualization
                          (EssenceValue.set_splits (Essence.valueOf e) splits)
                          (Some visualization)))))
              None
          | None =>
            EssenceValue.set_visualization
              (EssenceValue.set_splits (Essence.valueOf e) splits)
              (Some visualization)
          end)) = Ok e' /\
      In (Essence.visualization e') (Essence.visualizations e)).
  { intros splits current.
    destruct (Essence.getBestVisualization _ _ splits _ current) as [vr|] eqn:Ebest;
      [|apply getBestVisualization_None in Ebest; contradiction].
    cbn [deref bind].
    destruct (getBestVisualization_In _ _ _ _ _ _ Ebest) as [Hin _].
    destruct (changeSplits_with e splits (vr_visualization vr) Hc (Hall _ Hin))
      as (e' & He' & Hv).
    exists e'. split; [exact He'|]. rewrite Hv. assumption. }
  destruct (isManual (Essence.visResolve e)); cbn [orb VisStrategy_eqb negb].
  - apply Hkeep.
  - destruct strategy; cbn [VisStrategy_eqb negb].
    + apply Hbest.
    + apply Hbest.
    + apply Hkeep.
Qed.
End SplitsReturn.

(** ** From a state to its JSON form and back *)

Section RoundTripJS.
Context `{Collaborators}.
Variable e : Essence.t.

Let ds := Essence.dataSource e.
Let dimensions := DataSource_dimensions ds.
Let timeAttribute := DataSource_timeAttribute ds.

(** The state is the constructor's, and its names are in the catalogues. *)
Hypothesis e_constructed : Essence.constructed e.
Hypothesis dataSource_listed :
  find (fun d => String.eqb (DataSource_name d) (DataSource_name ds))
       (Essence.dataSources e) = Some ds.
Hypothesis visualization_listed :
  find (fun v => String.eqb (Manifest_id v) (Manifest_id (Essence.visualization e)))
       (Essence.visualizations e) = Some (Essence.visualization e).

(** Every field is valid for the data source. *)
Hypothesis filter_valid :
  forall f, f = Essence.filter e \/ f = Essence.requiredFilter e \/
            Essence.compare e = Some f ->
            Filter_constrainToDimensions f dimensions timeAttribute None = f.
Hypothesis splits_valid :
  Splits_constrainToDimensions (Essence.splits e) dimensions = Essence.splits e.
Hypothesis selectedMeasures_valid :
  constrainMeasures (OrderedSet_of (Essence.selectedMeasures e)) ds
  = Essence.selectedMeasures e.
Hypothesis pinnedDimensions_valid :
  constrainDimensions (OrderedSet_of (Essence.pinnedDimensions e)) ds
  = Essence.pinnedDimensions e.
Hypothesis pinnedSort_valid :
  Essence.pinnedSort e = DataSource_defaultSortMeasure ds \/
  Boolean (DataSource_getMeasure ds (Essence.pinnedSort e)) = true /\
  Essence.pinnedSort e <> "".
Hypothesis highlight_valid :
  forall h, Essence.highlight e = Some h ->
            Highlight_constrainToDimensions h dimensions timeAttribute = h.

(** [fromJS] reads back what each [toJS] writes, and what is written for
    an optional field is truthy. *)
Hypothesis timezone_back :
  Timezone_fromJS (Timezone_toJS (Essence.timezone e)) = Ok (Essence.timezone e).
Hypothesis filter_back :
  forall f, f = Essence.filter e \/ f = Essence.requiredFilter e ->
            Filter_fromJS (Filter_toJS f) = Ok f.
Hypothesis splits_back :
  Splits_fromJS (Splits_toJS (Essence.splits e)) = Ok (Essence.splits e).
Hypothesis colors_back :
  forall c, Essence.colors e = Some c ->
            truthy (Colors_toJS c) = true /\ Colors_fromJS (Colors_toJS c) = Ok c.
Hypothesis compare_back :
  forall f, Essence.compare e = Some f ->
            truthy (Filter_toJS f) = true /\ Filter_fromJS (Filter_toJS f) = Ok f.
Hypothesis highlight_back :
  forall h, Essence.highlight e = Some h ->
            truthy (Highlight_toJS h) = true /\
            Highlight_fromJS (Highlight_toJS h) = Ok h.

Lemma optional_back {A : Type} (toJS : A -> json) (fromJS : json -> result A)
    (field : option A) :
  (forall a, field = Some a -> truthy (toJS a) = true /\ fromJS (toJS a) = Ok a) ->
  optional_fromJS fromJS (option_map toJS field) = Ok field.
Proof.
  intros Hback. destruct field as [a|]; [|reflexivity].
  destruct (Hback a eq_refl) as [Ht Hb]. simpl. rewrite Ht, Hb. reflexivity.
Qed.

(** X18: a state comes back from its JSON form, a pending highlight
    included: [fromJS] on what [toJS] wrote, with the catalogues of the
    state, returns the state, when every field is valid for the data source
    and comes back from its own JSON form. *)
Theorem fromJS_toJS_gives_state :
  Essence.fromJS (Essence.toJS e) (Essence.dataSources e) (Essence.visualizations e)
  = Ok e.
Proof.
  unfold Essence.fromJS.
  cbn [EssenceJS.dataSource EssenceJS.visualization EssenceJS.timezone EssenceJS.filter
       EssenceJS.requiredFilter EssenceJS.splits EssenceJS.selectedMeasures
       EssenceJS.pinnedDimensions EssenceJS.colors EssenceJS.pinnedSort
       EssenceJS.compare EssenceJS.highlight Essence.toJS].
  fold ds. rewrite dataSource_listed, visualization_listed.
  rewrite timezone_back, (filter_back _ (or_introl eq_refl)). cbn [bind deref].
  rewrite (filter_back _ (or_intror eq_refl)), splits_back. cbn [bind].
  fold dimensions timeAttribute.
  rewrite (filter_valid _ (or_introl eq_refl)),
    (filter_valid _ (or_intror (or_introl eq_refl))), splits_valid.
  unfold OrderedSet_fromJS. rewrite !strings_of_names. cbn [bind].
  rewrite selectedMeasures_valid, pinnedDimensions_valid.
  rewrite (optional_back Colors_toJS Colors_fromJS _ colors_back). cbn [bind].
  rewrite (optional_back Filter_toJS Filter_fromJS _ compare_back). cbn [bind].
  rewrite (optional_back Highlight_toJS Highlight_fromJS _ highlight_back). cbn [bind].
  assert (Hcmp : option_map
                   (fun c => Filter_constrainToDimensions c dimensions timeAttribute None)
                   (Essence.compare e) = Essence.compare e).
  { destruct (Essence.compare e) as [c|] eqn:Ec; [|reflexivity].
    simpl. rewrite (filter_valid c (or_intror (or_intror eq_refl))). reflexivity. }
  assert (Hhl : option_map
                  (fun h => Highlight_constrainToDimensions h dimensions timeAttribute)
                  (Essence.highlight e) = Essence.highlight e).
  { destruct (Essence.highlight e) as [h|] eqn:Eh; [|reflexivity].
    simpl. rewrite (highlight_valid h eq_refl). reflexivity. }
  rewrite Hcmp, Hhl.
  assert (Hnew : forall p,
             EssenceValue.dataSources p = Essence.dataSources e ->
             EssenceValue.dataSource p = Some (Essence.dataSource e) ->
             EssenceValue.visualization p = Some (Essence.visualization e) ->
             EssenceValue.splits p = Essence.splits e ->
             EssenceValue.colors p = Essence.colors e ->
             EssenceValue.visualizations p = Essence.visualizations e ->
             EssenceValue.timezone p = Essence.timezone e ->
             EssenceValue.filter p = Essence.filter e ->
             EssenceValue.requiredFilter p = Essence.requiredFilter e ->
             EssenceValue.selectedMeasures p = Essence.selectedMeasures e ->
             EssenceValue.pinnedDimensions p = Essence.pinnedDimensions e ->
             EssenceValue.pinnedSort p = Essence.pinnedSort e ->
             EssenceValue.compare p = Essence.compare e ->
             EssenceValue.highlight p = Essence.highlight e ->
             Essence.new p = Ok e).
  { intros p Hdss Hds Hv Hs Hc Hviss Htz Hf Hrf Hsm Hpd Hps Hcp Hh.
    rewrite (new_again e) by assumption.
    rewrite Hdss, Hviss, Htz, Hf, Hrf, Hsm, Hpd, Hps, Hcp, Hh.
    destruct e; reflexivity. }
  apply Hnew; try reflexivity.
  cbn [EssenceValue.pinnedSort].
  destruct (String.eqb (Essence.pinnedSort e) (DataSource_defaultSortMeasure ds))
    eqn:Edef.
  - apply String.eqb_eq in Edef. rewrite <- Edef.
    destruct (negb _); reflexivity.
  - destruct pinnedSort_valid as [Hdef | [Hm Hne]].
    + apply String.eqb_neq in Edef. contradiction.
    + apply String.eqb_neq in Hne. rewrite Hne, Hm. reflexivity.
Qed.
End RoundTripJS.

(** ** An update of the data source, and the same data source once more *)

Section UpdateTwice.
Context `{Collaborators}.

Lemma find_replaced (name : string) (ds : DataSource) (l : list DataSource)
    (x : DataSource) :
  DataSource_name ds = name ->
  find (fun d => String.eqb (DataSource_name d) name) l = Some x ->
  find (fun d => String.eqb (DataSource_name d) name)
       (map (fun d => if String.eqb (DataSource_name d) name then ds else d) l)
  = Some ds.
Proof.
  intros Hname. induction l as [|d l IH]; simpl; [discriminate|].
  destruct (String.eqb (DataSource_name d) name) eqn:Ed.
  - intros _. rewrite Hname, String.eqb_refl. reflexivity.
  - intros Hfind. rewrite Ed. apply IH. assumption.
Qed.

(** X19: after an update of the selected data source the catalogue of
    the state has the new data source in the place of every entry of its
    name, and as many entries as before. So the state is on a data source
    of its catalogue, and handing the same data source to
    [changeDataSource] once more no longer updates: it gives the defaults of
    [fromDataSource], when the data source equals itself. *)
Theorem changeDataSource_update_then_reset
    (e : Essence.t) (ds existing : DataSource) (e' : Essence.t) :
  find (fun d => String.eqb (DataSource_name d) (DataSource_name ds))
       (Essence.dataSources e) = Some existing ->
  DataSource_equals existing ds = false ->
  String.eqb (DataSource_name (Essence.dataSource e)) (DataSource_name ds) = true ->
  Essence.changeDataSource e ds = Ok e' ->
  Essence.dataSources e'
  = map (fun d => if String.eqb (DataSource_name d) (DataSource_name ds) then ds else d)
        (Essence.dataSources e) /\
  List.length (Essence.dataSources e') = List.length (Essence.dataSources e) /\
  find (fun d => String.eqb (DataSource_name d) (DataSource_name ds))
       (Essence.dataSources e') = Some ds /\
  In (Essence.dataSource e') (Essence.dataSources e') /\
  (DataSource_equals ds ds = true ->
   Essence.changeDataSource e' ds
   = Essence.fromDataSource ds (Essence.dataSources e') (Essence.visualizations e')).
Proof.
  intros Hfind Hneq Hname Hchange.
  rewrite (changeDataSource_update e ds existing Hfind Hneq Hname) in Hchange.
  destruct (new_Ok _ _ Hchange) as (_ & Hcopies & _).
  destruct Hcopies as (Hdss & _ & Hds & _).
  cbn [changeDataSource_value EssenceValue.dataSources EssenceValue.dataSource] in *.
  injection Hds as Hds.
  assert (Hfound :
            find (fun d => String.eqb (DataSource_name d) (DataSource_name ds))
                 (Essence.dataSources e') = Some ds).
  { rewrite Hdss. apply find_replaced with (x := existing); [reflexivity | assumption]. }
  split; [assumption|]. split; [rewrite Hdss; apply length_map|].
  split; [assumption|]. split.
  - rewrite Hds. apply find_some in Hfound. apply Hfound.
  - intros Hrefl. unfold Essence.changeDataSource. rewrite Hfound, Hrefl. reflexivity.
Qed.
End UpdateTwice.

(** ** Accepting a highlight and changing the time range *)

Section EffectiveFilter.
Context `{MoreCollaborators}.

(** X20: accepting a highlight does not change what the data is filtered
    by: the state that [acceptHighlight] returns has the effective filter of
    before, so that [differentEffectiveFilter] reports no difference where
    a filter equals itself; no owner has a highlight on it, and accepting
    once more gives the same state. *)
Theorem acceptHighlight_keeps_effective_filter (e e' : Essence.t) :
  Essence.acceptHighlight e = Ok e' ->
  Essence.getEffectiveFilter e' None None = Essence.getEffectiveFilter e None None /\
  (Filter_equals (Essence.getEffectiveFilter e None None)
                 (Essence.getEffectiveFilter e None None) = true ->
   Essence.differentEffectiveFilter e' e None None = false) /\
  (forall owner, Essence.highlightOn e' owner = false) /\
  Essence.acceptHighlight e' = Ok e'.
Proof.
  intros Haccept.
  assert (Hfolded :
            Essence.highlight e' = None /\
            Essence.filter e' = Essence.getEffectiveFilter e None None).
  { unfold Essence.acceptHighlight, Essence.getEffectiveFilter in *.
    destruct (Essence.highlight e) as [h|] eqn:Eh.
    - rewrite changeFilter_unfold in Haccept.
      destruct (new_Ok _ _ Haccept) as (_ & Hcopies & _).
      destruct Hcopies as (_ & _ & _ & _ & Hf & _ & _ & _ & _ & _ & Hh).
      split; assumption.
    - injection Haccept as <-. rewrite Eh. split; reflexivity. }
  destruct Hfolded as [Hh Hf].
  assert (Hsame : Essence.getEffectiveFilter e' None None
                  = Essence.getEffectiveFilter e None None).
  { unfold Essence.getEffectiveFilter at 1. rewrite Hh. assumption. }
  split; [assumption|]. split; [|split].
  - intros Hrefl. unfold Essence.differentEffectiveFilter. cbv zeta.
    rewrite Hsame, Hrefl. reflexivity.
  - intros owner. unfold Essence.highlightOn. rewrite Hh. reflexivity.
  - unfold Essence.acceptHighlight. rewrite Hh. reflexivity.
Qed.

(** X21: [changeTimeRange] sets the time range in the filter and leaves
    a pending highlight pending, where a change of the splits folds it; the
    data source, the visualisation, the selected measures and the pinned
    dimensions stay. On a constructed state whose visualisation adjusts to
    ready it returns. *)
Theorem changeTimeRange_keeps_highlight (e : Essence.t) (timeRange : TimeRange) :
  (forall e',
      Essence.changeTimeRange e timeRange = Ok e' ->
      Essence.filter e'
      = match Essence.getTimeAttribute e with
        | Some timeAttribute =>
          Filter_setTimeRange (Essence.filter e) timeAttribute timeRange
        | None => Filter_setTimeRange_unbound (Essence.filter e) timeRange
        end /\
      Essence.highlight e' = Essence.highlight e /\
      Essence.dataSource e' = Essence.dataSource e /\
      Essence.visualization e' = Essence.visualization e /\
      Essence.selectedMeasures e' = Essence.selectedMeasures e /\
      Essence.pinnedDimensions e' = Essence.pinnedDimensions e) /\
  (Essence.constructed e -> adjusts_to_ready (Essence.visualization e) ->
   exists e', Essence.changeTimeRange e timeRange = Ok e').
Proof.
  unfold Essence.changeTimeRange. split.
  - intros e' Hchange.
    assert (Hvalue : exists f splits,
               Essence.new (changeFilter_value e f false splits) = Ok e' /\
               f = match Essence.getTimeAttribute e with
                   | Some timeAttribute =>
                     Filter_setTimeRange (Essence.filter e) timeAttribute timeRange
                   | None => Filter_setTimeRange_unbound (Essence.filter e) timeRange
                   end).
    { destruct (Essence.getTimeAttribute e) as [ta|];
        rewrite changeFilter_unfold in Hchange; eauto. }
    destruct Hvalue as (f & splits & Hnew & ->).
    destruct (new_Ok _ _ Hnew) as (_ & Hcopies & Hchosen & _).
    destruct Hcopies as (_ & _ & Hds & _ & Hf & _ & Hsm & Hpd & _ & _ & Hh).
    cbn in Hds, Hchosen. injection Hds as Hds. injection Hchosen as Hv.
    repeat split; try assumption; congruence.
  - intros Hc Hadj.
    destruct (Essence.getTimeAttribute e) as [ta|]; rewrite changeFilter_unfold;
      apply new_succeeds with (ds := Essence.dataSource e) (v := Essence.visualization e);
      try assumption; try reflexivity;
      simpl; apply constructed_dataSources; assumption.
Qed.
End EffectiveFilter.

(** * The sample catalogue at work *)

Section OnTheSample.
Import Sample.
#[local] Existing Instance collaborators.

Lemma sample_adjusts_to_ready (v : string) :
  String.eqb v "misconfigured" = false -> adjusts_to_ready v.
Proof.
  intros Hv ds splits colors. simpl. unfold handle. rewrite Hv.
  destruct (String.eqb v "totals").
  - destruct splits; [discriminate|]. intros _. eexists. split; reflexivity.
  - destruct (String.eqb v "table").
    + destruct splits; discriminate.
    + destruct splits as [|s [|s' splits]]; discriminate.
Qed.

(** Every sample state is one that the constructor returns. *)
Lemma sample_constructed (e : Essence.t) :
  Essence.new (Essence.valueOf e) = Ok e -> Essence.constructed e.
Proof. intros Hnew. exists (Essence.valueOf e). assumption. Qed.

Example stringify_then_parse : parse (stringify sample_json) = Ok sample_json.
Proof. vm_compute. reflexivity. Qed.

(** Without a highlight the sample state comes back from its hash. *)
Example overview_round_trip :
  Essence.fromHash (Essence.toHash overview) catalog gallery = Ok (Some overview) /\
  Essence.equals overview overview = true.
Proof. split; reflexivity. Qed.

(** X1, on the sample: with colours and compare set and no highlight, the
    state comes back. *)
Lemma fromHash_toHash_without_highlight_gives_state_witness :
  Essence.fromHash (Essence.toHash coloured) catalog gallery = Ok (Some coloured).
Proof.
  apply (fromHash_toHash_without_highlight_gives_state (H := collaborators) coloured);
    try reflexivity.
  - exists (Essence.valueOf coloured). reflexivity.
  - split; [reflexivity | discriminate].
  - intros c [= <-]. reflexivity.
  - split; reflexivity.
  - intros f [-> | [-> | [= <-]]]; split; reflexivity.
  - split; reflexivity.
  - intros c [= <-]. split; reflexivity.
Defined.

(** C1, on the sample: the hash of the highlighted state carries ten
    elements and decodes to [null]. *)
Lemma fromHash_toHash_with_highlight_is_null_witness :
  List.length (Essence.compressed_of (Essence.toJS highlighted)) = 10 /\
  Essence.fromHash (Essence.toHash highlighted) catalog gallery = Ok None.
Proof.
  apply (fromHash_toHash_with_highlight_is_null highlighted on_page catalog gallery);
    reflexivity.
Defined.



(** C3 fails as stated: the refreshed data source has the name of the
    current one and other content, and the state that comes back keeps the
    filter and the split, constrained, where the defaults of the refreshed
    data source have another filter and no split; and the change to the
    data source of another name gives that one's defaults. *)
Lemma refresh_constrains_and_switch_resets :
  ds_name wiki_refreshed = ds_name (Essence.dataSource filtered) /\
  data_source_eqb wiki wiki_refreshed = false /\
  Essence.changeDataSource filtered wiki_refreshed = Ok filtered_refreshed /\
  Essence.fromDataSource wiki_refreshed catalog gallery = Ok refreshed_defaults /\
  Essence.filter filtered_refreshed = [last_day; is_in "page" "Main"] /\
  Essence.filter refreshed_defaults = [range_clause "time" (1976, 2000)%Z] /\
  Essence.splits filtered_refreshed = by_page /\
  Essence.splits refreshed_defaults = [] /\
  Essence.equals filtered_refreshed refreshed_defaults = false /\
  Essence.changeDataSource filtered static
    = Essence.fromDataSource static catalog gallery.
Proof. repeat split. Qed.

Lemma changeDataSource_paths_witness :
  Essence.changeDataSource filtered static
    = Essence.fromDataSource static catalog gallery.
Proof.
  apply (proj1 (proj2 (changeDataSource_paths filtered static)) static);
    reflexivity.
Defined.

(** C4, on the sample: two segments; a version that is not 1; a payload
    that is not JSON; an array of three elements; an empty payload, which
    decompresses to [null]. *)
Lemma fromHash_rejects_malformed_hash_witness :
  Essence.fromHash "#wiki/totals" catalog gallery = Ok None /\
  Essence.fromHash "#wiki/totals/2/null" catalog gallery = Ok None /\
  Essence.fromHash "#wiki/totals/1/[[" catalog gallery = Ok None /\
  Essence.fromHash "#wiki/totals/1/1,2,3" catalog gallery = Ok None /\
  Essence.fromHash "wiki/totals/1/" catalog gallery = Ok None.
Proof.
  split; [|split; [|split; [|split]]];
    apply (fromHash_rejects_malformed_hash (H := collaborators)).
  - left. simpl. lia.
  - right. exists "wiki", "totals", "2", ["null"]. split; [reflexivity|].
    left. discriminate.
  - right. exists "wiki", "totals", "1", ["[["]. split; [reflexivity|].
    right. left. eexists. reflexivity.
  - right. exists "wiki", "totals", "1", ["1,2,3"]. split; [reflexivity|].
    right. right. right. exists (JArr [JNum 1; JNum 2; JNum 3]).
    split; [reflexivity|].
    intros items [= <-]. left. simpl. lia.
  - right. exists "wiki", "totals", "1", [""]. split; [reflexivity|].
    right. right. left. split; reflexivity.
Defined.

(** C5 fails as stated: the selection was [added, count]; after [deleted]
    is toggled on and off it is [count, added], which [equals] tells apart. *)
Lemma toggle_on_off_reorders_selection :
  In "deleted" (ds_measures (Essence.dataSource reordered)) /\
  Essence.toggleMeasure reordered "deleted" = Ok overview /\
  Essence.toggleMeasure overview "deleted" = Ok count_and_added /\
  Essence.selectedMeasures reordered = ["added"; "count"] /\
  Essence.selectedMeasures count_and_added = ["count"; "added"] /\
  OrderedSet_equals (Essence.selectedMeasures count_and_added)
                    (Essence.selectedMeasures reordered) = false.
Proof. split; [simpl; auto|]. repeat split. Qed.

Lemma toggleMeasure_on_off_orders_selection_witness :
  Essence.selectedMeasures count_and_added = ["count"; "added"].
Proof.
  exact (proj1 (proj1 (toggleMeasure_on_off_orders_selection (H := collaborators))
                  reordered "deleted" overview count_and_added
                  (or_intror (or_intror (or_introl eq_refl))) eq_refl eq_refl eq_refl)).
Defined.

(** C6, on the sample: the totals do not take a split, so the constructor
    applies the adjustment they suggest (no split) and the verdict it caches
    is ready; a visualisation that is not ready after its adjustment makes
    the constructor throw. *)
Lemma constructed_verdict_never_automatic_witness :
  Essence.new
    (EssenceValue.set_splits (Essence.valueOf overview)
       [{| sc_expression := "page"; sc_bucket := None |}]) = Ok overview /\
  isAutomatic (Essence.visResolve overview) = false /\
  Essence.new
    (EssenceValue.set_visualization (Essence.valueOf overview) (Some "misconfigured"))
    = Throw (JsError "visualization must be ready after automatic adjustment").
Proof.
  refine ((fun Hnew =>
             conj Hnew
               (conj (proj1 (proj1 constructed_verdict_never_automatic _ _ Hnew)) _))
            _).
  - apply (proj2 constructed_verdict_never_automatic
             (EssenceValue.set_visualization (Essence.valueOf overview)
                (Some "misconfigured"))
             wiki "misconfigured" {| adj_splits := []; adj_colors := None |});
      try reflexivity; discriminate.
  - reflexivity.
Defined.

Lemma highlighted_constructed : Essence.constructed highlighted.
Proof. apply sample_constructed. reflexivity. Qed.

Lemma empty_table_constructed : Essence.constructed empty_table.
Proof. apply sample_constructed. reflexivity. Qed.

Lemma by_hour_constructed : Essence.constructed by_hour.
Proof. apply sample_constructed. reflexivity. Qed.

(** C7, on the sample: the highlight on a page is folded into the filter. *)
Lemma acceptHighlight_folds_highlight_witness :
  exists e',
    Essence.acceptHighlight highlighted = Ok e' /\
    Essence.filter e' = Essence.getEffectiveFilter highlighted None None /\
    Essence.highlight e' = None.
Proof.
  destruct (proj2 (proj2 (acceptHighlight_folds_highlight highlighted))
              on_page eq_refl highlighted_constructed
              (sample_adjusts_to_ready "totals" eq_refl)) as [e' He'].
  exists e'. split; [exact He'|].
  exact (proj1 (proj2 (acceptHighlight_folds_highlight highlighted))
           on_page e' eq_refl He').
Defined.

Example acceptHighlight_on_the_sample :
  Essence.acceptHighlight highlighted
    = Ok (state "totals" [last_day; is_in "page" "Main"] [] all_measures None).
Proof. reflexivity. Qed.


(** C9, on the sample: the table without a split is in manual mode; with a
    split on the page the bar chart ranks first, and it is chosen from the
    overview, yet the table stays. *)
Lemma changeSplits_manual_keeps_visualization_witness :
  isManual (Essence.visResolve empty_table) = true /\
  exists e',
    Essence.changeSplits empty_table
      [{| sc_expression := "page"; sc_bucket := None |}] FairGame = Ok e' /\
    Essence.visualization e' = "table".
Proof.
  split; [reflexivity|].
  destruct (proj2 (proj2 (changeSplits_manual_keeps_visualization empty_table
                            [{| sc_expression := "page"; sc_bucket := None |}]
                            FairGame eq_refl))
              empty_table_constructed (sample_adjusts_to_ready "table" eq_refl))
    as [e' He'].
  exists e'. split; [exact He'|].
  exact (proj1 (proj2 (changeSplits_manual_keeps_visualization empty_table
                         [{| sc_expression := "page"; sc_bucket := None |}]
                         FairGame eq_refl))
           e' He').
Defined.

Example changeSplits_fair_game_from_overview :
  option_map Essence.visualization
    (match Essence.changeSplits overview
             [{| sc_expression := "page"; sc_bucket := None |}] FairGame with
     | Ok e => Some e
     | Throw _ => None
     end) = Some "bar-chart".
Proof. reflexivity. Qed.

End OnTheSample.

(** * The sample catalogue and the rest of the methods *)

Section MoreOnTheSample.
Import Sample.
#[local] Existing Instance collaborators.
#[local] Existing Instance more_collaborators.

Lemma gallery_adjusts_to_ready (v : string) : In v gallery -> adjusts_to_ready v.
Proof.
  intros [<- | [<- | [<- | []]]]; apply sample_adjusts_to_ready; reflexivity.
Qed.

Lemma sample_orders_verdicts : orders_verdicts (H := collaborators) Resolve_compare.
Proof.
  split; simpl.
  - intros a b. lia.
  - intros a b c. lia.
Qed.

(** X3, on the sample. *)
Lemma unchanged_value_gives_state_back_witness :
  Essence.changeVisualization overview "totals" = Ok overview.
Proof.
  exact (proj1 (proj2 (proj2 (unchanged_value_gives_state_back (H := collaborators)
                                overview (sample_constructed overview eq_refl))))).
Defined.

(** X4, on the sample: the page is pinned after the language. *)
Lemma pin_and_unpin_witness :
  Essence.pin overview "page"
  = Ok (with_pinnedDimensions overview ["language"; "page"]).
Proof.
  exact (proj1 (pin_and_unpin (H := collaborators) overview "page"
                  (sample_constructed overview eq_refl))).
Defined.

(** X5, on the sample: without its highlight the highlighted state is the
    overview. *)
Lemma dropHighlight_leaves_owner_view_witness :
  Essence.dropHighlight highlighted = Ok overview.
Proof.
  exact (proj1 (proj2 (dropHighlight_leaves_owner_view (H := collaborators)
                         highlighted on_page
                         (sample_constructed highlighted eq_refl) eq_refl))).
Defined.

(** X6, on the sample: split by page, the bar chart is ready and the
    totals ask for an adjustment. *)
Lemma getBestVisualization_is_best_witness :
  (rank (handle "bar-chart" wiki by_page None false)
   - rank (handle "totals" wiki by_page None false) <= 0)%Z.
Proof.
  exact (proj2 (proj2 (proj2 (getBestVisualization_is_best (H := collaborators)
                                gallery wiki by_page None None sample_orders_verdicts)
                         {| vr_visualization := "bar-chart";
                            vr_resolve := handle "bar-chart" wiki by_page None false |}
                         eq_refl))
           "totals" (or_introl eq_refl)).
Defined.

(** X7, on the sample: the table replaces its own highlight. *)
Lemma changeHighlight_accepts_foreign_highlight_witness :
  Essence.changeHighlight highlighted "table" [is_in "page" "Talk"]
  = Ok (with_highlight highlighted (Some on_talk)).
Proof.
  exact (proj1 (proj2 (changeHighlight_accepts_foreign_highlight
                         (H := collaborators) (H0 := more_collaborators)
                         highlighted "table" [is_in "page" "Talk"]))
           (sample_constructed highlighted eq_refl) (or_introl eq_refl)).
Defined.

(** X8, on the sample: the highlight on the page is in the filter after
    the split by page. *)
Lemma changing_splits_folds_highlight_witness :
  highlight_folded highlighted split_by_page.
Proof.
  exact (proj1 (proj1 (changing_splits_folds_highlight
                         (H := collaborators) (H0 := more_collaborators) highlighted)
                  by_page FairGame split_by_page eq_refl)).
Defined.

(** X9, on the sample. *)
Lemma FilterClause_fromJS_toJS_witness :
  FilterClause.fromJS expression_fromJS set_fromJS
    (FilterClause.toJS JStr set_toJS not_english) = Ok not_english.
Proof.
  apply (FilterClause_fromJS_toJS string set_of_values expression_fromJS JStr
           set_fromJS set_toJS not_english); reflexivity.
Defined.

(** X10, on the sample: the clause that excludes the last day. *)
Lemma FilterClause_fromExpression_toExpression_witness :
  chain_fromExpression (chain_toExpression not_last_day) true = Ok not_last_day.
Proof.
  apply (FilterClause_fromExpression_toExpression chain set_of_values (Z * Z)%type
           chain_toString chain_last chain_pop chain_in chain_not set_of_range
           single_range); try reflexivity.
  intros range [= <-]. reflexivity.
Defined.

(** X11, on the sample: the time twice negated. *)
Lemma FilterClause_fromExpression_refuses_witness :
  chain_fromExpression (chain_not (chain_not (Ref "time"))) false
  = Throw (JsError "invalid expression $time.not()").
Proof.
  apply (FilterClause_fromExpression_refuses chain set_of_values (Z * Z)%type
           chain_toString chain_last chain_pop chain_in chain_not set_of_range);
    reflexivity.
Defined.

(** X13, on the sample: [deleted] is toggled on and is newly selected. *)
Lemma toggleMeasure_flips_declared_measure_witness :
  Essence.newSelectedMeasures overview reordered = true.
Proof.
  exact (proj2 (proj2 (proj1 (proj2 (toggleMeasure_flips_declared_measure
                                       (H := collaborators) reordered "deleted" overview
                                       eq_refl))
                         eq_refl))
           eq_refl).
Defined.

(** X17, on the sample. *)
Lemma changeSplits_returns_witness :
  exists e',
    Essence.changeSplits overview by_page FairGame = Ok e' /\
    In (Essence.visualization e') gallery.
Proof.
  apply (changeSplits_returns (H := collaborators) overview by_page FairGame).
  - apply sample_constructed. reflexivity.
  - discriminate.
  - apply gallery_adjusts_to_ready.
  - apply sample_adjusts_to_ready. reflexivity.
Defined.

(** X18, on the sample: the highlighted state comes back from its JSON
    form. *)
Lemma fromJS_toJS_gives_state_witness :
  Essence.fromJS (Essence.toJS highlighted) catalog gallery = Ok highlighted.
Proof.
  apply (fromJS_toJS_gives_state (H := collaborators) highlighted);
    try reflexivity.
  - apply sample_constructed. reflexivity.
  - intros f [-> | [-> | [=]]]; reflexivity.
  - left. reflexivity.
  - intros h [= <-]. reflexivity.
  - intros f [-> | ->]; reflexivity.
  - intros c [=].
  - intros f [=].
  - intros h [= <-]. split; reflexivity.
Defined.

(** X19, on the sample: the refreshed data source a second time. *)
Lemma changeDataSource_update_then_reset_witness :
  Essence.changeDataSource filtered_refreshed wiki_refreshed
  = Essence.fromDataSource wiki_refreshed [wiki_refreshed; static] gallery.
Proof.
  exact (proj2 (proj2 (proj2 (proj2
           (changeDataSource_update_then_reset (H := collaborators)
              filtered wiki_refreshed wiki filtered_refreshed
              eq_refl eq_refl eq_refl eq_refl))))
           eq_refl).
Defined.

(** X20, on the sample. *)
Lemma acceptHighlight_keeps_effective_filter_witness :
  Essence.getEffectiveFilter accepted None None
  = Essence.getEffectiveFilter highlighted None None.
Proof.
  exact (proj1 (acceptHighlight_keeps_effective_filter (H := collaborators)
                  highlighted accepted eq_refl)).
Defined.
End MoreOnTheSample.
